(** * The recommendation engine of app-best-llm (src/recommender.py)

    A shallow embedding of [Recommender]: the catalog loader ([__init__]),
    the scenario classifier ([classify_scenario]) and the scorer/ranker
    ([recommend]), followed by the properties the specification states
    about them.

    Conventions of the embedding.
    - A Python [str] is a Rocq [string] holding its UTF-8 bytes.  UTF-8 is
      self-synchronising, so [kw in text] on code points and the byte-wise
      test [str_in] agree on well-formed text.
    - A YAML number (Python [int] or [float]) is an exact rational [Q]; the
      specification's data model calls these fields real numbers.  In
      [recommend] the arithmetic on them is exact; [recommend_in] is the
      same method with the rounding of the operations and of the literals
      as a parameter, and is what the ranking is proved of.
    - A tool is a [dict] produced by the YAML loader.  Every key the code
      reads is a record field of type [option _]: [None] is an absent key.
      [d.get(k, default)] is [option_get], [d[k]] is [getitem], which
      raises [KeyError].
    - A [dict] whose iteration order matters is an association list in
      insertion order.
    - Methods take [self] and give back the outcome together with [self].
      What a call does to the objects it shares with its caller is stated
      on [recommend_h] and [classify_scenario_h], where the records, the
      catalog list and the lists the call builds live in a store and are
      read and updated in place. *)

From Stdlib Require Import String List Bool ZArith QArith Lia Permutation Sorted.
From Stdlib Require Qround OrderedTypeEx.
From Stdlib Require Import Lqa.
Import ListNotations.

Open Scope string_scope.
Open Scope list_scope.
Open Scope Z_scope.

(** ** Exceptions and the error monad *)

Inductive exn : Type :=
| FileNotFoundError
| YAMLError
| AttributeError
| KeyError (key : string).

Definition result (A : Type) : Type := (exn + A)%type.

Definition ret {A : Type} (a : A) : result A := inr a.
Definition raise {A : Type} (e : exn) : result A := inl e.

Definition bind {A B : Type} (m : result A) (f : A -> result B) : result B :=
  match m with
  | inl e => inl e
  | inr a => f a
  end.

Notation "x <- m ;; k" := (bind m (fun x => k))
  (at level 61, m at next level, right associativity).

(** ** Python built-ins used by the module *)

(** [d.get(k, default)] on a key that is a record field. *)
Definition option_get {A : Type} (o : option A) (default : A) : A :=
  match o with
  | Some a => a
  | None => default
  end.

(** [d[k]] on a key that is a record field. *)
Definition getitem {A : Type} (k : string) (o : option A) : result A :=
  match o with
  | Some a => ret a
  | None => raise (KeyError k)
  end.

(** [d.get(k, default)] on a dict with string keys. *)
Fixpoint dict_get {V : Type} (d : list (string * V)) (k : string) (default : V) : V :=
  match d with
  | [] => default
  | (k', v) :: d' => if String.eqb k' k then v else dict_get d' k default
  end.

(** [d[k] = v]: an existing key keeps its position, a new key goes last. *)
Fixpoint dict_set {V : Type} (d : list (string * V)) (k : string) (v : V)
  : list (string * V) :=
  match d with
  | [] => [(k, v)]
  | (k', v') :: d' =>
      if String.eqb k' k then (k', v) :: d' else (k', v') :: dict_set d' k v
  end.

(** Iterating a dict yields its keys. *)
Definition dict_keys {V : Type} (d : list (string * V)) : list string :=
  map fst d.

(** [x in xs] for a list of strings. *)
Definition list_in (x : string) (xs : list string) : bool :=
  existsb (String.eqb x) xs.

(** [s in t] for strings: [s] occurs in [t] as a contiguous run. *)
Fixpoint str_in (s t : string) : bool :=
  String.prefix s t ||
  match t with
  | EmptyString => false
  | String _ t' => str_in s t'
  end.

(** [x < y] on numbers. *)
Definition Qltb (x y : Q) : bool := negb (Qle_bool y x).

(** [min(xs, default=d)]: the first least element. *)
Definition py_min (xs : list Q) (default : Q) : Q :=
  match xs with
  | [] => default
  | x :: rest => fold_left (fun m y => if Qltb y m then y else m) rest x
  end.

(** [l[:n]], for [n] of either sign. *)
Definition slice_to {A : Type} (l : list A) (n : Z) : list A :=
  if n <? 0
  then firstn (Z.to_nat (Z.max 0 (Z.of_nat (length l) + n))) l
  else firstn (Z.to_nat n) l.

(** [sorted(l, key=key, reverse=True)] and [l.sort(key=key, reverse=True)].
    The sort compares keys with [<] only, is stable, and [reverse=True]
    keeps the original order of elements with equal keys.  Each element is
    put in front of the first already placed element that its key is not
    below. *)
Section SortReverse.
Context {A K : Type}.
Variable key : A -> K.
Variable lt : K -> K -> bool.

Fixpoint insert_reverse (x : A) (l : list A) : list A :=
  match l with
  | [] => [x]
  | y :: l' =>
      if lt (key x) (key y) then y :: insert_reverse x l' else x :: y :: l'
  end.

Definition sort_reverse (l : list A) : list A :=
  fold_right insert_reverse [] l.
End SortReverse.

(** ** Data model: the records of data/tools.yaml *)

Record Plan : Type := {
  price : option Q
}.

Record Pricing : Type := {
  free_tier : option bool;
  paid_plans : option (list Plan)
}.

Record Scores : Type := {
  overall : option Q;
  ease_of_use : option Q;
  quality : option Q;
  value : option Q
}.

Record Tool : Type := {
  tool_id : option string;
  tool_name : option string;
  category : option string;
  technical_level : option string;
  scores : option Scores;
  pricing : option Pricing
}.

(** ** Module constants *)

Definition CATEGORY_KEYWORDS : list (string * list string) :=
  [ ("coding", ["代码"; "编程"; "开发"; "debug"; "调试"; "重构"; "API"; "程序"; "软件"; "脚本"]);
    ("writing", ["写作"; "文章"; "博客"; "文案"; "内容"; "翻译"; "邮件"; "报告"; "文档"; "论文"]);
    ("image", ["图片"; "图像"; "绘图"; "设计"; "插画"; "海报"; "视觉"; "美术"; "生图"]);
    ("audio", ["语音"; "音频"; "音乐"; "配音"; "转录"; "字幕"; "播客"; "歌曲"]);
    ("research", ["搜索"; "调研"; "查找"; "信息"; "资料"; "学术"; "分析"; "新闻"]);
    ("data", ["数据"; "分析"; "统计"; "图表"; "可视化"; "Excel"; "CSV"; "数据库"]);
    ("video", ["视频"; "短片"; "动画"; "影片"; "剪辑"; "特效"]);
    ("foundation", ["对话"; "聊天"; "问答"; "推理"; "通用"; "助手"]) ].

Definition BUDGET_LEVELS : list (string * Z) :=
  [ ("free", 0); ("low", 20); ("medium", 50); ("high", 999) ].

Definition TECH_LEVELS : list (string * Z) :=
  [ ("beginner", 1); ("intermediate", 2); ("advanced", 3) ].

(** ** ToolResult *)

Record ToolResult : Type := {
  tool : Tool;
  score : Q;
  match_reasons : list string
}.

Definition plan_prices (t : Tool) : list Q :=
  map (fun p => option_get (price p) 0%Q)
      (option_get (paid_plans (option_get (pricing t)
         {| free_tier := None; paid_plans := None |})) []).

Definition free_tier_of (t : Tool) : bool :=
  option_get (free_tier (option_get (pricing t)
     {| free_tier := None; paid_plans := None |})) false.

Definition min_paid_price (r : ToolResult) : Q :=
  py_min (plan_prices (tool r)) 0%Q.

Definition has_free_tier (r : ToolResult) : bool :=
  free_tier_of (tool r).

(** ** Recommender *)

Record Recommender : Type := {
  tools : list Tool
}.

(** A method's outcome: what it returns or raises, and the object after. *)
Definition method (A : Type) : Type := Recommender -> result A * Recommender.

(** *** [__init__]

    What [open] and [yaml.safe_load] give for the path: no file, a file
    that is not YAML, or the loaded document.  A document is a mapping,
    whose [tools] entry may be absent, or something without [.get] (an
    empty file loads as [None], a top-level sequence as a list). *)
Inductive Document : Type :=
| DocMapping (tools_entry : option (list Tool))
| DocNotMapping.

Inductive Source : Type :=
| SourceMissing
| SourceUnparsable
| SourceLoaded (data : Document).

Definition yaml_safe_load_open (src : Source) : result Document :=
  match src with
  | SourceMissing => raise FileNotFoundError
  | SourceUnparsable => raise YAMLError
  | SourceLoaded data => ret data
  end.

Definition Recommender_init (src : Source) : result Recommender :=
  data <- yaml_safe_load_open src ;;
  match data with
  | DocNotMapping => raise AttributeError
  | DocMapping entry => ret {| tools := option_get entry [] |}
  end.

(** *** [classify_scenario]

    [str.lower] is Python's Unicode lower-casing; the method is embedded
    for any such function.  The sort key [scores[c]] is read for keys of
    [scores] only, so the default given to [dict_get] is never returned. *)
Section Classifier.
Variable str_lower : string -> string.

(** [sum(1 for kw in keywords if kw.lower() in text_lower)] *)
Definition keyword_count (text_lower : string) (keywords : list string) : nat :=
  length (filter (fun kw => str_in (str_lower kw) text_lower) keywords).

(** The loop over [CATEGORY_KEYWORDS.items()] that fills [scores]. *)
Fixpoint classify_loop (text_lower : string)
    (items : list (string * list string)) (scores : list (string * nat))
  : list (string * nat) :=
  match items with
  | [] => scores
  | (category, keywords) :: items' =>
      let count := keyword_count text_lower keywords in
      if (0 <? count)%nat
      then classify_loop text_lower items' (dict_set scores category count)
      else classify_loop text_lower items' scores
  end.

Definition classify_scenario (text : string) : method (list string) :=
  fun self =>
    let text_lower := str_lower text in
    let scores := classify_loop text_lower CATEGORY_KEYWORDS [] in
    match scores with
    | [] => (ret ["foundation"], self)
    | _ :: _ =>
        (ret (sort_reverse (fun c => dict_get scores c 0%nat) Nat.ltb
                (dict_keys scores)),
         self)
    end.
End Classifier.

(** *** [recommend] *)

(** The budget adjustment of the score, after the hard filter. *)
Definition budget_adjust (has_free : bool) (min_price : Q) (budget_limit : Z)
    (score : Q) (reasons : list string) : Q * list string :=
  if negb has_free && Qltb (inject_Z budget_limit) min_price
  then ((score * (7 # 10))%Q, reasons)
  else if has_free
       then ((score + (3 # 10))%Q, reasons ++ ["有免费版"])
       else (score, reasons).

(** The technical-level adjustment of the score. *)
Definition tech_adjust (tool_tech user_tech : Z)
    (score : Q) (reasons : list string) : Q * list string :=
  if tool_tech <=? user_tech
  then ((score + (2 # 10))%Q, reasons ++ ["适合你的技术水平"])
  else if user_tech + 1 <? tool_tech
       then ((score - (5 # 10))%Q, reasons)
       else (score, reasons).

Definition tool_tech_of (t : Tool) : Z :=
  dict_get TECH_LEVELS (option_get (technical_level t) "beginner") 1.

Definition category_in (t : Tool) (categories : list string) : bool :=
  match category t with
  | Some c => list_in c categories
  | None => false
  end.

(** One pass of the loop body for [tool]: [None] is [continue], [Some r]
    is the result appended. *)
Definition recommend_body (categories : list string) (budget : string)
    (budget_limit user_tech : Z) (t : Tool) : result (option ToolResult) :=
  if negb (category_in t categories) then ret None
  else
    scores_ <- getitem "scores" (scores t) ;;
    score0 <- getitem "overall" (overall scores_) ;;
    let min_price := py_min (plan_prices t) 0%Q in
    let has_free := free_tier_of t in
    if String.eqb budget "free" && negb has_free then ret None
    else
      let '(score1, reasons1) :=
        budget_adjust has_free min_price budget_limit score0 [] in
      let '(score2, reasons2) :=
        tech_adjust (tool_tech_of t) user_tech score1 reasons1 in
      scores_' <- getitem "scores" (scores t) ;;
      value_ <- getitem "value" (value scores_') ;;
      ret (Some {| tool := t;
                   score := (score2 + value_ * (1 # 10))%Q;
                   match_reasons := reasons2 |}).

(** [for tool in self.tools: ...], with [results] the list built so far. *)
Fixpoint recommend_loop (categories : list string) (budget : string)
    (budget_limit user_tech : Z) (ts : list Tool) (results : list ToolResult)
  : result (list ToolResult) :=
  match ts with
  | [] => ret results
  | t :: ts' =>
      r <- recommend_body categories budget budget_limit user_tech t ;;
      match r with
      | None => recommend_loop categories budget budget_limit user_tech ts' results
      | Some res =>
          recommend_loop categories budget budget_limit user_tech ts'
            (results ++ [res])
      end
  end.

Definition recommend (categories : list string) (budget tech_level : string)
    (top_n : Z) : method (list ToolResult) :=
  fun self =>
    let budget_limit := dict_get BUDGET_LEVELS budget 50 in
    let user_tech := dict_get TECH_LEVELS tech_level 1 in
    (results <- recommend_loop categories budget budget_limit user_tech
                  (tools self) [] ;;
     ret (slice_to (sort_reverse score Qltb results) top_n),
     self).

(** ** Notions the properties are stated with *)

(** Descending order of keys: [y] is not above [x]. *)
Definition not_above {A K : Type} (key : A -> K) (lt : K -> K -> bool)
    (x y : A) : Prop :=
  lt (key x) (key y) = false.

(** [x] has a key equal to [k]: neither is below the other. *)
Definition same_key {A K : Type} (key : A -> K) (lt : K -> K -> bool)
    (k : K) (x : A) : bool :=
  negb (lt k (key x)) && negb (lt (key x) k).

(** [s] occurs in [t] as a literal substring. *)
Definition occurs_in (s t : string) : Prop :=
  exists a b : string, t = (a ++ s ++ b)%string.

(** The data model's contract on [scores], for the two keys [recommend]
    reads with [d[k]]. *)
Definition has_scores (t : Tool) : bool :=
  match scores t with
  | Some s =>
      match overall s, value s with
      | Some _, Some _ => true
      | _, _ => false
      end
  | None => false
  end.

Definition well_formed (ts : list Tool) : bool := forallb has_scores ts.

(** The required fields of a record: [id], [name], [category] and
    [scores.overall]. *)
Definition lacks_required_field (t : Tool) : bool :=
  match tool_id t, tool_name t, category t, scores t with
  | Some _, Some _, Some _, Some s =>
      match overall s with
      | Some _ => false
      | None => true
      end
  | _, _, _, _ => true
  end.

Definition has_invalid_record (src : Source) : bool :=
  match src with
  | SourceLoaded (DocMapping (Some ts)) => existsb lacks_required_field ts
  | _ => false
  end.

(** The candidates that survive the filters, in catalog order. *)
Definition surviving (categories : list string) (budget tech_level : string)
    (ts : list Tool) : list ToolResult :=
  flat_map
    (fun t =>
       match recommend_body categories budget
               (dict_get BUDGET_LEVELS budget 50)
               (dict_get TECH_LEVELS tech_level 1) t with
       | inr (Some r) => [r]
       | _ => []
       end)
    ts.

(** The categories in declaration order, and the count [classify_scenario]
    gives a category for a text. *)
Definition declared_categories : list string := dict_keys CATEGORY_KEYWORDS.

Definition category_count (str_lower : string -> string) (text c : string) : nat :=
  keyword_count str_lower (str_lower text) (dict_get CATEGORY_KEYWORDS c []).

Definition positive_categories (str_lower : string -> string) (text : string)
  : list string :=
  filter (fun c => (0 <? category_count str_lower text c)%nat)
         declared_categories.

(** The entries [classify_scenario] puts into [scores] while it goes
    through [items]. *)
Definition positive_items (str_lower : string -> string) (text_lower : string)
    (items : list (string * list string)) : list (string * nat) :=
  flat_map
    (fun item =>
       let count := keyword_count str_lower text_lower (snd item) in
       if (0 <? count)%nat then [(fst item, count)] else [])
    items.

(** The text holds no keyword of any category. *)
Definition no_keyword (str_lower : string -> string) (text : string) : Prop :=
  forall c keywords kw,
    In (c, keywords) CATEGORY_KEYWORDS -> In kw keywords ->
    ~ occurs_in (str_lower kw) (str_lower text).

Definition no_keyword_b (str_lower : string -> string) (text : string) : bool :=
  forallb
    (fun item =>
       forallb (fun kw => negb (str_in (str_lower kw) (str_lower text)))
               (snd item))
    CATEGORY_KEYWORDS.

(** ** Sample data *)

(** Lower-casing of the ASCII letters; on text whose cased letters are all
    ASCII it is what [str.lower] computes. *)
Definition lower_ascii_char (c : Ascii.ascii) : Ascii.ascii :=
  let n := Ascii.nat_of_ascii c in
  if ((65 <=? n) && (n <=? 90))%nat then Ascii.ascii_of_nat (n + 32) else c.

Fixpoint lower_ascii (s : string) : string :=
  match s with
  | EmptyString => EmptyString
  | String c s' => String (lower_ascii_char c) (lower_ascii s')
  end.

Definition make_tool (name cat level : string) (ov va : Q) (free : bool)
    (prices : list Q) : Tool :=
  {| tool_id := Some name;
     tool_name := Some name;
     category := Some cat;
     technical_level := Some level;
     scores := Some {| overall := Some ov; ease_of_use := Some ov;
                       quality := Some ov; value := Some va |};
     pricing := Some {| free_tier := Some free;
                        paid_plans :=
                          Some (map (fun p => {| price := Some p |}) prices) |} |}.

(** The two tools of the specification's worked example, a paid tool above
    every ceiling but [high], and an advanced tool. *)
Definition tool_A : Tool := make_tool "A" "coding" "beginner" 8 7 true [].
Definition tool_B : Tool := make_tool "B" "coding" "beginner" 8 9 false [10%Q].
Definition tool_C : Tool := make_tool "C" "coding" "intermediate" 9 5 false [100%Q].
Definition tool_D : Tool := make_tool "D" "writing" "advanced" 9 6 true [200%Q].

Definition sample_catalog : Recommender :=
  {| tools := [tool_A; tool_B; tool_C; tool_D] |}.

(** A record with a category and nothing else. *)
Definition tool_bare : Tool :=
  {| tool_id := None; tool_name := None; category := Some "coding";
     technical_level := None; scores := None; pricing := None |}.

Definition source_bare : Source := SourceLoaded (DocMapping (Some [tool_bare])).

(** * The rest of the module and its callers

    The other two methods of [Recommender], the score bars of exporter.py
    and app.py, and the three conversation steps of app.py that call
    [classify_scenario] and [recommend].  The report writers
    ([_format_pricing], [generate_markdown], [generate_pdf]) and
    [render_results] read keys that the records here do not carry
    ([name] and [unit] of a plan, [description], [pros], ...), print
    floats and draw on the clock, a PDF library or the page: they are not
    embedded. *)

(** ** More Python built-ins *)

(** [d[k]] on a dict with string keys. *)
Fixpoint dict_getitem {V : Type} (d : list (string * V)) (k : string)
  : result V :=
  match d with
  | [] => raise (KeyError k)
  | (k', v) :: d' => if String.eqb k' k then ret v else dict_getitem d' k
  end.

(** [sorted(l)] on strings: ascending, stable; it is the descending sort
    for the converse of [<].  Strings are compared by code points, which
    is the byte order of their UTF-8 form. *)
Definition py_sorted (l : list string) : list string :=
  sort_reverse (fun s => s) (fun a b => String.ltb b a) l.

(** [sep.join(parts)] *)
Fixpoint str_join (sep : string) (parts : list string) : string :=
  match parts with
  | [] => ""
  | [p] => p
  | p :: rest => (p ++ sep ++ str_join sep rest)%string
  end.

(** [s * n] on a string: no copy at all for [n <= 0]. *)
Fixpoint str_repeat (s : string) (n : nat) : string :=
  match n with
  | O => ""
  | S n' => (s ++ str_repeat s n')%string
  end.

Definition str_mul (s : string) (n : Z) : string := str_repeat s (Z.to_nat n).

(** [round(x)] to an integer: to the nearest, a tie to the even one. *)
Definition py_round (x : Q) : Z :=
  let f := Qround.Qfloor x in
  let r := (x - inject_Z f)%Q in
  if Qltb r (1 # 2) then f
  else if Qltb (1 # 2) r then f + 1
  else if Z.even f then f else f + 1.

(** ** [Recommender.get_all_categories] and [Recommender.get_tool_by_id] *)

(** The set comprehension [{t["category"] for t in self.tools}] reads the
    category of every tool, in catalog order. *)
Fixpoint categories_of (ts : list Tool) : result (list string) :=
  match ts with
  | [] => ret []
  | t :: ts' =>
      c <- getitem "category" (category t) ;;
      cs <- categories_of ts' ;;
      ret (c :: cs)
  end.

(** The set holds each category once; [sorted] makes its iteration order
    immaterial. *)
Definition get_all_categories : method (list string) :=
  fun self =>
    (cs <- categories_of (tools self) ;;
     ret (py_sorted (nodup string_dec cs)),
     self).

(** [next((t for t in self.tools if t["id"] == tool_id), None)]: the
    generator is consumed up to its first element. *)
Fixpoint first_with_id (wanted : string) (ts : list Tool)
  : result (option Tool) :=
  match ts with
  | [] => ret None
  | t :: ts' =>
      i <- getitem "id" (tool_id t) ;;
      if String.eqb i wanted then ret (Some t) else first_with_id wanted ts'
  end.

Definition get_tool_by_id (wanted : string) : method (option Tool) :=
  fun self => (first_with_id wanted (tools self), self).

(** ** The score bars of exporter.py and app.py

    [score / max_score] raises [ZeroDivisionError] for [max_score = 0]:
    that outcome is [None]. *)
Definition _score_bar (score max_score : Q) (width : Z) : option string :=
  if Qeq_bool max_score 0 then None
  else
    let filled := py_round (score / max_score * inject_Z width)%Q in
    Some (str_mul "█" filled ++ str_mul "░" (width - filled))%string.

Definition render_score_bar (score max_score : Q) : option string :=
  if Qeq_bool max_score 0 then None
  else
    let filled := py_round (score / max_score * 8)%Q in
    Some (str_mul "█" filled ++ str_mul "░" (8 - filled))%string.

(** ** The conversation steps of app.py *)

Definition CATEGORY_NAMES : list (string * string) :=
  [ ("coding", "编程开发"); ("writing", "写作助手"); ("image", "图像生成");
    ("audio", "语音处理"); ("research", "搜索与调研"); ("data", "数据分析");
    ("video", "视频生成"); ("foundation", "基础模型") ].

Definition BUDGET_NAMES : list (string * string) :=
  [ ("free", "仅免费工具"); ("low", "低预算（≤$20/月）");
    ("medium", "中等预算（≤$50/月）"); ("high", "不限预算") ].

Definition TECH_NAMES : list (string * string) :=
  [ ("beginner", "初学者"); ("intermediate", "中级用户");
    ("advanced", "高级用户/开发者") ].

Definition BUDGET_MSG : string :=
"明白了！接下来问一下你的**预算偏好**：

请选择下方选项，或直接输入你的想法。".

Definition TECH_MSG : string :=
"好的！最后一个问题——你的**技术水平**如何？

这会影响我推荐工具的复杂度。".

Record Message : Type := {
  role : string;
  content : string
}.

(** [st.session_state], with the keys [_init_state] gives it. *)
Record SessionState : Type := {
  step : Z;
  messages : list Message;
  user_task : string;
  categories : list string;
  budget : string;
  tech_level : string;
  results : list ToolResult
}.

Definition initial_state : SessionState :=
  {| step := 0; messages := []; user_task := ""; categories := [];
     budget := "medium"; tech_level := "beginner"; results := [] |}.

(** A step of the conversation: what it raises, if anything, and the
    session state it leaves.  The module's [recommender] is an argument. *)
Definition handler : Type := SessionState -> result unit * SessionState.

Definition add_message (r c : string) (s : SessionState) : SessionState :=
  {| step := step s;
     messages := messages s ++ [ {| role := r; content := c |} ];
     user_task := user_task s; categories := categories s;
     budget := budget s; tech_level := tech_level s; results := results s |}.

Definition set_step (n : Z) (s : SessionState) : SessionState :=
  {| step := n; messages := messages s; user_task := user_task s;
     categories := categories s; budget := budget s;
     tech_level := tech_level s; results := results s |}.

Definition set_user_task (v : string) (s : SessionState) : SessionState :=
  {| step := step s; messages := messages s; user_task := v;
     categories := categories s; budget := budget s;
     tech_level := tech_level s; results := results s |}.

Definition set_categories (v : list string) (s : SessionState) : SessionState :=
  {| step := step s; messages := messages s; user_task := user_task s;
     categories := v; budget := budget s;
     tech_level := tech_level s; results := results s |}.

Definition set_budget (v : string) (s : SessionState) : SessionState :=
  {| step := step s; messages := messages s; user_task := user_task s;
     categories := categories s; budget := v;
     tech_level := tech_level s; results := results s |}.

Definition set_tech_level (v : string) (s : SessionState) : SessionState :=
  {| step := step s; messages := messages s; user_task := user_task s;
     categories := categories s; budget := budget s;
     tech_level := v; results := results s |}.

Definition set_results (v : list ToolResult) (s : SessionState) : SessionState :=
  {| step := step s; messages := messages s; user_task := user_task s;
     categories := categories s; budget := budget s;
     tech_level := tech_level s; results := v |}.

Section Handlers.
Variable str_lower : string -> string.
Variable recommender : Recommender.

Definition handle_task_input (user_input : string) : handler :=
  fun s =>
    let s := set_user_task user_input s in
    match fst (classify_scenario str_lower user_input recommender) with
    | inl e => (inl e, s)
    | inr cats =>
        let s := set_categories cats s in
        let cat_names :=
          str_join "、"
            (map (fun c => dict_get CATEGORY_NAMES c c) (slice_to cats 2)) in
        let s :=
          add_message "assistant"
            ("识别到你的需求属于 **" ++ cat_names ++ "** 场景。

" ++ BUDGET_MSG)%string s in
        (ret tt, set_step 2 s)
    end.

Definition handle_budget_input (b : string) : handler :=
  fun s =>
    let s := set_budget b s in
    match dict_getitem BUDGET_NAMES b with
    | inl e => (inl e, s)
    | inr name =>
        let s :=
          add_message "assistant"
            ("预算：**" ++ name ++ "** ✅

" ++ TECH_MSG)%string s in
        (ret tt, set_step 3 s)
    end.

Definition handle_tech_input (tech : string) : handler :=
  fun s =>
    let s := set_tech_level tech s in
    match dict_getitem TECH_NAMES tech with
    | inl e => (inl e, s)
    | inr name =>
        let s :=
          add_message "assistant"
            ("技术水平：**" ++ name ++ "** ✅

正在为你分析最佳工具组合...")%string s in
        let s := set_step 4 s in
        match fst (recommend (categories s) (budget s) (tech_level s) 3
                     recommender) with
        | inl e => (inl e, s)
        | inr rs => (ret tt, set_results rs s)
        end
    end.

(** One step after another; a step that raises ends the run. *)
Definition and_then (h1 h2 : handler) : handler :=
  fun s =>
    match h1 s with
    | (inl e, s') => (inl e, s')
    | (inr _, s') => h2 s'
    end.
End Handlers.

(** ** Further sample data *)

(** A record with an id and no category, and a record with a category and
    no id. *)
Definition tool_no_category : Tool :=
  {| tool_id := Some "X"; tool_name := None; category := None;
     technical_level := None; scores := None; pricing := None |}.

Definition tool_no_id : Tool :=
  {| tool_id := None; tool_name := None; category := Some "coding";
     technical_level := None; scores := None; pricing := None |}.

(** * [recommend] with the arithmetic of the scores as it is carried out

    A Python [float] is a binary64 number: each is a rational, and [<] on
    floats is [<] on these rationals.  What binary64 does not share with
    the rationals is the result of an operation, which is rounded, and
    the value of a literal such as [0.7], which is the nearest binary64
    number.  Here the method is embedded once more with the three
    operations and the reading of a literal as parameters; [recommend]
    above is the instance where nothing is rounded.  (The infinities and
    NaN, which scores of the data model's range never reach, are not
    rationals and are outside this embedding.) *)

Record Arithmetic : Type := {
  fl_lit : Q -> Q;
  fl_add : Q -> Q -> Q;
  fl_sub : Q -> Q -> Q;
  fl_mul : Q -> Q -> Q
}.

Definition exact_arithmetic : Arithmetic :=
  {| fl_lit := fun q => q; fl_add := Qplus; fl_sub := Qminus;
     fl_mul := Qmult |}.

Section Rounded.
Variable ar : Arithmetic.

Definition budget_adjust_in (has_free : bool) (min_price : Q)
    (budget_limit : Z) (score : Q) (reasons : list string)
  : Q * list string :=
  if negb has_free && Qltb (inject_Z budget_limit) min_price
  then (fl_mul ar score (fl_lit ar (7 # 10)), reasons)
  else if has_free
       then (fl_add ar score (fl_lit ar (3 # 10)), reasons ++ ["有免费版"])
       else (score, reasons).

Definition tech_adjust_in (tool_tech user_tech : Z)
    (score : Q) (reasons : list string) : Q * list string :=
  if tool_tech <=? user_tech
  then (fl_add ar score (fl_lit ar (2 # 10)),
        reasons ++ ["适合你的技术水平"])
  else if user_tech + 1 <? tool_tech
       then (fl_sub ar score (fl_lit ar (5 # 10)), reasons)
       else (score, reasons).

Definition recommend_body_in (categories : list string) (budget : string)
    (budget_limit user_tech : Z) (t : Tool) : result (option ToolResult) :=
  if negb (category_in t categories) then ret None
  else
    scores_ <- getitem "scores" (scores t) ;;
    score0 <- getitem "overall" (overall scores_) ;;
    let min_price := py_min (plan_prices t) 0%Q in
    let has_free := free_tier_of t in
    if String.eqb budget "free" && negb has_free then ret None
    else
      let '(score1, reasons1) :=
        budget_adjust_in has_free min_price budget_limit score0 [] in
      let '(score2, reasons2) :=
        tech_adjust_in (tool_tech_of t) user_tech score1 reasons1 in
      scores_' <- getitem "scores" (scores t) ;;
      value_ <- getitem "value" (value scores_') ;;
      ret (Some {| tool := t;
                   score := fl_add ar score2
                              (fl_mul ar value_ (fl_lit ar (1 # 10)));
                   match_reasons := reasons2 |}).

Fixpoint recommend_loop_in (categories : list string) (budget : string)
    (budget_limit user_tech : Z) (ts : list Tool) (results : list ToolResult)
  : result (list ToolResult) :=
  match ts with
  | [] => ret results
  | t :: ts' =>
      r <- recommend_body_in categories budget budget_limit user_tech t ;;
      match r with
      | None =>
          recommend_loop_in categories budget budget_limit user_tech ts'
            results
      | Some res =>
          recommend_loop_in categories budget budget_limit user_tech ts'
            (results ++ [res])
      end
  end.

Definition recommend_in (categories : list string)
    (budget tech_level : string) (top_n : Z) : method (list ToolResult) :=
  fun self =>
    let budget_limit := dict_get BUDGET_LEVELS budget 50 in
    let user_tech := dict_get TECH_LEVELS tech_level 1 in
    (results <- recommend_loop_in categories budget budget_limit user_tech
                  (tools self) [] ;;
     ret (slice_to (sort_reverse score Qltb results) top_n),
     self).

(** The candidates that survive the filters, in catalog order, with their
    scores in this arithmetic. *)
Definition surviving_in (categories : list string)
    (budget tech_level : string) (ts : list Tool) : list ToolResult :=
  flat_map
    (fun t =>
       match recommend_body_in categories budget
               (dict_get BUDGET_LEVELS budget 50)
               (dict_get TECH_LEVELS tech_level 1) t with
       | inr (Some r) => [r]
       | _ => []
       end)
    ts.
End Rounded.

(** An arithmetic that is not exact, for trying the method on: every
    literal and every result is rounded to the nearest eighth. *)
Definition eighth_arithmetic : Arithmetic :=
  let nearest (q : Q) := (inject_Z (py_round (q * 8)) / 8)%Q in
  {| fl_lit := nearest;
     fl_add := fun x y => nearest (x + y)%Q;
     fl_sub := fun x y => nearest (x - y)%Q;
     fl_mul := fun x y => nearest (x * y)%Q |}.

(** Two tools whose scores are equal when nothing is rounded. *)
Definition tool_X : Tool := make_tool "X" "coding" "beginner" 6 6 true [].
Definition tool_Y : Tool := make_tool "Y" "coding" "beginner" 6 9 false [10%Q].

(** * The methods on a store of shared objects

    In Python the catalog list, the record dicts, the lists of reasons and
    the dict [scores] of [classify_scenario] are objects that are read and
    updated in place, and a [ToolResult] holds the record dict itself, not
    a copy.  Here the objects live in a store, an object is named by its
    position in it, and every read, allocation and in-place update of the
    two methods is a step on the store.  A number or a string is a value;
    so is the local variable [score], which [score *= 0.7] rebinds.  The
    list [results] and the [ToolResult]s are created, filled and handed
    out by the call and are values here; a [ToolResult] names its record
    and its list of reasons by their positions. *)

Inductive Obj : Type :=
| ODict (t : Tool)
| ORefs (refs : list nat)
| OList (items : list string)
| OCounts (entries : list (string * nat)).

Definition Heap : Type := list Obj.

(** A computation on the store: what it returns or raises, and the store
    it leaves. *)
Definition prog (A : Type) : Type := Heap -> result A * Heap.

Definition pret {A : Type} (a : A) : prog A := fun h => (inr a, h).

Definition plift {A : Type} (r : result A) : prog A := fun h => (r, h).

Definition pbind {A B : Type} (m : prog A) (f : A -> prog B) : prog B :=
  fun h =>
    match m h with
    | (inl e, h') => (inl e, h')
    | (inr a, h') => f a h'
    end.

Notation "x <~ m ;; k" := (pbind m (fun x => k))
  (at level 61, m at next level, right associativity).

(** The store with the object at [a] replaced. *)
Definition heap_set (h : Heap) (a : nat) (o : Obj) : Heap :=
  firstn a h ++ match skipn a h with
                | [] => []
                | _ :: rest => o :: rest
                end.

(** A new object; its position is returned. *)
Definition alloc (o : Obj) : prog nat :=
  fun h => (inr (length h), h ++ [o]).

(** [.get] on something that is not a dict, and the like, raise
    [AttributeError]. *)
Definition read_dict (a : nat) : prog Tool :=
  fun h =>
    match nth_error h a with
    | Some (ODict t) => (inr t, h)
    | _ => (inl AttributeError, h)
    end.

Definition read_refs (a : nat) : prog (list nat) :=
  fun h =>
    match nth_error h a with
    | Some (ORefs refs) => (inr refs, h)
    | _ => (inl AttributeError, h)
    end.

Definition read_counts (a : nat) : prog (list (string * nat)) :=
  fun h =>
    match nth_error h a with
    | Some (OCounts entries) => (inr entries, h)
    | _ => (inl AttributeError, h)
    end.

(** [l.append(x)] *)
Definition list_append (a : nat) (x : string) : prog unit :=
  fun h =>
    match nth_error h a with
    | Some (OList items) => (inr tt, heap_set h a (OList (items ++ [x])))
    | _ => (inl AttributeError, h)
    end.

(** [d[k] = v] *)
Definition counts_setitem (a : nat) (k : string) (v : nat) : prog unit :=
  fun h =>
    match nth_error h a with
    | Some (OCounts entries) =>
        (inr tt, heap_set h a (OCounts (dict_set entries k v)))
    | _ => (inl AttributeError, h)
    end.

(** A [ToolResult] as the call builds it: the record and the list of
    reasons are named, the score is held. *)
Record ToolResultObj : Type := {
  cand_tool : nat;
  cand_score : Q;
  cand_reasons : nat
}.

(** What a [ToolResult] shows in a given store. *)
Definition view (h : Heap) (c : ToolResultObj) : option ToolResult :=
  match nth_error h (cand_tool c), nth_error h (cand_reasons c) with
  | Some (ODict t), Some (OList reasons) =>
      Some {| tool := t; score := cand_score c; match_reasons := reasons |}
  | _, _ => None
  end.

(** The store holds the catalog [ts]: [self.tools] is a list of the
    records' positions. *)
Definition catalog_at (h : Heap) (self_tools : nat) (ts : list Tool) : Prop :=
  exists refs,
    nth_error h self_tools = Some (ORefs refs) /\
    Forall2 (fun a t => nth_error h a = Some (ODict t)) refs ts.

Section OnTheStore.
Variable ar : Arithmetic.
Variable str_lower : string -> string.

Definition recommend_body_h (categories : list string) (budget : string)
    (budget_limit user_tech : Z) (a : nat) : prog (option ToolResultObj) :=
  t <~ read_dict a ;;
  if negb (category_in t categories) then pret None
  else
    reasons <~ alloc (OList []) ;;
    scores_ <~ plift (getitem "scores" (scores t)) ;;
    score0 <~ plift (getitem "overall" (overall scores_)) ;;
    let min_price := py_min (plan_prices t) 0%Q in
    let has_free := free_tier_of t in
    if String.eqb budget "free" && negb has_free then pret None
    else
      score1 <~
        (if negb has_free && Qltb (inject_Z budget_limit) min_price
         then pret (fl_mul ar score0 (fl_lit ar (7 # 10)))
         else if has_free
              then (_ <~ list_append reasons "有免费版" ;;
                    pret (fl_add ar score0 (fl_lit ar (3 # 10))))
              else pret score0) ;;
      score2 <~
        (if tool_tech_of t <=? user_tech
         then (_ <~ list_append reasons "适合你的技术水平" ;;
               pret (fl_add ar score1 (fl_lit ar (2 # 10))))
         else if user_tech + 1 <? tool_tech_of t
              then pret (fl_sub ar score1 (fl_lit ar (5 # 10)))
              else pret score1) ;;
      scores_' <~ plift (getitem "scores" (scores t)) ;;
      value_ <~ plift (getitem "value" (value scores_')) ;;
      pret (Some {| cand_tool := a;
                    cand_score :=
                      fl_add ar score2
                        (fl_mul ar value_ (fl_lit ar (1 # 10)));
                    cand_reasons := reasons |}).

Fixpoint recommend_loop_h (categories : list string) (budget : string)
    (budget_limit user_tech : Z) (refs : list nat)
    (results : list ToolResultObj) : prog (list ToolResultObj) :=
  match refs with
  | [] => pret results
  | a :: refs' =>
      r <~ recommend_body_h categories budget budget_limit user_tech a ;;
      match r with
      | None =>
          recommend_loop_h categories budget budget_limit user_tech refs'
            results
      | Some res =>
          recommend_loop_h categories budget budget_limit user_tech refs'
            (results ++ [res])
      end
  end.

(** [self.tools] is the list object at [self_tools]. *)
Definition recommend_h (categories : list string)
    (budget tech_level : string) (top_n : Z) (self_tools : nat)
  : prog (list ToolResultObj) :=
  let budget_limit := dict_get BUDGET_LEVELS budget 50 in
  let user_tech := dict_get TECH_LEVELS tech_level 1 in
  refs <~ read_refs self_tools ;;
  results <~ recommend_loop_h categories budget budget_limit user_tech
               refs [] ;;
  pret (slice_to (sort_reverse cand_score Qltb results) top_n).

Fixpoint classify_loop_h (text_lower : string)
    (items : list (string * list string)) (scores_at : nat) : prog unit :=
  match items with
  | [] => pret tt
  | (category, keywords) :: items' =>
      let count := keyword_count str_lower text_lower keywords in
      if (0 <? count)%nat
      then (_ <~ counts_setitem scores_at category count ;;
            classify_loop_h text_lower items' scores_at)
      else classify_loop_h text_lower items' scores_at
  end.

Definition classify_scenario_h (text : string) : prog (list string) :=
  let text_lower := str_lower text in
  scores_at <~ alloc (OCounts []) ;;
  _ <~ classify_loop_h text_lower CATEGORY_KEYWORDS scores_at ;;
  scores <~ read_counts scores_at ;;
  match scores with
  | [] => pret ["foundation"]
  | _ :: _ =>
      pret (sort_reverse (fun c => dict_get scores c 0%nat) Nat.ltb
              (dict_keys scores))
  end.
End OnTheStore.

(** A store that holds the sample catalog: the four records, then the
    list [self.tools]. *)
Definition sample_store : Heap :=
  [ ODict tool_A; ODict tool_B; ODict tool_C; ODict tool_D;
    ORefs [0; 1; 2; 3]%nat ].

(** * Properties *)

(** ** The stable descending sort *)

Section SortReverseFacts.
Context {A K : Type}.
Variable key : A -> K.
Variable lt : K -> K -> bool.

Lemma insert_reverse_perm (x : A) (l : list A) :
  Permutation (insert_reverse key lt x l) (x :: l).
Proof.
  induction l as [|y l IH]; simpl.
  - apply Permutation_refl.
  - destruct (lt (key x) (key y)).
    + eapply perm_trans; [apply perm_skip, IH | apply perm_swap].
    + apply Permutation_refl.
Qed.

Lemma sort_reverse_perm (l : list A) :
  Permutation (sort_reverse key lt l) l.
Proof.
  induction l as [|x l IH]; simpl.
  - constructor.
  - eapply perm_trans; [apply insert_reverse_perm | apply perm_skip, IH].
Qed.

Lemma sort_reverse_length (l : list A) :
  length (sort_reverse key lt l) = length l.
Proof. apply Permutation_length, sort_reverse_perm. Qed.

Lemma sort_reverse_In (x : A) (l : list A) :
  In x (sort_reverse key lt l) <-> In x l.
Proof.
  split; apply Permutation_in;
    [| apply Permutation_sym]; apply sort_reverse_perm.
Qed.

(** Moving an element into place does not disturb the order in which the
    elements of one key class appear. *)
Lemma insert_reverse_stable (k : K) (x : A) (l : list A) :
  (forall a b, lt a b = true -> lt b a = false) ->
  (forall a b c, lt a c = true -> lt a b = true \/ lt b c = true) ->
  filter (same_key key lt k) (insert_reverse key lt x l)
  = filter (same_key key lt k) (x :: l).
Proof.
  intros asym cotrans.
  induction l as [|y l IH]; [reflexivity|].
  cbn [insert_reverse].
  destruct (lt (key x) (key y)) eqn:Hxy; [|reflexivity].
  cbn [filter] in *. rewrite IH.
  destruct (same_key key lt k x) eqn:Hx; [|reflexivity].
  destruct (same_key key lt k y) eqn:Hy; [|reflexivity].
  exfalso.
  unfold same_key in Hx, Hy.
  apply andb_true_iff in Hx as [Hx1 Hx2], Hy as [Hy1 Hy2].
  apply negb_true_iff in Hx1, Hx2, Hy1, Hy2.
  destruct (cotrans _ k _ Hxy) as [H|H]; congruence.
Qed.

Lemma sort_reverse_stable (k : K) (l : list A) :
  (forall a b, lt a b = true -> lt b a = false) ->
  (forall a b c, lt a c = true -> lt a b = true \/ lt b c = true) ->
  filter (same_key key lt k) (sort_reverse key lt l)
  = filter (same_key key lt k) l.
Proof.
  intros asym cotrans.
  induction l as [|x l IH]; [reflexivity|].
  cbn [sort_reverse fold_right].
  rewrite insert_reverse_stable by assumption.
  cbn [filter]. fold (sort_reverse key lt l). rewrite IH. reflexivity.
Qed.

Lemma insert_reverse_sorted (x : A) (l : list A) :
  (forall a b, lt a b = true -> lt b a = false) ->
  (forall a b c, lt a c = true -> lt a b = true \/ lt b c = true) ->
  StronglySorted (not_above key lt) l ->
  StronglySorted (not_above key lt) (insert_reverse key lt x l).
Proof.
  intros asym cotrans Hs.
  induction Hs as [|y l Hs IH Hy]; cbn [insert_reverse].
  - repeat constructor.
  - destruct (lt (key x) (key y)) eqn:Hxy.
    + constructor; [exact IH|].
      rewrite Forall_forall in *. intros z Hz.
      apply (Permutation_in _ (insert_reverse_perm x l)) in Hz.
      destruct Hz as [<-|Hz]; [apply asym, Hxy | apply Hy, Hz].
    + constructor; [constructor; assumption|].
      constructor; [exact Hxy|].
      rewrite Forall_forall in *. intros z Hz.
      specialize (Hy z Hz). unfold not_above in *.
      destruct (lt (key x) (key z)) eqn:Hxz; [|reflexivity].
      destruct (cotrans _ (key y) _ Hxz); congruence.
Qed.

Lemma sort_reverse_sorted (l : list A) :
  (forall a b, lt a b = true -> lt b a = false) ->
  (forall a b c, lt a c = true -> lt a b = true \/ lt b c = true) ->
  StronglySorted (not_above key lt) (sort_reverse key lt l).
Proof.
  intros asym cotrans.
  induction l as [|x l IH]; simpl.
  - constructor.
  - apply insert_reverse_sorted; assumption.
Qed.

Lemma same_key_refl (x : A) :
  (forall a b, lt a b = true -> lt b a = false) ->
  same_key key lt (key x) x = true.
Proof.
  intros asym. unfold same_key.
  destruct (lt (key x) (key x)) eqn:E; [|reflexivity].
  pose proof (asym _ _ E). congruence.
Qed.

(** The descending order and the order within each key class leave no
    choice: a list that has both, with respect to [l], is the sorted
    list.  So [sort_reverse] is the stable descending sort, however the
    library carries it out. *)
Lemma stable_sorted_unique (l1 l2 : list A) :
  (forall a b, lt a b = true -> lt b a = false) ->
  StronglySorted (not_above key lt) l1 ->
  StronglySorted (not_above key lt) l2 ->
  (forall k, filter (same_key key lt k) l1 = filter (same_key key lt k) l2) ->
  l1 = l2.
Proof.
  intros asym Hs1. revert l2.
  induction Hs1 as [|a l1 Hs1 IH Ha]; intros l2 Hs2 Hf.
  - destruct l2 as [|b l2]; [reflexivity|].
    specialize (Hf (key b)). cbn [filter] in Hf.
    rewrite same_key_refl in Hf by exact asym. discriminate.
  - destruct Hs2 as [|b l2 Hs2 Hb].
    + specialize (Hf (key a)). cbn [filter] in Hf.
      rewrite same_key_refl in Hf by exact asym. discriminate.
    + assert (Hab : a = b).
      { pose proof (Hf (key a)) as Hfa. pose proof (Hf (key b)) as Hfb.
        cbn [filter] in Hfa, Hfb.
        rewrite same_key_refl in Hfa, Hfb by exact asym.
        destruct (same_key key lt (key a) b) eqn:Eab;
          [injection Hfa as -> _; reflexivity|].
        assert (Eba : same_key key lt (key b) a = false).
        { unfold same_key in *. rewrite andb_comm. exact Eab. }
        rewrite Eba in Hfb.
        assert (Hin_a : In a l2).
        { apply (filter_In (same_key key lt (key a))).
          rewrite <- Hfa. left. reflexivity. }
        assert (Hin_b : In b l1).
        { apply (filter_In (same_key key lt (key b))).
          rewrite Hfb. left. reflexivity. }
        rewrite Forall_forall in Ha, Hb.
        specialize (Ha b Hin_b). specialize (Hb a Hin_a).
        unfold not_above in Ha, Hb. unfold same_key in Eab.
        rewrite Ha, Hb in Eab. discriminate. }
      subst b. f_equal. apply IH; [exact Hs2|].
      intros k. specialize (Hf k). cbn [filter] in Hf.
      destruct (same_key key lt k a); [injection Hf as Hf|]; exact Hf.
Qed.
End SortReverseFacts.

Lemma StronglySorted_impl {A : Type} (R R' : A -> A -> Prop) (l : list A) :
  (forall x y, R x y -> R' x y) ->
  StronglySorted R l -> StronglySorted R' l.
Proof.
  intros HR Hs. induction Hs as [|x l Hs IH Hx]; constructor; [exact IH|].
  eapply Forall_impl; [|exact Hx]. intros y. apply HR.
Qed.

(** Sorting with two key functions that agree on the list. *)
Lemma insert_reverse_ext {A K : Type} (key key' : A -> K) (lt : K -> K -> bool)
    (x : A) (l : list A) :
  key x = key' x -> (forall y, In y l -> key y = key' y) ->
  insert_reverse key lt x l = insert_reverse key' lt x l.
Proof.
  intros Hx. induction l as [|y l IH]; intros Hl; [reflexivity|].
  cbn [insert_reverse].
  rewrite Hx, (Hl y (or_introl eq_refl)), IH; [reflexivity|].
  intros z Hz. apply Hl. right. exact Hz.
Qed.

Lemma sort_reverse_ext {A K : Type} (key key' : A -> K) (lt : K -> K -> bool)
    (l : list A) :
  (forall y, In y l -> key y = key' y) ->
  sort_reverse key lt l = sort_reverse key' lt l.
Proof.
  induction l as [|x l IH]; intros Hl; [reflexivity|].
  cbn [sort_reverse fold_right]. fold (sort_reverse key lt l).
  fold (sort_reverse key' lt l).
  rewrite <- IH by (intros z Hz; apply Hl; right; exact Hz).
  apply insert_reverse_ext.
  - apply Hl. left. reflexivity.
  - intros z Hz. apply Hl. right.
    apply (sort_reverse_In key lt z l). exact Hz.
Qed.

(** The two orders the module sorts by. *)
Lemma Qltb_lt (x y : Q) : Qltb x y = true <-> (x < y)%Q.
Proof.
  unfold Qltb. rewrite negb_true_iff.
  split.
  - intros H. apply Qnot_le_lt. intros Hle.
    apply Qle_bool_iff in Hle. congruence.
  - intros H. destruct (Qle_bool y x) eqn:E; [|reflexivity].
    apply Qle_bool_iff in E. exfalso. exact (Qlt_not_le _ _ H E).
Qed.

Lemma Qltb_ge (x y : Q) : Qltb x y = false <-> (y <= x)%Q.
Proof.
  unfold Qltb. rewrite negb_false_iff. apply Qle_bool_iff.
Qed.

Lemma Qltb_asym (a b : Q) : Qltb a b = true -> Qltb b a = false.
Proof.
  rewrite Qltb_lt, Qltb_ge. apply Qlt_le_weak.
Qed.

Lemma Qltb_cotrans (a b c : Q) :
  Qltb a c = true -> Qltb a b = true \/ Qltb b c = true.
Proof.
  intros Hac. destruct (Qltb a b) eqn:Hab; [left; reflexivity|right].
  apply Qltb_lt. apply Qltb_lt in Hac. apply Qltb_ge in Hab.
  eapply Qle_lt_trans; eassumption.
Qed.

Lemma same_key_Qeq (q : Q) (r : ToolResult) :
  same_key score Qltb q r = Qeq_bool (score r) q.
Proof.
  unfold same_key.
  destruct (Qeq_bool (score r) q) eqn:E.
  - apply Qeq_bool_iff in E.
    apply andb_true_iff. split; apply negb_true_iff, Qltb_ge;
      rewrite E; apply Qle_refl.
  - apply Qeq_bool_neq in E.
    destruct (Qltb q (score r)) eqn:H1; [reflexivity|].
    destruct (Qltb (score r) q) eqn:H2; [reflexivity|].
    exfalso. apply E. apply Qltb_ge in H1, H2. apply Qle_antisym; assumption.
Qed.

Lemma ltb_asym (a b : nat) : (a <? b)%nat = true -> (b <? a)%nat = false.
Proof. rewrite Nat.ltb_lt, Nat.ltb_ge. lia. Qed.

Lemma ltb_cotrans (a b c : nat) :
  (a <? c)%nat = true -> (a <? b)%nat = true \/ (b <? c)%nat = true.
Proof. rewrite !Nat.ltb_lt. lia. Qed.

Lemma same_key_nat {A : Type} (key : A -> nat) (n : nat) (x : A) :
  same_key key Nat.ltb n x = Nat.eqb (key x) n.
Proof.
  unfold same_key.
  destruct (Nat.eqb_spec (key x) n) as [->|Hne].
  - rewrite Nat.ltb_irrefl. reflexivity.
  - destruct (Nat.ltb_spec n (key x)); [reflexivity|].
    destruct (Nat.ltb_spec (key x) n); [reflexivity|]. lia.
Qed.

(** ** The loop of [recommend] *)

Lemma In_firstn {A : Type} (x : A) (n : nat) (l : list A) :
  In x (firstn n l) -> In x l.
Proof.
  revert l. induction n as [|n IH]; intros [|y l]; simpl; try tauto.
  intros [H|H]; [left; exact H | right; apply IH, H].
Qed.

Lemma In_slice_to {A : Type} (x : A) (l : list A) (n : Z) :
  In x (slice_to l n) -> In x l.
Proof.
  unfold slice_to. destruct (n <? 0); apply In_firstn.
Qed.

Lemma slice_to_nonneg {A : Type} (l : list A) (n : Z) :
  0 <= n -> slice_to l n = firstn (Z.to_nat n) l.
Proof.
  intros Hn. unfold slice_to.
  destruct (Z.ltb_spec n 0); [lia | reflexivity].
Qed.

Lemma list_in_In (x : string) (xs : list string) :
  list_in x xs = true <-> In x xs.
Proof.
  unfold list_in. rewrite existsb_exists. split.
  - intros [y [Hy E]]. apply String.eqb_eq in E. subst. exact Hy.
  - intros H. exists x. split; [exact H | apply String.eqb_refl].
Qed.

(** What a pass of the loop body that appends a result has established. *)
Lemma recommend_body_Some (categories : list string) (budget : string)
    (budget_limit user_tech : Z) (t : Tool) (r : ToolResult) :
  recommend_body categories budget budget_limit user_tech t = inr (Some r) ->
  tool r = t /\ category_in t categories = true /\
  (budget = "free" -> free_tier_of t = true) /\
  exists s o v,
    scores t = Some s /\ overall s = Some o /\ value s = Some v /\
    score r =
      (fst (tech_adjust (tool_tech_of t) user_tech
              (fst (budget_adjust (free_tier_of t) (py_min (plan_prices t) 0)
                      budget_limit o []))
              (snd (budget_adjust (free_tier_of t) (py_min (plan_prices t) 0)
                      budget_limit o [])))
       + v * (1 # 10))%Q.
Proof.
  unfold recommend_body.
  destruct (category_in t categories) eqn:Hc; cbn [negb]; [|discriminate].
  destruct (scores t) as [s|] eqn:Hs; cbn [getitem bind ret raise];
    [|discriminate].
  destruct (overall s) as [o|] eqn:Ho; cbn [getitem bind ret raise];
    [|discriminate].
  destruct (String.eqb budget "free" && negb (free_tier_of t)) eqn:Hf;
    [discriminate|].
  destruct (budget_adjust _ _ _ _ _) as [s1 r1] eqn:Hb.
  destruct (tech_adjust _ _ _ _) as [s2 r2] eqn:Ht.
  destruct (value s) as [v|] eqn:Hv; cbn [getitem bind ret raise];
    [|discriminate].
  intros H. injection H as <-. cbn [tool score].
  split; [reflexivity|]. split; [reflexivity|]. split.
  - intros ->. rewrite String.eqb_refl in Hf. cbn [andb] in Hf.
    apply negb_false_iff in Hf. exact Hf.
  - exists s, o, v. rewrite Hb. cbn [fst snd]. rewrite Ht.
    repeat split; assumption || reflexivity.
Qed.

(** With the scores the data model promises, the loop body raises
    nothing. *)
Lemma recommend_body_total (categories : list string) (budget : string)
    (budget_limit user_tech : Z) (t : Tool) :
  has_scores t = true ->
  exists o, recommend_body categories budget budget_limit user_tech t = inr o.
Proof.
  unfold has_scores, recommend_body. intros H.
  destruct (category_in t categories); cbn [negb]; [|eexists; reflexivity].
  destruct (scores t) as [s|]; [|discriminate].
  cbn [getitem bind ret raise].
  destruct (overall s) as [o|]; [|discriminate].
  destruct (value s) as [v|]; [|discriminate].
  cbn [getitem bind ret raise].
  destruct (String.eqb budget "free" && negb (free_tier_of t));
    [eexists; reflexivity|].
  destruct (budget_adjust _ _ _ _ _) as [s1 r1].
  destruct (tech_adjust _ _ _ _) as [s2 r2].
  cbn [getitem bind ret raise].
  eexists; reflexivity.
Qed.

Lemma recommend_loop_surviving (categories : list string)
    (budget tech_level : string) (ts : list Tool) (acc rs : list ToolResult) :
  recommend_loop categories budget (dict_get BUDGET_LEVELS budget 50)
    (dict_get TECH_LEVELS tech_level 1) ts acc = inr rs ->
  rs = acc ++ surviving categories budget tech_level ts.
Proof.
  revert acc. induction ts as [|t ts IH]; intros acc;
    cbn [recommend_loop surviving flat_map ret].
  - intros H. injection H as <-. rewrite app_nil_r. reflexivity.
  - fold (surviving categories budget tech_level ts).
    destruct (recommend_body _ _ _ _ t) as [e|[r|]]; cbn [bind app].
    + discriminate.
    + intros H. apply IH in H. rewrite <- app_assoc in H. exact H.
    + apply IH.
Qed.

Lemma recommend_loop_well_formed (categories : list string)
    (budget tech_level : string) (ts : list Tool) (acc : list ToolResult) :
  well_formed ts = true ->
  recommend_loop categories budget (dict_get BUDGET_LEVELS budget 50)
    (dict_get TECH_LEVELS tech_level 1) ts acc
  = inr (acc ++ surviving categories budget tech_level ts).
Proof.
  revert acc. induction ts as [|t ts IH]; intros acc Hwf;
    cbn [recommend_loop surviving flat_map ret].
  - rewrite app_nil_r. reflexivity.
  - fold (surviving categories budget tech_level ts).
    cbn [well_formed forallb] in Hwf. fold (well_formed ts) in Hwf.
    apply andb_true_iff in Hwf as [Ht Hts].
    destruct (recommend_body_total categories budget
                (dict_get BUDGET_LEVELS budget 50)
                (dict_get TECH_LEVELS tech_level 1) t Ht) as [o Ho].
    rewrite Ho. destruct o as [r|]; cbn [bind app].
    + rewrite IH by exact Hts. rewrite <- app_assoc. reflexivity.
    + apply IH. exact Hts.
Qed.

Lemma surviving_In (categories : list string) (budget tech_level : string)
    (ts : list Tool) (r : ToolResult) :
  In r (surviving categories budget tech_level ts) <->
  exists t, In t ts /\
    recommend_body categories budget (dict_get BUDGET_LEVELS budget 50)
      (dict_get TECH_LEVELS tech_level 1) t = inr (Some r).
Proof.
  unfold surviving. rewrite in_flat_map. split.
  - intros [t [Ht Hr]]. exists t. split; [exact Ht|].
    destruct (recommend_body _ _ _ _ t) as [e|[r'|]];
      cbn [In] in Hr; try tauto.
    destruct Hr as [->|[]]. reflexivity.
  - intros [t [Ht Hr]]. exists t. split; [exact Ht|].
    rewrite Hr. left. reflexivity.
Qed.

(** What [recommend] returns is the head of the ranked survivors. *)
Lemma recommend_inr (categories : list string) (budget tech_level : string)
    (top_n : Z) (self : Recommender) (rs : list ToolResult) :
  fst (recommend categories budget tech_level top_n self) = inr rs ->
  rs = slice_to
         (sort_reverse score Qltb
            (surviving categories budget tech_level (tools self)))
         top_n.
Proof.
  unfold recommend. cbn [fst].
  destruct (recommend_loop _ _ _ _ (tools self) []) as [e|res] eqn:Hl;
    cbn [bind ret].
  - discriminate.
  - intros H. injection H as <-.
    apply recommend_loop_surviving in Hl. cbn [app] in Hl. subst res.
    reflexivity.
Qed.

Lemma recommend_In (categories : list string) (budget tech_level : string)
    (top_n : Z) (self : Recommender) (rs : list ToolResult) (r : ToolResult) :
  fst (recommend categories budget tech_level top_n self) = inr rs ->
  In r rs ->
  exists t, In t (tools self) /\
    recommend_body categories budget (dict_get BUDGET_LEVELS budget 50)
      (dict_get TECH_LEVELS tech_level 1) t = inr (Some r).
Proof.
  intros H Hr. apply recommend_inr in H. subst rs.
  apply In_slice_to, sort_reverse_In in Hr.
  apply surviving_In. exact Hr.
Qed.

Lemma recommend_body_budget_ext (categories : list string) (b b' : string)
    (budget_limit user_tech : Z) (t : Tool) :
  String.eqb b "free" = String.eqb b' "free" ->
  recommend_body categories b budget_limit user_tech t
  = recommend_body categories b' budget_limit user_tech t.
Proof.
  intros E. unfold recommend_body. rewrite E. reflexivity.
Qed.

Lemma recommend_loop_budget_ext (categories : list string) (b b' : string)
    (budget_limit user_tech : Z) (ts : list Tool) (acc : list ToolResult) :
  String.eqb b "free" = String.eqb b' "free" ->
  recommend_loop categories b budget_limit user_tech ts acc
  = recommend_loop categories b' budget_limit user_tech ts acc.
Proof.
  intros E. revert acc.
  induction ts as [|t ts IH]; intros acc; cbn [recommend_loop]; [reflexivity|].
  rewrite (recommend_body_budget_ext categories b b' _ _ t E).
  destruct (recommend_body categories b' budget_limit user_tech t)
    as [e|[r|]]; cbn [bind]; auto.
Qed.

Lemma recommend_loop_no_category (budget : string) (budget_limit user_tech : Z)
    (ts : list Tool) (acc : list ToolResult) :
  recommend_loop [] budget budget_limit user_tech ts acc = inr acc.
Proof.
  revert acc. induction ts as [|t ts IH]; intros acc; cbn [recommend_loop];
    [reflexivity|].
  assert (Hb : recommend_body [] budget budget_limit user_tech t = inr None).
  { unfold recommend_body, category_in, list_in.
    destruct (category t); reflexivity. }
  rewrite Hb. cbn [bind]. apply IH.
Qed.

Lemma firstn_min {A : Type} (n : nat) (l : list A) :
  firstn (Nat.min n (length l)) l = firstn n l.
Proof.
  destruct (Nat.le_ge_cases n (length l)) as [H|H].
  - rewrite Nat.min_l by exact H. reflexivity.
  - rewrite Nat.min_r by exact H.
    rewrite firstn_all, firstn_all2 by exact H. reflexivity.
Qed.

(** ** The catalog loader *)

(** C3, as the specification states it, fails on the code: a document
    whose only record has neither [id], nor [name], nor [scores] is loaded
    as it is, and no error is raised. *)
Lemma load_accepts_incomplete_record :
  has_invalid_record source_bare = true /\
  Recommender_init source_bare = inr {| tools := [tool_bare] |}.
Proof. split; reflexivity. Qed.

(** C3, amended: loading raises [FileNotFoundError] for a missing source,
    [YAMLError] for an unparsable one and [AttributeError] for a document
    that is not a mapping; in every other case it succeeds, and the catalog
    is the whole [tools] entry of the document (the empty list when the
    entry is absent), whatever fields its records have.  A call gives an
    error or the whole catalog, never a part of it. *)
Theorem load_all_or_nothing (src : Source) :
  match src with
  | SourceMissing => Recommender_init src = inl FileNotFoundError
  | SourceUnparsable => Recommender_init src = inl YAMLError
  | SourceLoaded DocNotMapping => Recommender_init src = inl AttributeError
  | SourceLoaded (DocMapping entry) =>
      Recommender_init src = inr {| tools := option_get entry [] |}
  end.
Proof.
  destruct src as [| |[entry|]]; reflexivity.
Qed.

(** ** Filtering by category *)

(** C6: a record whose category is not among the requested ones takes no
    part in the scoring (the loop body goes on to the next record before it
    reads any score), and every candidate [recommend] returns has its
    category among the requested ones. *)
Theorem recommend_only_requested_categories (categories : list string)
    (budget tech_level : string) (top_n : Z) (self : Recommender) :
  (forall t budget_limit user_tech,
      category_in t categories = false ->
      recommend_body categories budget budget_limit user_tech t = inr None) /\
  (forall rs r,
      fst (recommend categories budget tech_level top_n self) = inr rs ->
      In r rs ->
      In (tool r) (tools self) /\
      exists c, category (tool r) = Some c /\ In c categories).
Proof.
  split.
  - intros t bl ut Hc. unfold recommend_body. rewrite Hc. reflexivity.
  - intros rs r Hrs Hr.
    destruct (recommend_In _ _ _ _ _ _ _ Hrs Hr) as [t [Ht Hb]].
    apply recommend_body_Some in Hb as [Htool [Hc _]]. subst t.
    split; [exact Ht|].
    unfold category_in in Hc.
    destruct (category (tool r)) as [c|]; [|discriminate].
    exists c. split; [reflexivity | apply list_in_In, Hc].
Qed.

Lemma recommend_only_requested_categories_witness :
  In tool_D (tools sample_catalog) /\
  exists c, category tool_D = Some c /\ In c ["writing"].
Proof.
  apply (proj2 (recommend_only_requested_categories
                  ["writing"] "low" "beginner" 3 sample_catalog)
           [ {| tool := tool_D;
                score := (9 + (3 # 10) - (5 # 10) + 6 * (1 # 10))%Q;
                match_reasons := ["有免费版"] |} ]
           {| tool := tool_D;
              score := (9 + (3 # 10) - (5 # 10) + 6 * (1 # 10))%Q;
              match_reasons := ["有免费版"] |}).
  - vm_compute. reflexivity.
  - left. reflexivity.
Defined.

(** C10: with no requested category every record is skipped by the
    membership test, so [recommend] returns the empty list and raises
    nothing, whatever the catalog holds. *)
Theorem recommend_no_categories (budget tech_level : string) (top_n : Z)
    (self : Recommender) :
  recommend [] budget tech_level top_n self = (inr [], self).
Proof.
  unfold recommend. rewrite recommend_loop_no_category. cbn [bind ret].
  unfold slice_to, sort_reverse. cbn [fold_right].
  destruct (top_n <? 0); rewrite firstn_nil; reflexivity.
Qed.

(** ** The budget rule *)

(** C1: for a record of a requested category (with the scores the data
    model promises), the loop body
    - drops the record when the budget is [free] and it has no free tier;
    - otherwise, without a free tier and with a least paid price above the
      ceiling, starts from the overall score times 0.7;
    - with a free tier starts from the overall score plus 0.3 and records
      the reason, whatever the paid prices and the ceiling are: the factor
      0.7 is not applied;
    - otherwise starts from the overall score unchanged.
    With the budget [free], no candidate [recommend] returns lacks a free
    tier. *)
Theorem budget_rule (categories : list string) (budget tech_level : string)
    (t : Tool) (s : Scores) (o v : Q) :
  category_in t categories = true ->
  scores t = Some s -> overall s = Some o -> value s = Some v ->
  let budget_limit := dict_get BUDGET_LEVELS budget 50 in
  let user_tech := dict_get TECH_LEVELS tech_level 1 in
  let min_price := py_min (plan_prices t) 0 in
  let body := recommend_body categories budget budget_limit user_tech t in
  let candidate (score1 : Q) (reasons1 : list string) :=
    let adjusted := tech_adjust (tool_tech_of t) user_tech score1 reasons1 in
    {| tool := t;
       score := (fst adjusted + v * (1 # 10))%Q;
       match_reasons := snd adjusted |} in
  (budget = "free" -> free_tier_of t = false -> body = inr None) /\
  (budget <> "free" -> free_tier_of t = false ->
   (inject_Z budget_limit < min_price)%Q ->
   body = inr (Some (candidate (o * (7 # 10))%Q []))) /\
  (free_tier_of t = true ->
   body = inr (Some (candidate (o + (3 # 10))%Q ["有免费版"]))) /\
  (budget <> "free" -> free_tier_of t = false ->
   (min_price <= inject_Z budget_limit)%Q ->
   body = inr (Some (candidate o []))) /\
  (forall top_n self rs r,
      fst (recommend categories "free" tech_level top_n self) = inr rs ->
      In r rs -> has_free_tier r = true).
Proof.
  intros Hc Hs Ho Hv budget_limit user_tech min_price body candidate.
  assert (Hbody : body =
    if String.eqb budget "free" && negb (free_tier_of t) then inr None
    else
      let a := budget_adjust (free_tier_of t) min_price budget_limit o [] in
      inr (Some (candidate (fst a) (snd a)))).
  { subst body candidate. unfold recommend_body.
    rewrite Hc, Hs. cbn [negb getitem bind ret raise]. rewrite Ho.
    cbn [getitem bind ret raise].
    destruct (String.eqb budget "free" && negb (free_tier_of t));
      [reflexivity|].
    fold min_price.
    destruct (budget_adjust _ _ _ _ _) as [s1 r1]. cbn [fst snd].
    destruct (tech_adjust _ _ _ _) as [s2 r2].
    rewrite Hv. reflexivity. }
  repeat split.
  - intros -> Hf. rewrite Hbody, Hf. reflexivity.
  - intros Hb Hf Hlt. rewrite Hbody, Hf.
    apply String.eqb_neq in Hb. rewrite Hb. cbn [andb negb].
    unfold budget_adjust. apply Qltb_lt in Hlt. rewrite Hlt. reflexivity.
  - intros Hf. rewrite Hbody, Hf. rewrite andb_false_r. reflexivity.
  - intros Hb Hf Hle. rewrite Hbody, Hf.
    apply String.eqb_neq in Hb. rewrite Hb. cbn [andb negb].
    unfold budget_adjust. apply Qltb_ge in Hle. rewrite Hle. reflexivity.
  - intros top_n self rs r Hrs Hr.
    destruct (recommend_In _ _ _ _ _ _ _ Hrs Hr) as [t' [_ Hb]].
    apply recommend_body_Some in Hb as [<- [_ [Hfree _]]].
    apply Hfree. reflexivity.
Qed.

Lemma budget_rule_witness :
  recommend_body ["coding"] "low" 20 1 tool_C
  = inr (Some {| tool := tool_C;
                 score := (9 * (7 # 10) + 5 * (1 # 10))%Q;
                 match_reasons := [] |}).
Proof.
  apply (budget_rule ["coding"] "low" "beginner" tool_C _ 9 5
           eq_refl eq_refl eq_refl eq_refl).
  - discriminate.
  - reflexivity.
  - reflexivity.
Defined.

(** ** The technical-level rule *)

(** C5: a candidate that the loop body appends has, as its score, the
    score after the budget rule
    - plus 0.2 when the tool's ordinal is at most the user's,
    - minus 0.5 when the tool's ordinal is above the user's plus 1,
    - unchanged when the tool is exactly one level above the user,
    plus in each case a tenth of the value score.  The tool's ordinal is 1
    when [technical_level] is absent or is not one of the three levels. *)
Theorem tech_rule (categories : list string) (budget : string)
    (budget_limit user_tech : Z) (t : Tool) (r : ToolResult) :
  recommend_body categories budget budget_limit user_tech t = inr (Some r) ->
  (exists s o v,
      scores t = Some s /\ overall s = Some o /\ value s = Some v /\
      let score1 :=
        fst (budget_adjust (free_tier_of t) (py_min (plan_prices t) 0)
               budget_limit o []) in
      (tool_tech_of t <= user_tech ->
       score r = (score1 + (2 # 10) + v * (1 # 10))%Q) /\
      (tool_tech_of t > user_tech + 1 ->
       score r = (score1 - (5 # 10) + v * (1 # 10))%Q) /\
      (tool_tech_of t = user_tech + 1 ->
       score r = (score1 + v * (1 # 10))%Q)) /\
  (technical_level t = None -> tool_tech_of t = 1) /\
  (forall level,
      technical_level t = Some level ->
      level <> "beginner" -> level <> "intermediate" -> level <> "advanced" ->
      tool_tech_of t = 1).
Proof.
  intros Hb. split; [|split].
  - apply recommend_body_Some in Hb as [_ [_ [_ [s [o [v [Hs [Ho [Hv Hr]]]]]]]]].
    exists s, o, v. repeat split; try assumption.
    + intros H. rewrite Hr. unfold tech_adjust.
      apply Z.leb_le in H. rewrite H. reflexivity.
    + intros H. rewrite Hr. unfold tech_adjust.
      destruct (Z.leb_spec (tool_tech_of t) user_tech); [lia|].
      destruct (Z.ltb_spec (user_tech + 1) (tool_tech_of t)); [|lia].
      reflexivity.
    + intros H. rewrite Hr. unfold tech_adjust.
      destruct (Z.leb_spec (tool_tech_of t) user_tech); [lia|].
      destruct (Z.ltb_spec (user_tech + 1) (tool_tech_of t)); [lia|].
      reflexivity.
  - intros H. unfold tool_tech_of. rewrite H. reflexivity.
  - intros level H H1 H2 H3. unfold tool_tech_of. rewrite H.
    cbn [option_get]. unfold TECH_LEVELS. cbn [dict_get].
    apply not_eq_sym, String.eqb_neq in H1, H2, H3.
    rewrite H1, H2, H3. reflexivity.
Qed.

Lemma tech_rule_witness :
  exists r,
    recommend_body ["writing"] "low" 20 1 tool_D = inr (Some r) /\
    score r = (9 + (3 # 10) - (5 # 10) + 6 * (1 # 10))%Q.
Proof.
  exists {| tool := tool_D;
            score := (9 + (3 # 10) - (5 # 10) + 6 * (1 # 10))%Q;
            match_reasons := ["有免费版"] |}.
  split; [reflexivity|].
  destruct (tech_rule ["writing"] "low" 20 1 tool_D _ eq_refl)
    as [[s [o [v [Hs [Ho [Hv [_ [H _]]]]]]]] _].
  injection Hs as <-. injection Ho as <-. injection Hv as <-.
  apply H. reflexivity.
Defined.

(** ** Unknown budgets and technical levels *)

Lemma budget_limit_default (budget : string) :
  budget <> "free" -> budget <> "low" -> budget <> "medium" ->
  budget <> "high" ->
  dict_get BUDGET_LEVELS budget 50 = 50.
Proof.
  intros H1 H2 H3 H4. unfold BUDGET_LEVELS. cbn [dict_get].
  apply not_eq_sym, String.eqb_neq in H1, H2, H3, H4.
  rewrite H1, H2, H3, H4. reflexivity.
Qed.

Lemma user_tech_default (tech_level : string) :
  tech_level <> "beginner" -> tech_level <> "intermediate" ->
  tech_level <> "advanced" ->
  dict_get TECH_LEVELS tech_level 1 = 1.
Proof.
  intros H1 H2 H3. unfold TECH_LEVELS. cbn [dict_get].
  apply not_eq_sym, String.eqb_neq in H1, H2, H3.
  rewrite H1, H2, H3. reflexivity.
Qed.

(** C8: a budget that is none of [free], [low], [medium], [high] is given
    the ceiling 50, and the call does what the call with [medium] does; a
    technical level that is none of [beginner], [intermediate], [advanced]
    is given the ordinal 1, and the call does what the call with
    [beginner] does.  On a catalog whose records have their scores the
    call returns a list, whatever the two strings are. *)
Theorem recommend_defaults (categories : list string)
    (budget tech_level : string) (top_n : Z) (self : Recommender) :
  (budget <> "free" -> budget <> "low" -> budget <> "medium" ->
   budget <> "high" ->
   dict_get BUDGET_LEVELS budget 50 = 50 /\
   recommend categories budget tech_level top_n self
   = recommend categories "medium" tech_level top_n self) /\
  (tech_level <> "beginner" -> tech_level <> "intermediate" ->
   tech_level <> "advanced" ->
   dict_get TECH_LEVELS tech_level 1 = 1 /\
   recommend categories budget tech_level top_n self
   = recommend categories budget "beginner" top_n self) /\
  (well_formed (tools self) = true ->
   exists rs, recommend categories budget tech_level top_n self = (inr rs, self)).
Proof.
  split; [|split].
  - intros H1 H2 H3 H4.
    pose proof (budget_limit_default budget H1 H2 H3 H4) as Hd.
    split; [exact Hd|].
    unfold recommend. rewrite Hd.
    change (dict_get BUDGET_LEVELS "medium" 50) with 50.
    rewrite (recommend_loop_budget_ext categories budget "medium");
      [reflexivity|].
    apply String.eqb_neq in H1. rewrite H1. reflexivity.
  - intros H1 H2 H3.
    pose proof (user_tech_default tech_level H1 H2 H3) as Hd.
    split; [exact Hd|].
    unfold recommend. rewrite Hd. reflexivity.
  - intros Hwf. unfold recommend.
    rewrite (recommend_loop_well_formed categories budget tech_level
               (tools self) [] Hwf).
    cbn [bind ret]. eexists. reflexivity.
Qed.

Lemma recommend_defaults_witness :
  dict_get BUDGET_LEVELS "unlimited" 50 = 50 /\
  recommend ["coding"] "unlimited" "expert" 3 sample_catalog
  = recommend ["coding"] "medium" "expert" 3 sample_catalog.
Proof.
  apply (proj1 (recommend_defaults ["coding"] "unlimited" "expert" 3
                  sample_catalog)); discriminate.
Defined.

(** ** Substrings and dictionaries *)

Lemma prefix_app (s b : string) : String.prefix s (s ++ b) = true.
Proof.
  induction s as [|c s IH]; cbn.
  - destruct b; reflexivity.
  - destruct (Ascii.ascii_dec c c) as [_|Hne]; [exact IH | contradiction].
Qed.

Lemma prefix_inv (s t : string) :
  String.prefix s t = true -> exists b, t = (s ++ b)%string.
Proof.
  revert s. induction t as [|c t IH]; intros [|d s]; cbn.
  - exists EmptyString. reflexivity.
  - discriminate.
  - exists (String c t). reflexivity.
  - destruct (Ascii.ascii_dec d c) as [->|]; [|discriminate].
    intros H. destruct (IH s H) as [b ->]. exists b. reflexivity.
Qed.

Lemma str_in_occurs (s t : string) : str_in s t = true <-> occurs_in s t.
Proof.
  unfold occurs_in. split.
  - induction t as [|c t IH]; cbn [str_in]; rewrite orb_true_iff.
    + intros [H|H]; [|discriminate].
      apply prefix_inv in H as [b ->]. exists EmptyString, b. reflexivity.
    + intros [H|H].
      * apply prefix_inv in H as [b ->]. exists EmptyString, b. reflexivity.
      * destruct (IH H) as [a [b ->]]. exists (String c a), b. reflexivity.
  - intros [a [b ->]]. induction a as [|c a IH].
    + cbn [String.append].
      destruct (s ++ b)%string eqn:E; cbn [str_in]; rewrite <- E;
        rewrite prefix_app; reflexivity.
    + cbn [String.append str_in]. rewrite IH. apply orb_true_r.
Qed.

Lemma dict_set_fresh {V : Type} (d : list (string * V)) (k : string) (v : V) :
  ~ In k (dict_keys d) -> dict_set d k v = d ++ [(k, v)].
Proof.
  induction d as [|[k' v'] d IH]; cbn; intros H; [reflexivity|].
  destruct (String.eqb_spec k' k) as [->|Hne]; [tauto|].
  rewrite IH by tauto. reflexivity.
Qed.

Lemma dict_get_In {V : Type} (d : list (string * V)) (k : string) (v dflt : V) :
  NoDup (dict_keys d) -> In (k, v) d -> dict_get d k dflt = v.
Proof.
  induction d as [|[k' v'] d IH]; cbn; intros Hnd Hin; [contradiction|].
  inversion Hnd as [|? ? Hk Hnd']; subst.
  destruct Hin as [E|Hin].
  - injection E as -> ->. rewrite String.eqb_refl. reflexivity.
  - destruct (String.eqb_spec k' k) as [->|Hne].
    + exfalso. apply Hk. apply (in_map fst) in Hin. exact Hin.
    + apply IH; assumption.
Qed.

Lemma dict_get_tabulate {V : Type} (f : string -> V) (l : list string)
    (k : string) (dflt : V) :
  In k l -> dict_get (map (fun c => (c, f c)) l) k dflt = f k.
Proof.
  induction l as [|c l IH]; cbn; intros H; [contradiction|].
  destruct (String.eqb_spec c k) as [->|Hne]; [reflexivity|].
  apply IH. destruct H; [contradiction | assumption].
Qed.

Lemma dict_keys_tabulate {V : Type} (f : string -> V) (l : list string) :
  dict_keys (map (fun c => (c, f c)) l) = l.
Proof.
  unfold dict_keys. rewrite map_map. cbn. apply map_id.
Qed.

Lemma CATEGORY_KEYWORDS_NoDup : NoDup declared_categories.
Proof.
  assert (E : nodup string_dec declared_categories = declared_categories)
    by (vm_compute; reflexivity).
  rewrite <- E. apply NoDup_nodup.
Qed.

Lemma keywords_NoDup (c : string) : NoDup (dict_get CATEGORY_KEYWORDS c []).
Proof.
  assert (Hnd : forall l : list string, nodup string_dec l = l -> NoDup l).
  { intros l E. rewrite <- E. apply NoDup_nodup. }
  unfold CATEGORY_KEYWORDS. cbn [dict_get].
  repeat (match goal with
          | |- NoDup (if ?b then _ else _) =>
              destruct b; [apply Hnd; vm_compute; reflexivity|]
          end).
  constructor.
Qed.

Lemma keywords_nonempty (c : string) (kw : string) :
  In kw (dict_get CATEGORY_KEYWORDS c []) -> kw <> "".
Proof.
  unfold CATEGORY_KEYWORDS. cbn [dict_get].
  repeat (match goal with
          | |- In _ (if ?b then _ else _) -> _ =>
              destruct b; [cbn [In]; intuition (subst; discriminate)|]
          end).
  intros [].
Qed.

(** ** The loop of [classify_scenario] *)

Section ClassifierFacts.
Variable str_lower : string -> string.

Lemma positive_items_keys (text_lower : string)
    (items : list (string * list string)) (c : string) :
  In c (dict_keys (positive_items str_lower text_lower items)) ->
  In c (dict_keys items).
Proof.
  unfold dict_keys.
  induction items as [|[c' kws] items IH]; cbn [positive_items flat_map];
    [tauto|].
  fold (positive_items str_lower text_lower items).
  rewrite map_app, in_app_iff. cbn [fst snd map In].
  intros [H|H]; [|right; apply IH, H].
  destruct (0 <? keyword_count str_lower text_lower kws)%nat;
    cbn in H; tauto.
Qed.

Lemma classify_loop_spec (text_lower : string)
    (items : list (string * list string)) (acc : list (string * nat)) :
  NoDup (dict_keys items) ->
  (forall c, In c (dict_keys items) -> ~ In c (dict_keys acc)) ->
  classify_loop str_lower text_lower items acc
  = acc ++ positive_items str_lower text_lower items.
Proof.
  revert acc.
  induction items as [|[c kws] items IH]; intros acc Hnd Hfresh;
    cbn [classify_loop positive_items flat_map fst snd].
  - rewrite app_nil_r. reflexivity.
  - fold (positive_items str_lower text_lower items).
    cbn [dict_keys map fst] in Hnd, Hfresh.
    inversion Hnd as [|? ? Hc Hnd']; subst.
    destruct (0 <? keyword_count str_lower text_lower kws)%nat.
    + rewrite dict_set_fresh by (apply Hfresh; left; reflexivity).
      rewrite IH; [rewrite <- app_assoc; reflexivity | exact Hnd' |].
      intros c' Hc'. unfold dict_keys. rewrite map_app, in_app_iff.
      cbn [map fst In].
      intros [H|[H|[]]].
      * apply (Hfresh c'); [right; exact Hc' | exact H].
      * subst c'. apply Hc, Hc'.
    + apply IH; [exact Hnd'|].
      intros c' Hc'. apply Hfresh. right. exact Hc'.
Qed.

(** The entries of [scores], read through the keyword table. *)
Lemma positive_items_tabulate (text_lower : string)
    (items : list (string * list string)) (count : string -> nat) :
  (forall c kws, In (c, kws) items ->
                 count c = keyword_count str_lower text_lower kws) ->
  positive_items str_lower text_lower items
  = map (fun c => (c, count c))
        (filter (fun c => (0 <? count c)%nat) (dict_keys items)).
Proof.
  induction items as [|[c kws] items IH]; intros Hcount;
    cbn [positive_items flat_map dict_keys map filter fst snd];
    [reflexivity|].
  fold (positive_items str_lower text_lower items).
  fold (dict_keys items).
  rewrite <- (Hcount c kws (or_introl eq_refl)).
  rewrite IH by (intros c' kws' H; apply Hcount; right; exact H).
  destruct (0 <? count c)%nat; reflexivity.
Qed.

Lemma category_count_declared (text c : string) (kws : list string) :
  In (c, kws) CATEGORY_KEYWORDS ->
  category_count str_lower text c
  = keyword_count str_lower (str_lower text) kws.
Proof.
  intros H. unfold category_count.
  rewrite (dict_get_In CATEGORY_KEYWORDS c kws []);
    [reflexivity | apply CATEGORY_KEYWORDS_NoDup | exact H].
Qed.

(** What [classify_scenario] returns, in terms of the counts. *)
Lemma classify_scenario_eq (text : string) (self : Recommender) :
  classify_scenario str_lower text self
  = (inr match positive_categories str_lower text with
         | [] => ["foundation"]
         | _ :: _ =>
             sort_reverse (category_count str_lower text) Nat.ltb
               (positive_categories str_lower text)
         end,
     self).
Proof.
  unfold classify_scenario.
  rewrite classify_loop_spec;
    [| apply CATEGORY_KEYWORDS_NoDup | intros c _ []].
  cbn [app].
  rewrite (positive_items_tabulate (str_lower text) CATEGORY_KEYWORDS
             (category_count str_lower text))
    by (intros c kws H; apply category_count_declared, H).
  fold declared_categories. fold (positive_categories str_lower text).
  rewrite dict_keys_tabulate.
  destruct (positive_categories str_lower text) as [|c l] eqn:E;
    [reflexivity|].
  cbn [map]. unfold ret. f_equal. f_equal.
  change ((c, category_count str_lower text c)
            :: map (fun c0 => (c0, category_count str_lower text c0)) l)
    with (map (fun c0 => (c0, category_count str_lower text c0)) (c :: l)).
  apply sort_reverse_ext.
  intros y Hy. apply dict_get_tabulate. exact Hy.
Qed.

Lemma keyword_count_hits (text_lower : string) (keywords : list string) :
  NoDup keywords ->
  exists hits,
    (forall kw, In kw hits <->
                In kw keywords /\ occurs_in (str_lower kw) text_lower) /\
    NoDup hits /\
    keyword_count str_lower text_lower keywords = length hits.
Proof.
  intros Hnd.
  exists (filter (fun kw => str_in (str_lower kw) text_lower) keywords).
  split; [|split].
  - intros kw. rewrite filter_In, str_in_occurs. reflexivity.
  - apply NoDup_filter, Hnd.
  - reflexivity.
Qed.

Lemma keyword_count_zero (text_lower : string) (keywords : list string) :
  (forall kw, In kw keywords -> ~ occurs_in (str_lower kw) text_lower) ->
  keyword_count str_lower text_lower keywords = 0%nat.
Proof.
  unfold keyword_count.
  induction keywords as [|kw kws IH]; intros H; [reflexivity|].
  cbn [filter].
  destruct (str_in (str_lower kw) text_lower) eqn:E.
  - exfalso. apply (H kw (or_introl eq_refl)). apply str_in_occurs, E.
  - apply IH. intros kw' Hkw'. apply H. right. exact Hkw'.
Qed.

Lemma no_keyword_positive_categories (text : string) :
  no_keyword str_lower text -> positive_categories str_lower text = [].
Proof.
  intros Hno. unfold positive_categories.
  assert (H : forall c, In c declared_categories ->
                        (0 <? category_count str_lower text c)%nat = false).
  { intros c Hc. unfold declared_categories, dict_keys in Hc.
    apply in_map_iff in Hc as [[c' kws] [<- Hin]]. cbn [fst].
    rewrite (category_count_declared text c' kws Hin).
    rewrite keyword_count_zero; [reflexivity|].
    intros kw Hkw. apply (Hno c' kws kw Hin Hkw). }
  induction declared_categories as [|c l IH]; [reflexivity|].
  cbn [filter]. rewrite (H c (or_introl eq_refl)).
  apply IH. intros c' Hc'. apply H. right. exact Hc'.
Qed.

Lemma no_keyword_b_spec (text : string) :
  no_keyword_b str_lower text = true -> no_keyword str_lower text.
Proof.
  unfold no_keyword_b, no_keyword. intros H c kws kw Hc Hkw Hocc.
  rewrite forallb_forall in H. specialize (H (c, kws) Hc). cbn [snd] in H.
  rewrite forallb_forall in H. specialize (H kw Hkw).
  apply str_in_occurs in Hocc. rewrite Hocc in H. discriminate.
Qed.
End ClassifierFacts.

(** ** Classification *)

Lemma filter_positive_class (count : string -> nat) (k : nat)
    (l : list string) :
  (0 < k)%nat ->
  filter (fun c => Nat.eqb (count c) k)
         (filter (fun c => (0 <? count c)%nat) l)
  = filter (fun c => Nat.eqb (count c) k) l.
Proof.
  intros Hk. induction l as [|c l IH]; [reflexivity|].
  cbn [filter].
  destruct (Nat.ltb_spec 0 (count c)) as [Hp|Hz]; cbn [filter]; rewrite IH;
    [reflexivity|].
  destruct (Nat.eqb_spec (count c) k); [lia | reflexivity].
Qed.

(** C4, as the specification states it, fails on the code: for a text with
    no keyword the result is the category [foundation], whose count is 0,
    and not the (empty) list of the categories with a positive count. *)
Lemma classify_returns_category_without_hit :
  fst (classify_scenario lower_ascii "hello" sample_catalog)
  = inr ["foundation"] /\
  category_count lower_ascii "hello" "foundation" = 0%nat /\
  positive_categories lower_ascii "hello" = [].
Proof. vm_compute. repeat split; reflexivity. Qed.

(** C4, amended: the count of a category is the number of its keywords
    whose lower-cased form occurs as a literal substring of the lower-cased
    text, each keyword counted once; and for every text in which some
    category has a positive count, [classify_scenario] returns exactly the
    categories with a positive count, each once, in descending order of
    count, the categories of one count in their declaration order. *)
Theorem classify_ranking (str_lower : string -> string) (text : string)
    (self : Recommender) :
  let count := category_count str_lower text in
  (forall c, exists hits,
      (forall kw, In kw hits <->
                  In kw (dict_get CATEGORY_KEYWORDS c []) /\
                  occurs_in (str_lower kw) (str_lower text)) /\
      NoDup hits /\
      count c = length hits) /\
  ((exists c, (0 < count c)%nat) ->
   exists out,
     classify_scenario str_lower text self = (inr out, self) /\
     (forall c, In c out <-> In c declared_categories /\ (0 < count c)%nat) /\
     NoDup out /\
     StronglySorted (fun c1 c2 => (count c2 <= count c1)%nat) out /\
     (forall k, (0 < k)%nat ->
                filter (fun c => Nat.eqb (count c) k) out
                = filter (fun c => Nat.eqb (count c) k) declared_categories)).
Proof.
  intros count. split.
  - intros c. apply keyword_count_hits, keywords_NoDup.
  - intros [c0 Hc0].
    set (pos := positive_categories str_lower text).
    assert (Hpos : forall c, In c pos <->
                             In c declared_categories /\ (0 < count c)%nat).
    { intros c. unfold pos, positive_categories.
      rewrite filter_In, Nat.ltb_lt. reflexivity. }
    assert (Hne : pos <> []).
    { intros E. assert (Hin : In c0 pos); [|rewrite E in Hin; exact Hin].
      apply Hpos. split; [|exact Hc0].
      unfold count, category_count in Hc0. unfold declared_categories.
      clear - Hc0. unfold CATEGORY_KEYWORDS in *. cbn [dict_get] in Hc0.
      cbn [dict_keys map fst In].
      repeat (match type of Hc0 with
              | context [String.eqb ?k c0] =>
                  destruct (String.eqb_spec k c0); [subst; tauto|]
              end).
      cbn in Hc0. lia. }
    exists (sort_reverse count Nat.ltb pos).
    split; [|split; [|split; [|split]]].
    + rewrite classify_scenario_eq. fold pos. fold count.
      destruct pos; [contradiction | reflexivity].
    + intros c. rewrite sort_reverse_In. apply Hpos.
    + apply (Permutation_NoDup
               (Permutation_sym (sort_reverse_perm count Nat.ltb pos))).
      apply NoDup_filter, CATEGORY_KEYWORDS_NoDup.
    + eapply StronglySorted_impl;
        [|apply (sort_reverse_sorted count Nat.ltb pos ltb_asym ltb_cotrans)].
      intros x y Hxy. apply Nat.ltb_ge. exact Hxy.
    + intros k Hk.
      pose proof (sort_reverse_stable count Nat.ltb k pos
                    ltb_asym ltb_cotrans) as Hst.
      rewrite !(filter_ext _ _ (same_key_nat count k)) in Hst.
      rewrite Hst. apply filter_positive_class. exact Hk.
Qed.

Lemma classify_ranking_witness :
  exists out,
    classify_scenario lower_ascii "分析 Excel 数据" sample_catalog
    = (inr out, sample_catalog) /\
    (forall c, In c out <->
               In c declared_categories /\
               (0 < category_count lower_ascii "分析 Excel 数据" c)%nat).
Proof.
  destruct (proj2 (classify_ranking lower_ascii "分析 Excel 数据"
                     sample_catalog))
    as [out [H1 [H2 _]]].
  - exists "data". vm_compute. lia.
  - exists out. split; [exact H1 | exact H2].
Defined.

(** C7: for a text that holds no keyword of any category (no lower-cased
    keyword occurs in the lower-cased text), and so for the empty text,
    [classify_scenario] returns the one-element list [foundation].  The
    empty text holds no keyword because lower-casing keeps the empty
    string empty and a non-empty string non-empty. *)
Theorem classify_default (str_lower : string -> string) (self : Recommender) :
  (forall text,
      no_keyword str_lower text ->
      classify_scenario str_lower text self = (inr ["foundation"], self)) /\
  (str_lower "" = "" ->
   (forall s, str_lower s = "" -> s = "") ->
   classify_scenario str_lower "" self = (inr ["foundation"], self)).
Proof.
  assert (Hdefault : forall text,
             no_keyword str_lower text ->
             classify_scenario str_lower text self
             = (inr ["foundation"], self)).
  { intros text Hno. rewrite classify_scenario_eq.
    rewrite (no_keyword_positive_categories str_lower text Hno).
    reflexivity. }
  split; [exact Hdefault|].
  intros Hempty Hnonempty. apply Hdefault.
  intros c kws kw Hc Hkw [a [b Hocc]]. rewrite Hempty in Hocc.
  assert (Hkw' : In kw (dict_get CATEGORY_KEYWORDS c [])).
  { rewrite (dict_get_In CATEGORY_KEYWORDS c kws []);
      [exact Hkw | apply CATEGORY_KEYWORDS_NoDup | exact Hc]. }
  apply (keywords_nonempty c kw Hkw'). apply Hnonempty.
  destruct a; [|discriminate]. cbn [String.append] in Hocc.
  destruct (str_lower kw); [reflexivity | discriminate].
Qed.

Lemma lower_ascii_nonempty (s : string) : lower_ascii s = "" -> s = "".
Proof. destruct s; [reflexivity | discriminate]. Qed.

Lemma classify_default_witness :
  classify_scenario lower_ascii "hello" sample_catalog
  = (inr ["foundation"], sample_catalog) /\
  classify_scenario lower_ascii "" sample_catalog
  = (inr ["foundation"], sample_catalog).
Proof.
  destruct (classify_default lower_ascii sample_catalog) as [H1 H2].
  split.
  - apply H1. apply no_keyword_b_spec. vm_compute. reflexivity.
  - apply H2; [reflexivity | exact lower_ascii_nonempty].
Defined.


(** ** The specification's worked examples *)

Example example_medium_order :
  match fst (recommend ["coding"] "medium" "beginner" 2 sample_catalog) with
  | inr [a; b] =>
      tool a = tool_A /\ (score a == 92 # 10)%Q /\
      tool b = tool_B /\ (score b == 91 # 10)%Q
  | _ => False
  end.
Proof. vm_compute. repeat split; reflexivity. Qed.

Example example_free_budget :
  map tool (match fst (recommend ["coding"] "free" "beginner" 3
                         sample_catalog) with
            | inr rs => rs
            | inl _ => []
            end)
  = [tool_A].
Proof. reflexivity. Qed.

Example example_advanced_for_beginner :
  tech_adjust 3 1 9 [] = ((9 - (5 # 10))%Q, []).
Proof. reflexivity. Qed.

Example example_keyword_once :
  category_count lower_ascii "API api Api debug" "coding" = 2%nat.
Proof. reflexivity. Qed.

Example example_tie_declaration_order :
  fst (classify_scenario lower_ascii "分析" sample_catalog)
  = inr ["research"; "data"].
Proof. reflexivity. Qed.

Example example_missing_scores_raises :
  fst (recommend ["coding"] "medium" "beginner" 3 {| tools := [tool_bare] |})
  = inl (KeyError "scores").
Proof. reflexivity. Qed.


(** * Properties of the rest of the module and of its callers *)

(** ** The order of strings *)

Lemma string_ltb_lt (a b : string) :
  String.ltb a b = true <-> OrderedTypeEx.String_as_OT.lt a b.
Proof.
  rewrite <- OrderedTypeEx.String_as_OT.cmp_lt.
  unfold String.ltb, OrderedTypeEx.String_as_OT.cmp.
  destruct (String.compare a b); split; congruence.
Qed.

Lemma string_ltb_irrefl (a : string) : String.ltb a a = false.
Proof.
  unfold String.ltb.
  pose proof (String.compare_antisym a a) as H.
  destruct (String.compare a a); try reflexivity; discriminate.
Qed.

Lemma string_ltb_trans (a b c : string) :
  String.ltb a b = true -> String.ltb b c = true -> String.ltb a c = true.
Proof.
  rewrite !string_ltb_lt. apply OrderedTypeEx.String_as_OT.lt_trans.
Qed.

Lemma string_ltb_asym (a b : string) :
  String.ltb a b = true -> String.ltb b a = false.
Proof.
  intros H. destruct (String.ltb b a) eqn:E; [|reflexivity].
  pose proof (string_ltb_trans _ _ _ H E) as Haa.
  rewrite string_ltb_irrefl in Haa. discriminate.
Qed.

Lemma string_ltb_total (a b : string) :
  String.ltb a b = true \/ a = b \/ String.ltb b a = true.
Proof.
  unfold String.ltb.
  pose proof (String.compare_antisym a b) as H.
  pose proof (String.compare_eq_iff a b) as He.
  destruct (String.compare a b); cbn in H.
  - right. left. apply He. reflexivity.
  - left. reflexivity.
  - right. right. destruct (String.compare b a); [discriminate | reflexivity | discriminate].
Qed.

Lemma string_gtb_asym (a b : string) :
  String.ltb b a = true -> String.ltb a b = false.
Proof. apply string_ltb_asym. Qed.

Lemma string_gtb_cotrans (a b c : string) :
  String.ltb c a = true -> String.ltb b a = true \/ String.ltb c b = true.
Proof.
  intros Hca. destruct (string_ltb_total b a) as [H|[->|H]].
  - left. exact H.
  - right. exact Hca.
  - right. exact (string_ltb_trans _ _ _ Hca H).
Qed.

(** A strictly ascending list is determined by its members. *)
Lemma ascending_unique (l1 l2 : list string) :
  StronglySorted (fun a b => String.ltb a b = true) l1 ->
  StronglySorted (fun a b => String.ltb a b = true) l2 ->
  (forall c, In c l1 <-> In c l2) ->
  l1 = l2.
Proof.
  intros Hs1. revert l2.
  induction Hs1 as [|a l1 Hs1 IH Ha]; intros l2 Hs2 Hm.
  - destruct l2 as [|b l2]; [reflexivity|].
    exfalso. apply (Hm b). left. reflexivity.
  - destruct Hs2 as [|b l2 Hs2 Hb].
    + exfalso. apply (Hm a). left. reflexivity.
    + rewrite Forall_forall in Ha, Hb.
      assert (Hab : a = b).
      { destruct (proj1 (Hm a) (or_introl eq_refl)) as [E|Hin];
          [symmetry; exact E|].
        destruct (proj2 (Hm b) (or_introl eq_refl)) as [E|Hin'];
          [exact E|].
        pose proof (Hb a Hin) as H1. pose proof (Ha b Hin') as H2.
        apply string_ltb_asym in H1. congruence. }
      subst b. f_equal. apply IH; [exact Hs2|].
      intros c. split; intros Hc.
      * destruct (proj1 (Hm c) (or_intror Hc)) as [E|Hin]; [|exact Hin].
        subst c. pose proof (Ha a Hc) as H.
        rewrite string_ltb_irrefl in H. discriminate.
      * destruct (proj2 (Hm c) (or_intror Hc)) as [E|Hin]; [|exact Hin].
        subst c. pose proof (Hb a Hc) as H.
        rewrite string_ltb_irrefl in H. discriminate.
Qed.

Lemma py_sorted_In (c : string) (l : list string) :
  In c (py_sorted l) <-> In c l.
Proof. apply sort_reverse_In. Qed.

Lemma py_sorted_ascending (l : list string) :
  NoDup l -> StronglySorted (fun a b => String.ltb a b = true) (py_sorted l).
Proof.
  intros Hnd.
  assert (Hnd' : NoDup (py_sorted l)).
  { apply (Permutation_NoDup
             (Permutation_sym (sort_reverse_perm _ _ l))). exact Hnd. }
  pose proof (sort_reverse_sorted (fun s : string => s)
                (fun a b => String.ltb b a) l
                string_gtb_asym string_gtb_cotrans) as Hs.
  fold (py_sorted l) in Hs.
  induction Hs as [|a l' Hs IH Ha]; constructor.
  - apply IH. inversion Hnd'. assumption.
  - inversion Hnd' as [|? ? Hnin _]; subst.
    rewrite Forall_forall in *. intros b Hb.
    specialize (Ha b Hb). unfold not_above in Ha.
    destruct (string_ltb_total a b) as [H|[->|H]];
      [exact H | contradiction | congruence].
Qed.

(** ** [get_all_categories] *)

Lemma categories_of_missing (ts : list Tool) :
  (exists t, In t ts /\ category t = None) ->
  categories_of ts = inl (KeyError "category").
Proof.
  induction ts as [|t ts IH]; intros [u [Hin Hu]]; [contradiction|].
  cbn [categories_of].
  destruct (category t) as [c|] eqn:Hc; cbn [getitem bind ret raise];
    [|reflexivity].
  destruct Hin as [->|Hin]; [congruence|].
  rewrite IH by (exists u; split; assumption). reflexivity.
Qed.

Lemma categories_of_present (ts : list Tool) :
  (forall t, In t ts -> category t <> None) ->
  exists cs,
    categories_of ts = inr cs /\
    forall c, In c cs <-> exists t, In t ts /\ category t = Some c.
Proof.
  induction ts as [|t ts IH]; intros Hall.
  - exists []. split; [reflexivity|].
    intros c. split; [intros [] | intros [t [[] _]]].
  - destruct IH as [cs [Hcs Hmem]];
      [intros u Hu; apply Hall; right; exact Hu|].
    cbn [categories_of].
    destruct (category t) as [c|] eqn:Hc;
      [|exfalso; apply (Hall t (or_introl eq_refl)); exact Hc].
    cbn [getitem bind ret raise]. rewrite Hcs. cbn [bind ret].
    exists (c :: cs). split; [reflexivity|].
    intros c'. cbn [In]. rewrite Hmem. split.
    + intros [<-|[u [Hu Hcu]]].
      * exists t. split; [left; reflexivity | exact Hc].
      * exists u. split; [right; exact Hu | exact Hcu].
    + intros [u [[<-|Hu] Hcu]].
      * left. congruence.
      * right. exists u. split; assumption.
Qed.

(** X1: [get_all_categories] raises [KeyError('category')] as soon as one
    record has no category; otherwise it returns the categories of the
    catalog, each once, in strictly ascending order, and that list is the
    only strictly ascending list of exactly these categories.  The catalog
    is left as it was. *)
Theorem all_categories_sorted_set (self : Recommender) :
  ((exists t, In t (tools self) /\ category t = None) ->
   get_all_categories self = (inl (KeyError "category"), self)) /\
  ((forall t, In t (tools self) -> category t <> None) ->
   exists out,
     get_all_categories self = (inr out, self) /\
     StronglySorted (fun a b => String.ltb a b = true) out /\
     (forall c, In c out <->
                exists t, In t (tools self) /\ category t = Some c) /\
     (forall l,
         StronglySorted (fun a b => String.ltb a b = true) l ->
         (forall c, In c l <->
                    exists t, In t (tools self) /\ category t = Some c) ->
         l = out)).
Proof.
  unfold get_all_categories. split.
  - intros H. rewrite (categories_of_missing _ H). reflexivity.
  - intros H. destruct (categories_of_present _ H) as [cs [Hcs Hmem]].
    rewrite Hcs. cbn [bind ret].
    exists (py_sorted (nodup string_dec cs)).
    assert (Hin : forall c,
               In c (py_sorted (nodup string_dec cs)) <->
               exists t, In t (tools self) /\ category t = Some c).
    { intros c. rewrite py_sorted_In, nodup_In. apply Hmem. }
    assert (Hasc : StronglySorted (fun a b => String.ltb a b = true)
                     (py_sorted (nodup string_dec cs))).
    { apply py_sorted_ascending, NoDup_nodup. }
    split; [reflexivity|]. split; [exact Hasc|]. split; [exact Hin|].
    intros l Hl Hlm. apply ascending_unique; [exact Hl | exact Hasc |].
    intros c. rewrite Hlm, Hin. reflexivity.
Qed.

Lemma all_categories_sorted_set_witness :
  get_all_categories sample_catalog
  = (inr ["coding"; "writing"], sample_catalog) /\
  get_all_categories {| tools := [tool_A; tool_no_category] |}
  = (inl (KeyError "category"), {| tools := [tool_A; tool_no_category] |}).
Proof.
  split.
  - destruct (proj2 (all_categories_sorted_set sample_catalog))
      as [out [Hout [_ [_ Huniq]]]].
    + intros t Ht. cbn in Ht.
      destruct Ht as [<-|[<-|[<-|[<-|[]]]]]; discriminate.
    + rewrite Hout. f_equal. f_equal. symmetry. apply Huniq.
      * repeat constructor.
      * intros c. cbn. split.
        -- intros [<-|[<-|[]]];
             [exists tool_A | exists tool_D]; cbn; tauto.
        -- intros [t [[<-|[<-|[<-|[<-|[]]]]] E]]; cbn in E;
             injection E as <-; tauto.
  - apply (proj1 (all_categories_sorted_set
                    {| tools := [tool_A; tool_no_category] |})).
    exists tool_no_category. split; [right; left; reflexivity | reflexivity].
Defined.

(** ** [get_tool_by_id] *)

(** X2: [get_tool_by_id] returns the first record of the catalog whose id
    is the wanted one, and [None] when every record has an id and none is
    the wanted one; it raises [KeyError('id')] exactly when a record
    without id comes before any record with the wanted id, even if such a
    record follows.  The catalog is left as it was. *)
Theorem tool_by_id_first_match (wanted : string) (self : Recommender) :
  snd (get_tool_by_id wanted self) = self /\
  match fst (get_tool_by_id wanted self) with
  | inr (Some t) =>
      exists before after,
        tools self = before ++ t :: after /\
        tool_id t = Some wanted /\
        forall u, In u before ->
                  exists i, tool_id u = Some i /\ i <> wanted
  | inr None =>
      forall u, In u (tools self) ->
                exists i, tool_id u = Some i /\ i <> wanted
  | inl e =>
      e = KeyError "id" /\
      exists before u after,
        tools self = before ++ u :: after /\
        tool_id u = None /\
        forall v, In v before ->
                  exists i, tool_id v = Some i /\ i <> wanted
  end.
Proof.
  split; [reflexivity|].
  unfold get_tool_by_id. cbn [fst].
  induction (tools self) as [|t ts IH]; cbn [first_with_id ret].
  - intros u [].
  - destruct (tool_id t) as [i|] eqn:Hi; cbn [getitem bind ret raise].
    + destruct (String.eqb_spec i wanted) as [->|Hne].
      * exists [], ts. split; [reflexivity|]. split; [exact Hi|].
        intros u [].
      * assert (Ht : exists j, tool_id t = Some j /\ j <> wanted)
          by (exists i; split; assumption).
        destruct (first_with_id wanted ts) as [e|[t'|]].
        -- destruct IH as [-> [before [u [after [E [Hu Hb]]]]]].
           split; [reflexivity|].
           exists (t :: before), u, after. rewrite E.
           split; [reflexivity|]. split; [exact Hu|].
           intros v [<-|Hv]; [exact Ht | apply Hb, Hv].
        -- destruct IH as [before [after [E [Ht' Hb]]]].
           exists (t :: before), after. rewrite E.
           split; [reflexivity|]. split; [exact Ht'|].
           intros v [<-|Hv]; [exact Ht | apply Hb, Hv].
        -- intros u [<-|Hu]; [exact Ht | apply IH, Hu].
    + split; [reflexivity|].
      exists [], t, ts. split; [reflexivity|]. split; [exact Hi|].
      intros v [].
Qed.

Lemma first_with_id_unique (ts : list Tool) (t : Tool) (i : string) :
  (forall u, In u ts -> tool_id u <> None) ->
  NoDup (map tool_id ts) ->
  In t ts -> tool_id t = Some i ->
  first_with_id i ts = inr (Some t).
Proof.
  induction ts as [|u ts IH]; intros Hall Hnd Hin Hi; [contradiction|].
  cbn [first_with_id].
  cbn [map] in Hnd. inversion Hnd as [|? ? Hnin Hnd']; subst.
  destruct (tool_id u) as [j|] eqn:Hj;
    [|exfalso; apply (Hall u (or_introl eq_refl)); exact Hj].
  cbn [getitem bind ret raise].
  destruct Hin as [->|Hin].
  - rewrite Hi in Hj. injection Hj as <-.
    rewrite String.eqb_refl. reflexivity.
  - destruct (String.eqb_spec j i) as [->|Hne].
    + exfalso. apply Hnin. rewrite <- Hi. apply in_map. exact Hin.
    + apply IH; try assumption.
      intros v Hv. apply Hall. right. exact Hv.
Qed.

(** X3: in a catalog where every record has an id and no id occurs twice,
    looking up the id of a record gives back that record. *)
Theorem tool_by_id_round_trip (self : Recommender) (t : Tool) (i : string) :
  (forall u, In u (tools self) -> tool_id u <> None) ->
  NoDup (map tool_id (tools self)) ->
  In t (tools self) -> tool_id t = Some i ->
  get_tool_by_id i self = (inr (Some t), self).
Proof.
  intros Hall Hnd Hin Hi. unfold get_tool_by_id.
  rewrite (first_with_id_unique _ t i Hall Hnd Hin Hi). reflexivity.
Qed.

Lemma tool_by_id_round_trip_witness :
  get_tool_by_id "C" sample_catalog = (inr (Some tool_C), sample_catalog).
Proof.
  apply tool_by_id_round_trip.
  - intros u Hu. cbn in Hu.
    destruct Hu as [<-|[<-|[<-|[<-|[]]]]]; discriminate.
  - cbn. repeat constructor; cbn; intuition discriminate.
  - cbn. tauto.
  - reflexivity.
Defined.

(** ** The least paid price *)

Lemma py_min_fold (x : Q) (rest : list Q) :
  let m := fold_left (fun m y => if Qltb y m then y else m) rest x in
  In m (x :: rest) /\ (m <= x)%Q /\ forall y, In y rest -> (m <= y)%Q.
Proof.
  revert x. induction rest as [|y rest IH]; intros x; cbn [fold_left].
  - split; [left; reflexivity|]. split; [apply Qle_refl | intros y []].
  - destruct (IH (if Qltb y x then y else x)) as [Hin [Hle Hall]].
    split; [|split].
    + destruct Hin as [E|Hin]; [|right; right; exact Hin].
      rewrite <- E. destruct (Qltb y x); [right; left|left]; reflexivity.
    + eapply Qle_trans; [exact Hle|].
      destruct (Qltb y x) eqn:E; [|apply Qle_refl].
      apply Qlt_le_weak, Qltb_lt, E.
    + intros z [<-|Hz]; [|apply Hall, Hz].
      eapply Qle_trans; [exact Hle|].
      destruct (Qltb y x) eqn:E; [apply Qle_refl|].
      apply Qltb_ge, E.
Qed.

Lemma py_min_least (xs : list Q) (default : Q) :
  xs <> [] ->
  In (py_min xs default) xs /\
  forall y, In y xs -> (py_min xs default <= y)%Q.
Proof.
  destruct xs as [|x rest]; [congruence|]. intros _.
  unfold py_min. destruct (py_min_fold x rest) as [Hin [Hle Hall]].
  split; [exact Hin|].
  intros y [<-|Hy]; [exact Hle | apply Hall, Hy].
Qed.

(** X4: the least paid price of a candidate is 0 when its tool lists no
    paid plan; otherwise it is the price of one of the plans (a plan
    without price counting as 0) and no plan is cheaper. *)
Theorem min_paid_price_least (r : ToolResult) :
  (plan_prices (tool r) = [] -> min_paid_price r = 0%Q) /\
  (plan_prices (tool r) <> [] ->
   In (min_paid_price r) (plan_prices (tool r)) /\
   forall p, In p (plan_prices (tool r)) -> (min_paid_price r <= p)%Q).
Proof.
  unfold min_paid_price. split.
  - intros ->. reflexivity.
  - apply py_min_least.
Qed.

Lemma min_paid_price_least_witness :
  In (min_paid_price
        {| tool := make_tool "E" "coding" "beginner" 8 7 false
                     [30%Q; 10%Q; 20%Q];
           score := 8; match_reasons := [] |})
     [30%Q; 10%Q; 20%Q] /\
  (min_paid_price
     {| tool := make_tool "E" "coding" "beginner" 8 7 false
                  [30%Q; 10%Q; 20%Q];
        score := 8; match_reasons := [] |} <= 10)%Q.
Proof.
  destruct (proj2 (min_paid_price_least
                     {| tool := make_tool "E" "coding" "beginner" 8 7 false
                                  [30%Q; 10%Q; 20%Q];
                        score := 8%Q; match_reasons := [] |}))
    as [Hin Hall]; [discriminate|].
  split; [exact Hin|]. apply Hall. right. left. reflexivity.
Defined.

Lemma budget_limit_nonneg (b : string) : 0 <= dict_get BUDGET_LEVELS b 50.
Proof.
  unfold BUDGET_LEVELS. cbn [dict_get].
  repeat (match goal with
          | |- 0 <= (if ?c then _ else _) => destruct c; [lia|]
          end).
  lia.
Qed.

(** ** When [recommend] raises *)

Lemma recommend_body_inl (categories : list string) (budget : string)
    (budget_limit user_tech : Z) (t : Tool) (e : exn) :
  recommend_body categories budget budget_limit user_tech t = inl e <->
  category_in t categories = true /\
  ((scores t = None /\ e = KeyError "scores") \/
   (exists s, scores t = Some s /\ overall s = None /\
              e = KeyError "overall") \/
   (exists s o, scores t = Some s /\ overall s = Some o /\
                value s = None /\
                (budget <> "free" \/ free_tier_of t = true) /\
                e = KeyError "value")).
Proof.
  unfold recommend_body.
  destruct (category_in t categories); cbn [negb].
  2:{ split; [discriminate | intros [H _]; discriminate]. }
  destruct (scores t) as [s|]; cbn [getitem bind ret raise].
  2:{ split.
      - intros H. injection H as <-. split; [reflexivity|]. left. tauto.
      - intros [_ [[_ ->]|[[s [H _]]|[s [o [H _]]]]]];
          [reflexivity | discriminate | discriminate]. }
  destruct (overall s) as [o|] eqn:Ho; cbn [getitem bind ret raise].
  2:{ split.
      - intros H. injection H as <-. split; [reflexivity|].
        right. left. exists s. tauto.
      - intros [_ [[H _]|[[s' [H [_ ->]]]|[s' [o [H [Ho' _]]]]]]];
          [discriminate | reflexivity |].
        injection H as <-. congruence. }
  destruct (String.eqb budget "free" && negb (free_tier_of t)) eqn:Hhard.
  - split; [discriminate|].
    intros [_ [[H _]|[[s' [H [Ho' _]]]|[s' [o' [_ [_ [_ [Hf _]]]]]]]]].
    + discriminate.
    + injection H as <-. congruence.
    + apply andb_true_iff in Hhard as [Hb Hf'].
      apply String.eqb_eq in Hb. apply negb_true_iff in Hf'.
      destruct Hf; congruence.
  - assert (Hf : budget <> "free" \/ free_tier_of t = true).
    { apply andb_false_iff in Hhard as [Hb|Hf'].
      - left. apply String.eqb_neq, Hb.
      - right. apply negb_false_iff, Hf'. }
    destruct (budget_adjust _ _ _ _ _) as [s1 r1].
    destruct (tech_adjust _ _ _ _) as [s2 r2].
    destruct (value s) as [v|] eqn:Hv; cbn [getitem bind ret raise].
    + split; [discriminate|].
      intros [_ [[H _]|[[s' [H [Ho' _]]]|[s' [o' [H [_ [Hv' _]]]]]]]].
      * discriminate.
      * injection H as <-. congruence.
      * injection H as <-. congruence.
    + split.
      * intros H. injection H as <-. split; [reflexivity|].
        right. right. exists s, o. tauto.
      * intros [_ [[H _]|[[s' [H [Ho' _]]]|[s' [o' [_ [_ [_ [_ ->]]]]]]]]].
        -- discriminate.
        -- injection H as <-. congruence.
        -- reflexivity.
Qed.

Lemma recommend_loop_inl (categories : list string) (budget : string)
    (budget_limit user_tech : Z) (ts : list Tool) (acc : list ToolResult)
    (e : exn) :
  recommend_loop categories budget budget_limit user_tech ts acc = inl e ->
  exists t, In t ts /\
    recommend_body categories budget budget_limit user_tech t = inl e.
Proof.
  revert acc. induction ts as [|t ts IH]; intros acc; cbn [recommend_loop ret];
    [discriminate|].
  destruct (recommend_body categories budget budget_limit user_tech t)
    as [e'|[r|]] eqn:Hb; cbn [bind].
  - intros H. injection H as <-. exists t. split; [left; reflexivity|exact Hb].
  - intros H. destruct (IH _ H) as [u [Hu Hbu]].
    exists u. split; [right; exact Hu | exact Hbu].
  - intros H. destruct (IH _ H) as [u [Hu Hbu]].
    exists u. split; [right; exact Hu | exact Hbu].
Qed.

Lemma recommend_loop_inr (categories : list string) (budget : string)
    (budget_limit user_tech : Z) (ts : list Tool) (acc rs : list ToolResult) :
  recommend_loop categories budget budget_limit user_tech ts acc = inr rs ->
  forall t, In t ts ->
    exists o, recommend_body categories budget budget_limit user_tech t
              = inr o.
Proof.
  revert acc. induction ts as [|t ts IH]; intros acc H u Hu; [contradiction|].
  cbn [recommend_loop] in H.
  destruct (recommend_body categories budget budget_limit user_tech t)
    as [e'|o] eqn:Hb; cbn [bind] in H; [discriminate|].
  destruct Hu as [<-|Hu]; [exists o; exact Hb|].
  destruct o as [r|]; eapply IH; eassumption.
Qed.

(** X6: [recommend] raises only [KeyError], and exactly when some record of
    a requested category has no [scores], or no [scores.overall], or has
    no [scores.value] while it is not dropped by the hard filter of the
    [free] budget.  Records of other categories never make it raise, and
    neither do the budget, the technical level or [top_n]. *)
Theorem recommend_raises_iff (categories : list string)
    (budget tech_level : string) (top_n : Z) (self : Recommender) :
  let incomplete (t : Tool) :=
    category_in t categories = true /\
    (scores t = None \/
     (exists s, scores t = Some s /\ overall s = None) \/
     (exists s, scores t = Some s /\ value s = None /\
                (budget <> "free" \/ free_tier_of t = true))) in
  ((exists e, fst (recommend categories budget tech_level top_n self) = inl e)
   <-> exists t, In t (tools self) /\ incomplete t) /\
  (forall e,
      fst (recommend categories budget tech_level top_n self) = inl e ->
      e = KeyError "scores" \/ e = KeyError "overall" \/ e = KeyError "value").
Proof.
  intros incomplete. unfold recommend. cbn [fst].
  set (bl := dict_get BUDGET_LEVELS budget 50).
  set (ut := dict_get TECH_LEVELS tech_level 1).
  assert (Hinl : forall e,
             bind (recommend_loop categories budget bl ut (tools self) [])
                  (fun results =>
                     ret (slice_to (sort_reverse score Qltb results) top_n))
             = inl e ->
             exists t, In t (tools self) /\
                       recommend_body categories budget bl ut t = inl e).
  { intros e H.
    destruct (recommend_loop categories budget bl ut (tools self) [])
      as [e'|rs] eqn:Hl; cbn [bind ret] in H; [|discriminate].
    injection H as <-. exact (recommend_loop_inl _ _ _ _ _ _ _ Hl). }
  split; [split|].
  - intros [e H]. destruct (Hinl e H) as [t [Ht Hb]].
    exists t. split; [exact Ht|].
    apply recommend_body_inl in Hb
      as [Hc [[Hs _]|[[s [Hs [Ho _]]]|[s [o [Hs [_ [Hv [Hf _]]]]]]]]];
      (split; [exact Hc|]).
    + left. exact Hs.
    + right. left. exists s. tauto.
    + right. right. exists s. tauto.
  - intros [t [Ht [Hc Hinc]]].
    destruct (recommend_loop categories budget bl ut (tools self) [])
      as [e|rs] eqn:Hl; cbn [bind ret]; [exists e; reflexivity|].
    exfalso.
    destruct (recommend_loop_inr _ _ _ _ _ _ _ Hl t Ht) as [o Ho].
    destruct Hinc as [Hs|[[s [Hs Hov]]|[s [Hs [Hv Hf]]]]].
    + assert (Hb : recommend_body categories budget bl ut t
                   = inl (KeyError "scores"))
        by (apply recommend_body_inl; split; [exact Hc|]; left; tauto).
      congruence.
    + assert (Hb : recommend_body categories budget bl ut t
                   = inl (KeyError "overall"))
        by (apply recommend_body_inl; split; [exact Hc|]; right; left;
            exists s; tauto).
      congruence.
    + destruct (overall s) as [ov|] eqn:Hov.
      * assert (Hb : recommend_body categories budget bl ut t
                     = inl (KeyError "value"))
          by (apply recommend_body_inl; split; [exact Hc|]; right; right;
              exists s, ov; tauto).
        congruence.
      * assert (Hb : recommend_body categories budget bl ut t
                     = inl (KeyError "overall"))
          by (apply recommend_body_inl; split; [exact Hc|]; right; left;
              exists s; tauto).
        congruence.
  - intros e H. destruct (Hinl e H) as [t [_ Hb]].
    apply recommend_body_inl in Hb
      as [_ [[_ ->]|[[s [_ [_ ->]]]|[s [o [_ [_ [_ [_ ->]]]]]]]]]; tauto.
Qed.

Lemma recommend_raises_iff_witness :
  exists e,
    fst (recommend ["coding"] "free" "beginner" 3 {| tools := [tool_bare] |})
    = inl e.
Proof.
  apply (proj1 (recommend_raises_iff ["coding"] "free" "beginner" 3
                  {| tools := [tool_bare] |})).
  exists tool_bare. split; [left; reflexivity|].
  split; [reflexivity|]. left. reflexivity.
Defined.

(** ** What the score and the reasons of a candidate depend on *)

Lemma recommend_body_value (categories : list string) (budget : string)
    (budget_limit user_tech : Z) (t : Tool) (s : Scores) (o v : Q) :
  category_in t categories = true ->
  scores t = Some s -> overall s = Some o -> value s = Some v ->
  (budget = "free" -> free_tier_of t = true) ->
  recommend_body categories budget budget_limit user_tech t
  = inr (Some
      {| tool := t;
         score :=
           (fst (tech_adjust (tool_tech_of t) user_tech
                   (fst (budget_adjust (free_tier_of t)
                           (py_min (plan_prices t) 0) budget_limit o []))
                   (snd (budget_adjust (free_tier_of t)
                           (py_min (plan_prices t) 0) budget_limit o [])))
            + v * (1 # 10))%Q;
         match_reasons :=
           snd (tech_adjust (tool_tech_of t) user_tech
                  (fst (budget_adjust (free_tier_of t)
                          (py_min (plan_prices t) 0) budget_limit o []))
                  (snd (budget_adjust (free_tier_of t)
                          (py_min (plan_prices t) 0) budget_limit o []))) |}).
Proof.
  intros Hc Hs Ho Hv Hfree. unfold recommend_body.
  rewrite Hc, Hs. cbn [negb getitem bind ret raise]. rewrite Ho.
  cbn [getitem bind ret raise].
  assert (Hhard : String.eqb budget "free" && negb (free_tier_of t) = false).
  { destruct (String.eqb_spec budget "free") as [E|_]; [|reflexivity].
    rewrite (Hfree E). reflexivity. }
  rewrite Hhard.
  destruct (budget_adjust _ _ _ _ _) as [s1 r1]. cbn [fst snd].
  destruct (tech_adjust _ _ _ _) as [s2 r2]. cbn [fst snd].
  rewrite Hv. reflexivity.
Qed.

Lemma recommend_body_reasons (categories : list string) (budget : string)
    (budget_limit user_tech : Z) (t : Tool) (r : ToolResult) :
  recommend_body categories budget budget_limit user_tech t = inr (Some r) ->
  match_reasons r
  = (if free_tier_of t then ["有免费版"] else [])
    ++ (if tool_tech_of t <=? user_tech then ["适合你的技术水平"] else []).
Proof.
  intros Hb.
  destruct (recommend_body_Some _ _ _ _ _ _ Hb)
    as [_ [Hc [Hfree [s [o [v [Hs [Ho [Hv _]]]]]]]]].
  rewrite (recommend_body_value _ _ _ _ _ s o v Hc Hs Ho Hv Hfree) in Hb.
  injection Hb as <-. cbn [match_reasons].
  unfold budget_adjust, tech_adjust.
  destruct (free_tier_of t); cbn [negb andb];
    [|destruct (Qltb _ _)];
    cbn [fst snd]; destruct (tool_tech_of t <=? user_tech);
    try reflexivity;
    destruct (user_tech + 1 <? tool_tech_of t); reflexivity.
Qed.

(** X7: the reasons of every candidate [recommend] returns say which
    bonuses its score holds, and nothing else: the free-tier reason is
    there exactly when the tool has a free tier, then the technical-level
    reason exactly when the tool's ordinal is at most the user's.  The two
    penalties leave no reason. *)
Theorem match_reasons_explain (categories : list string)
    (budget tech_level : string) (top_n : Z) (self : Recommender)
    (rs : list ToolResult) (r : ToolResult) :
  fst (recommend categories budget tech_level top_n self) = inr rs ->
  In r rs ->
  match_reasons r
  = (if has_free_tier r then ["有免费版"] else [])
    ++ (if tool_tech_of (tool r) <=? dict_get TECH_LEVELS tech_level 1
        then ["适合你的技术水平"] else []).
Proof.
  intros Hrs Hr.
  destruct (recommend_In _ _ _ _ _ _ _ Hrs Hr) as [t [_ Hb]].
  pose proof (recommend_body_reasons _ _ _ _ _ _ Hb) as Hreasons.
  apply recommend_body_Some in Hb as [<- _]. exact Hreasons.
Qed.

Lemma match_reasons_explain_witness :
  match_reasons
    {| tool := tool_D;
       score := (9 + (3 # 10) - (5 # 10) + 6 * (1 # 10))%Q;
       match_reasons := ["有免费版"] |}
  = ["有免费版"] ++ [].
Proof.
  apply (match_reasons_explain ["writing"] "low" "beginner" 3 sample_catalog
           [ {| tool := tool_D;
                score := (9 + (3 # 10) - (5 # 10) + 6 * (1 # 10))%Q;
                match_reasons := ["有免费版"] |} ]).
  - vm_compute. reflexivity.
  - left. reflexivity.
Defined.

Lemma tech_adjust_skill (tool_tech ut ut' : Z) (s s' : Q)
    (rs rs' : list string) :
  ut <= ut' -> (s <= s')%Q ->
  (fst (tech_adjust tool_tech ut s rs)
   <= fst (tech_adjust tool_tech ut' s' rs'))%Q.
Proof.
  intros Hut Hs. unfold tech_adjust.
  destruct (Z.leb_spec tool_tech ut); destruct (Z.leb_spec tool_tech ut');
    try lia;
    repeat (match goal with
            | |- context [?a <? ?b] => destruct (Z.ltb_spec a b)
            end); try lia; cbn [fst]; lra.
Qed.

(** X8: for one tool and one budget, a higher technical level of the user
    never lowers the score: a candidate for the ordinal [ut] is a
    candidate for every [ut' >= ut], with a score at least as high. *)
Theorem more_skilled_never_lower (categories : list string) (budget : string)
    (budget_limit ut ut' : Z) (t : Tool) (r : ToolResult) :
  recommend_body categories budget budget_limit ut t = inr (Some r) ->
  ut <= ut' ->
  exists r',
    recommend_body categories budget budget_limit ut' t = inr (Some r') /\
    tool r' = tool r /\ (score r <= score r')%Q.
Proof.
  intros Hb Hut.
  destruct (recommend_body_Some _ _ _ _ _ _ Hb)
    as [Htool [Hc [Hfree [s [o [v [Hs [Ho [Hv Hscore]]]]]]]]].
  eexists. split; [|split].
  - apply (recommend_body_value _ _ _ _ _ s o v Hc Hs Ho Hv Hfree).
  - cbn [tool]. symmetry. exact Htool.
  - cbn [score]. rewrite Hscore.
    apply Qplus_le_compat; [|apply Qle_refl].
    apply tech_adjust_skill; [exact Hut | apply Qle_refl].
Qed.

Lemma more_skilled_never_lower_witness :
  exists r',
    recommend_body ["writing"] "low" 20 3 tool_D = inr (Some r') /\
    tool r' = tool_D /\
    (9 + (3 # 10) - (5 # 10) + 6 * (1 # 10) <= score r')%Q.
Proof.
  apply (more_skilled_never_lower ["writing"] "low" 20 1 3 tool_D
           {| tool := tool_D;
              score := (9 + (3 # 10) - (5 # 10) + 6 * (1 # 10))%Q;
              match_reasons := ["有免费版"] |}).
  - reflexivity.
  - lia.
Defined.

Lemma budget_adjust_ceiling (has_free : bool) (min_price : Q) (bl bl' : Z)
    (o : Q) (rs : list string) :
  bl <= bl' -> (0 <= o)%Q ->
  (fst (budget_adjust has_free min_price bl o rs)
   <= fst (budget_adjust has_free min_price bl' o rs))%Q.
Proof.
  intros Hbl Ho. unfold budget_adjust.
  destruct has_free; cbn [negb andb fst]; [apply Qle_refl|].
  destruct (Qltb (inject_Z bl') min_price) eqn:E'.
  - assert (E : Qltb (inject_Z bl) min_price = true).
    { apply Qltb_lt. apply Qltb_lt in E'.
      eapply Qle_lt_trans; [|exact E']. rewrite <- Zle_Qle. exact Hbl. }
    rewrite E. apply Qle_refl.
  - destruct (Qltb (inject_Z bl) min_price); cbn [fst]; lra.
Qed.


(** ** [top_n] *)

Lemma recommend_fst (categories : list string) (budget tech_level : string)
    (top_n : Z) (self : Recommender) :
  fst (recommend categories budget tech_level top_n self)
  = bind (recommend_loop categories budget (dict_get BUDGET_LEVELS budget 50)
            (dict_get TECH_LEVELS tech_level 1) (tools self) [])
         (fun res => ret (slice_to (sort_reverse score Qltb res) top_n)).
Proof. reflexivity. Qed.

Lemma recommend_any_top_n (categories : list string)
    (budget tech_level : string) (m n : Z) (self : Recommender)
    (rm : list ToolResult) :
  fst (recommend categories budget tech_level m self) = inr rm ->
  fst (recommend categories budget tech_level n self)
  = inr (slice_to
           (sort_reverse score Qltb
              (surviving categories budget tech_level (tools self)))
           n).
Proof.
  rewrite !recommend_fst.
  destruct (recommend_loop _ _ _ _ (tools self) []) as [e|res] eqn:Hl;
    cbn [bind ret]; [discriminate|].
  intros _. apply recommend_loop_surviving in Hl. cbn [app] in Hl.
  subst res. reflexivity.
Qed.

Lemma surviving_length (categories : list string) (budget tech_level : string)
    (ts : list Tool) :
  (length (surviving categories budget tech_level ts) <= length ts)%nat.
Proof.
  unfold surviving. induction ts as [|t ts IH]; cbn [flat_map length];
    [lia|].
  rewrite length_app.
  destruct (recommend_body _ _ _ _ t) as [e|[r|]]; cbn [length]; lia.
Qed.

(** X10: the result for [top_n = k] is the first [k] entries of the result
    for any larger [top_n = m]: asking for fewer candidates never changes
    which ones come first, nor their scores. *)
Theorem top_n_prefix (categories : list string) (budget tech_level : string)
    (k m : Z) (self : Recommender) (rm : list ToolResult) :
  fst (recommend categories budget tech_level m self) = inr rm ->
  0 <= k <= m ->
  fst (recommend categories budget tech_level k self)
  = inr (firstn (Z.to_nat k) rm).
Proof.
  intros Hm Hk.
  rewrite (recommend_any_top_n _ _ _ m k _ _ Hm).
  rewrite (recommend_any_top_n _ _ _ m m _ _ Hm) in Hm.
  injection Hm as <-.
  rewrite !slice_to_nonneg by lia.
  rewrite firstn_firstn. f_equal. f_equal. lia.
Qed.

Lemma top_n_prefix_witness :
  fst (recommend ["coding"] "medium" "beginner" 1 sample_catalog)
  = inr (firstn 1
           [ {| tool := tool_A;
                score := (8 + (3 # 10) + (2 # 10) + 7 * (1 # 10))%Q;
                match_reasons := ["有免费版"; "适合你的技术水平"] |};
             {| tool := tool_B;
                score := (8 + (2 # 10) + 9 * (1 # 10))%Q;
                match_reasons := ["适合你的技术水平"] |} ]).
Proof.
  apply (top_n_prefix ["coding"] "medium" "beginner" 1 2 sample_catalog).
  - vm_compute. reflexivity.
  - lia.
Defined.

(** X11: a [top_n] that is not positive raises nothing.  For [top_n >= 0]
    the result has at most [top_n] entries, none for [top_n = 0]; for
    [top_n < 0] the result is the whole ranking without its last [-top_n]
    entries (the whole ranking being what a [top_n] as large as the
    catalog gives). *)
Theorem top_n_bounds (categories : list string) (budget tech_level : string)
    (top_n : Z) (self : Recommender) (rs : list ToolResult) :
  fst (recommend categories budget tech_level top_n self) = inr rs ->
  (0 <= top_n -> (length rs <= Z.to_nat top_n)%nat) /\
  (top_n < 0 ->
   exists whole,
     fst (recommend categories budget tech_level
            (Z.of_nat (length (tools self))) self) = inr whole /\
     rs = firstn (length whole - Z.to_nat (- top_n)) whole).
Proof.
  intros Hrs.
  pose proof (recommend_any_top_n _ _ _ top_n top_n _ _ Hrs) as Hn.
  rewrite Hn in Hrs. injection Hrs as <-.
  set (ranked := sort_reverse score Qltb
                   (surviving categories budget tech_level (tools self))).
  split.
  - intros H. rewrite slice_to_nonneg by exact H. apply firstn_le_length.
  - intros H. exists ranked. split.
    + rewrite (recommend_any_top_n _ _ _ top_n _ _ _ Hn).
      fold ranked. rewrite slice_to_nonneg by lia.
      rewrite Nat2Z.id. rewrite firstn_all2; [reflexivity|].
      unfold ranked. rewrite sort_reverse_length. apply surviving_length.
    + unfold slice_to. destruct (Z.ltb_spec top_n 0); [|lia].
      f_equal. lia.
Qed.

Lemma top_n_bounds_witness :
  exists whole,
    fst (recommend ["coding"] "medium" "beginner" 4 sample_catalog)
    = inr whole /\
    [ {| tool := tool_A;
         score := (8 + (3 # 10) + (2 # 10) + 7 * (1 # 10))%Q;
         match_reasons := ["有免费版"; "适合你的技术水平"] |};
      {| tool := tool_B;
         score := (8 + (2 # 10) + 9 * (1 # 10))%Q;
         match_reasons := ["适合你的技术水平"] |} ]
    = firstn (length whole - 1) whole.
Proof.
  apply (proj2 (top_n_bounds ["coding"] "medium" "beginner" (-1)
                  sample_catalog _ eq_refl)).
  lia.
Defined.

(** ** What [recommend] does not depend on *)

Lemma list_in_ext (c : string) (l1 l2 : list string) :
  (forall x, In x l1 <-> In x l2) -> list_in c l1 = list_in c l2.
Proof.
  intros H. destruct (list_in c l2) eqn:E.
  - apply list_in_In, H, list_in_In, E.
  - destruct (list_in c l1) eqn:E1; [|reflexivity].
    apply list_in_In, H, list_in_In in E1. congruence.
Qed.

Lemma recommend_loop_categories_ext (cats1 cats2 : list string)
    (budget : string) (bl ut : Z) (ts : list Tool) (acc : list ToolResult) :
  (forall t, category_in t cats1 = category_in t cats2) ->
  recommend_loop cats1 budget bl ut ts acc
  = recommend_loop cats2 budget bl ut ts acc.
Proof.
  intros H. revert acc.
  induction ts as [|t ts IH]; intros acc; cbn [recommend_loop]; [reflexivity|].
  assert (Hb : recommend_body cats1 budget bl ut t
               = recommend_body cats2 budget bl ut t)
    by (unfold recommend_body; rewrite (H t); reflexivity).
  rewrite Hb.
  destruct (recommend_body cats2 budget bl ut t) as [e|[r|]]; cbn [bind];
    auto.
Qed.

(** X12: [recommend] uses the requested categories as a set: two lists
    with the same members, in any order and with any repetition, give the
    same outcome. *)
Theorem categories_as_a_set (cats1 cats2 : list string)
    (budget tech_level : string) (top_n : Z) (self : Recommender) :
  (forall c, In c cats1 <-> In c cats2) ->
  recommend cats1 budget tech_level top_n self
  = recommend cats2 budget tech_level top_n self.
Proof.
  intros H. unfold recommend.
  rewrite (recommend_loop_categories_ext cats1 cats2); [reflexivity|].
  intros t. unfold category_in.
  destruct (category t) as [c|]; [apply list_in_ext, H | reflexivity].
Qed.

Lemma categories_as_a_set_witness :
  recommend ["coding"; "writing"] "low" "beginner" 3 sample_catalog
  = recommend ["writing"; "coding"; "writing"] "low" "beginner" 3
      sample_catalog.
Proof.
  apply categories_as_a_set.
  intros c. cbn. tauto.
Defined.

Lemma recommend_loop_filter (categories : list string) (budget : string)
    (bl ut : Z) (ts : list Tool) (acc : list ToolResult) :
  recommend_loop categories budget bl ut
    (filter (fun t => category_in t categories) ts) acc
  = recommend_loop categories budget bl ut ts acc.
Proof.
  revert acc. induction ts as [|t ts IH]; intros acc; [reflexivity|].
  cbn [filter].
  destruct (category_in t categories) eqn:Hc; cbn [recommend_loop].
  - destruct (recommend_body categories budget bl ut t) as [e|[r|]];
      cbn [bind]; auto.
  - assert (Hb : recommend_body categories budget bl ut t = inr None)
      by (unfold recommend_body; rewrite Hc; reflexivity).
    rewrite Hb. cbn [bind]. apply IH.
Qed.

(** X13: the records of the other categories have no part in the outcome:
    [recommend] returns, or raises, the same on the catalog and on the
    catalog reduced to the records of the requested categories. *)
Theorem other_categories_irrelevant (categories : list string)
    (budget tech_level : string) (top_n : Z) (self : Recommender) :
  fst (recommend categories budget tech_level top_n self)
  = fst (recommend categories budget tech_level top_n
           {| tools := filter (fun t => category_in t categories)
                              (tools self) |}).
Proof.
  rewrite !recommend_fst. cbn [tools].
  rewrite recommend_loop_filter. reflexivity.
Qed.

(** ** More on [classify_scenario] *)

Lemma str_append_assoc (a b c : string) :
  ((a ++ b) ++ c = a ++ b ++ c)%string.
Proof.
  induction a as [|x a IH]; cbn; [reflexivity|]. rewrite IH. reflexivity.
Qed.

Lemma occurs_in_trans (s t u : string) :
  occurs_in s t -> occurs_in t u -> occurs_in s u.
Proof.
  intros [a [b ->]] [a' [b' ->]].
  exists (a' ++ a)%string, (b ++ b')%string.
  rewrite !str_append_assoc. reflexivity.
Qed.

Lemma filter_length_imp {A : Type} (f g : A -> bool) (l : list A) :
  (forall x, In x l -> f x = true -> g x = true) ->
  (length (filter f l) <= length (filter g l))%nat.
Proof.
  induction l as [|x l IH]; intros H; [reflexivity|].
  cbn [filter].
  assert (IH' : (length (filter f l) <= length (filter g l))%nat)
    by (apply IH; intros y Hy; apply H; right; exact Hy).
  destruct (f x) eqn:Ef.
  - rewrite (H x (or_introl eq_refl) Ef). cbn [length]. lia.
  - destruct (g x); cbn [length]; lia.
Qed.

Lemma filter_only {A : Type} (f : A -> bool) (c : A) (l : list A) :
  NoDup l -> In c l -> f c = true ->
  (forall x, In x l -> x <> c -> f x = false) ->
  filter f l = [c].
Proof.
  induction l as [|y l IH]; intros Hnd Hin Hc Hother; [contradiction|].
  inversion Hnd as [|? ? Hnin Hnd']; subst. cbn [filter].
  destruct Hin as [->|Hin].
  - rewrite Hc. f_equal.
    assert (Hnone : forall x, In x l -> f x = false).
    { intros x Hx. apply Hother; [right; exact Hx|].
      intros ->. contradiction. }
    clear - Hnone. induction l as [|z l IH]; [reflexivity|].
    cbn [filter]. rewrite (Hnone z (or_introl eq_refl)).
    apply IH. intros x Hx. apply Hnone. right. exact Hx.
  - rewrite (Hother y (or_introl eq_refl)) by (intros ->; contradiction).
    apply IH; try assumption.
    intros x Hx. apply Hother. right. exact Hx.
Qed.

Lemma classify_scenario_shape (str_lower : string -> string)
    (text : string) (self : Recommender) :
  exists out,
    classify_scenario str_lower text self = (inr out, self) /\
    out <> [] /\ NoDup out /\
    (forall c, In c out -> In c declared_categories) /\
    (length out <= 8)%nat.
Proof.
  rewrite classify_scenario_eq.
  set (pos := positive_categories str_lower text).
  assert (Hnd : NoDup pos) by apply NoDup_filter, CATEGORY_KEYWORDS_NoDup.
  assert (Hincl : forall c, In c pos -> In c declared_categories).
  { intros c Hc. apply filter_In in Hc. tauto. }
  destruct pos as [|c l] eqn:E.
  - exists ["foundation"]. split; [reflexivity|].
    split; [discriminate|]. split; [repeat constructor; intros []|].
    split; [|cbn; lia].
    intros c [<-|[]]. cbn. tauto.
  - exists (sort_reverse (category_count str_lower text) Nat.ltb (c :: l)).
    split; [reflexivity|].
    assert (Hperm := sort_reverse_perm (category_count str_lower text)
                       Nat.ltb (c :: l)).
    split; [|split; [|split]].
    + intros E'. rewrite E' in Hperm.
      apply Permutation_nil in Hperm. discriminate.
    + exact (Permutation_NoDup (Permutation_sym Hperm) Hnd).
    + intros c' Hc'. apply Hincl. rewrite sort_reverse_In in Hc'. exact Hc'.
    + rewrite (Permutation_length Hperm).
      change 8%nat with (length declared_categories).
      apply NoDup_incl_length; [exact Hnd | exact Hincl].
Qed.

(** X14: [classify_scenario] raises nothing and returns, for every text, a
    list that is not empty, holds no category twice and holds declared
    categories only (so at most 8): the caller always has a category to
    hand to [recommend]. *)
Theorem classify_nonempty_declared (str_lower : string -> string)
    (text : string) (self : Recommender) :
  exists out,
    classify_scenario str_lower text self = (inr out, self) /\
    out <> [] /\ NoDup out /\
    (forall c, In c out -> In c declared_categories) /\
    (length out <= 8)%nat.
Proof. apply classify_scenario_shape. Qed.

(** X15: when the keywords of one declared category [c], and of no other,
    occur in the text, [classify_scenario] returns [[c]]. *)
Theorem classify_single_category (str_lower : string -> string)
    (text c : string) (self : Recommender) :
  In c declared_categories ->
  (0 < category_count str_lower text c)%nat ->
  (forall c', c' <> c -> category_count str_lower text c' = 0%nat) ->
  classify_scenario str_lower text self = (inr [c], self).
Proof.
  intros Hc Hpos Hother. rewrite classify_scenario_eq.
  assert (E : positive_categories str_lower text = [c]).
  { unfold positive_categories.
    apply filter_only; [apply CATEGORY_KEYWORDS_NoDup | exact Hc | |].
    - apply Nat.ltb_lt, Hpos.
    - intros x _ Hx. rewrite (Hother x Hx). reflexivity. }
  rewrite E. reflexivity.
Qed.

Lemma classify_single_category_witness :
  classify_scenario lower_ascii "help me DEBUG this" sample_catalog
  = (inr ["coding"], sample_catalog).
Proof.
  apply classify_single_category.
  - cbn. tauto.
  - vm_compute. lia.
  - intros c' Hne. unfold category_count, CATEGORY_KEYWORDS.
    cbn [dict_get].
    repeat (match goal with
            | |- context [String.eqb ?k c'] =>
                destruct (String.eqb_spec k c');
                [first [congruence | vm_compute; reflexivity]|]
            end).
    reflexivity.
Defined.

(** X16: when the lower-cased text occurs in another lower-cased text, no
    category counts fewer keywords in the other text; so, unless the first
    text had no keyword at all, every category returned for it is returned
    for the other one too (possibly at another rank). *)
Theorem classify_containment (str_lower : string -> string)
    (text text' : string) (self : Recommender) :
  occurs_in (str_lower text) (str_lower text') ->
  (forall c, (category_count str_lower text c
              <= category_count str_lower text' c)%nat) /\
  (positive_categories str_lower text <> [] ->
   forall out out' c,
     classify_scenario str_lower text self = (inr out, self) ->
     classify_scenario str_lower text' self = (inr out', self) ->
     In c out -> In c out').
Proof.
  intros Hocc.
  assert (Hcount : forall c, (category_count str_lower text c
                              <= category_count str_lower text' c)%nat).
  { intros c. unfold category_count, keyword_count.
    apply filter_length_imp. intros kw _ H.
    apply str_in_occurs. apply str_in_occurs in H.
    exact (occurs_in_trans _ _ _ H Hocc). }
  split; [exact Hcount|].
  intros Hne out out' c Hout Hout' Hc.
  rewrite classify_scenario_eq in Hout, Hout'.
  injection Hout as <-. injection Hout' as <-.
  assert (Hpos : In c (positive_categories str_lower text)).
  { destruct (positive_categories str_lower text) as [|c0 l] eqn:E;
      [contradiction|].
    rewrite sort_reverse_In in Hc. exact Hc. }
  assert (Hpos' : In c (positive_categories str_lower text')).
  { unfold positive_categories in *. apply filter_In in Hpos as [Hd Hp].
    apply filter_In. split; [exact Hd|].
    apply Nat.ltb_lt. apply Nat.ltb_lt in Hp.
    specialize (Hcount c). lia. }
  destruct (positive_categories str_lower text') as [|c0 l] eqn:E';
    [contradiction|].
  rewrite sort_reverse_In. exact Hpos'.
Qed.

Lemma classify_containment_witness :
  (category_count lower_ascii "excel" "data"
   <= category_count lower_ascii "my Excel and CSV files" "data")%nat.
Proof.
  apply (proj1 (classify_containment lower_ascii "excel"
                  "my Excel and CSV files" sample_catalog
                  ltac:(exists "my ", " and csv files"; reflexivity))).
Defined.

(** ** The score bars *)

Lemma str_length_append (a b : string) :
  String.length (a ++ b) = (String.length a + String.length b)%nat.
Proof.
  induction a as [|x a IH]; cbn; [reflexivity|]. rewrite IH. reflexivity.
Qed.

Lemma str_repeat_length (s : string) (n : nat) :
  String.length (str_repeat s n) = (n * String.length s)%nat.
Proof.
  induction n as [|n IH]; cbn [str_repeat]; [reflexivity|].
  rewrite str_length_append, IH. cbn. lia.
Qed.

(** Rounding stays between the integers that enclose its argument. *)
Lemma py_round_bounds (x : Q) (lo hi : Z) :
  (inject_Z lo <= x)%Q -> (x <= inject_Z hi)%Q ->
  lo <= py_round x <= hi.
Proof.
  intros Hlo Hhi. unfold py_round.
  pose proof (Qround.Qfloor_le x) as Hf.
  pose proof (Qround.Qfloor_resp_le _ _ Hlo) as Hflo.
  pose proof (Qround.Qfloor_resp_le _ _ Hhi) as Hfhi.
  rewrite Qround.Qfloor_Z in Hflo, Hfhi.
  set (f := Qround.Qfloor x) in *.
  assert (Hup : (1 # 2 <= x - inject_Z f)%Q -> f + 1 <= hi).
  { intros Hr.
    assert (Hlt : (inject_Z f < inject_Z hi)%Q) by lra.
    rewrite <- Zlt_Qlt in Hlt. lia. }
  destruct (Qltb (x - inject_Z f) (1 # 2)) eqn:E1; [lia|].
  apply Qltb_ge in E1. specialize (Hup E1).
  destruct (Qltb (1 # 2) (x - inject_Z f)); [lia|].
  destruct (Z.even f); lia.
Qed.

Lemma py_round_monotone (x y : Q) : (x <= y)%Q -> py_round x <= py_round y.
Proof.
  intros Hxy. unfold py_round.
  pose proof (Qround.Qfloor_le x) as Hfx.
  pose proof (Qround.Qlt_floor x) as Hgx.
  pose proof (Qround.Qfloor_le y) as Hfy.
  pose proof (Qround.Qlt_floor y) as Hgy.
  pose proof (Qround.Qfloor_resp_le _ _ Hxy) as Hf.
  set (f := Qround.Qfloor x) in *. set (g := Qround.Qfloor y) in *.
  rewrite inject_Z_plus in Hgx, Hgy.
  destruct (Z.eq_dec f g) as [E|Hne].
  - rewrite <- E in *. clear E.
    destruct (Qltb (x - inject_Z f) (1 # 2)) eqn:X1.
    + destruct (Qltb (y - inject_Z f) (1 # 2)); [lia|].
      destruct (Qltb (1 # 2) (y - inject_Z f)); [lia|].
      destruct (Z.even f); lia.
    + apply Qltb_ge in X1.
      assert (Y1 : Qltb (y - inject_Z f) (1 # 2) = false)
        by (apply Qltb_ge; lra).
      rewrite Y1.
      destruct (Qltb (1 # 2) (x - inject_Z f)) eqn:X2.
      * apply Qltb_lt in X2.
        assert (Y2 : Qltb (1 # 2) (y - inject_Z f) = true)
          by (apply Qltb_lt; lra).
        rewrite Y2. lia.
      * destruct (Qltb (1 # 2) (y - inject_Z f)); destruct (Z.even f); lia.
  - assert (Hfg : f + 1 <= g) by lia.
    assert (Hx : (if Qltb (x - inject_Z f) (1 # 2) then f
                  else if Qltb (1 # 2) (x - inject_Z f) then f + 1
                       else if Z.even f then f else f + 1) <= f + 1)
      by (destruct (Qltb (x - inject_Z f) (1 # 2));
          [|destruct (Qltb (1 # 2) (x - inject_Z f));
            [|destruct (Z.even f)]]; lia).
    assert (Hy : g <= (if Qltb (y - inject_Z g) (1 # 2) then g
                       else if Qltb (1 # 2) (y - inject_Z g) then g + 1
                            else if Z.even g then g else g + 1))
      by (destruct (Qltb (y - inject_Z g) (1 # 2));
          [|destruct (Qltb (1 # 2) (y - inject_Z g));
            [|destruct (Z.even g)]]; lia).
    lia.
Qed.

Lemma score_fraction_bounds (score max_score : Q) (width : Z) :
  (0 < max_score)%Q -> 0 <= width ->
  (0 <= score)%Q -> (score <= max_score)%Q ->
  (inject_Z 0 <= score / max_score * inject_Z width)%Q /\
  (score / max_score * inject_Z width <= inject_Z width)%Q.
Proof.
  intros Hmax Hw H0 H1.
  assert (Hw' : (0 <= inject_Z width)%Q)
    by (change 0%Q with (inject_Z 0); rewrite <- Zle_Qle; exact Hw).
  assert (Hd0 : (0 <= score / max_score)%Q)
    by (apply Qle_shift_div_l; [exact Hmax | lra]).
  assert (Hd1 : (score / max_score <= 1)%Q)
    by (apply Qle_shift_div_r; [exact Hmax | lra]).
  split.
  - change (inject_Z 0) with 0%Q. apply Qmult_le_0_compat; assumption.
  - setoid_replace (inject_Z width) with (1 * inject_Z width)%Q at 2 by ring.
    apply Qmult_le_compat_r; assumption.
Qed.

(** X17: for a positive [max_score] and a width that is not negative, the
    bar of [_score_bar] is never shorter than [width] cells (each cell is
    one three-byte symbol), and it has exactly [width] cells, the filled
    ones first, whenever [0 <= score <= max_score]; a higher score never
    fills fewer cells.  The bar of [render_score_bar] is the bar of
    [_score_bar] for the width 8. *)
Theorem score_bar_width (score max_score : Q) (width : Z) :
  (0 < max_score)%Q -> 0 <= width ->
  let filled := py_round (score / max_score * inject_Z width)%Q in
  _score_bar score max_score width
  = Some (str_mul "█" filled ++ str_mul "░" (width - filled))%string /\
  render_score_bar score max_score = _score_bar score max_score 8 /\
  (forall bar, _score_bar score max_score width = Some bar ->
               (3 * Z.to_nat width <= String.length bar)%nat) /\
  ((0 <= score)%Q -> (score <= max_score)%Q ->
   0 <= filled <= width /\
   forall bar, _score_bar score max_score width = Some bar ->
               String.length bar = (3 * Z.to_nat width)%nat) /\
  (forall score',
      (score <= score')%Q ->
      filled <= py_round (score' / max_score * inject_Z width)%Q).
Proof.
  intros Hmax Hw filled.
  assert (Hnz : Qeq_bool max_score 0 = false).
  { destruct (Qeq_bool max_score 0) eqn:E; [|reflexivity].
    apply Qeq_bool_iff in E. lra. }
  assert (Hbar : _score_bar score max_score width
                 = Some (str_mul "█" filled ++ str_mul "░" (width - filled))%string)
    by (unfold _score_bar; rewrite Hnz; reflexivity).
  assert (Hlen : String.length
                   (str_mul "█" filled ++ str_mul "░" (width - filled))
                 = (3 * (Z.to_nat filled + Z.to_nat (width - filled)))%nat).
  { unfold str_mul. rewrite str_length_append, !str_repeat_length.
    cbn [String.length]. lia. }
  split; [exact Hbar|]. split; [|split; [|split]].
  - unfold render_score_bar, _score_bar. rewrite Hnz. reflexivity.
  - intros bar Hb. rewrite Hbar in Hb. injection Hb as <-.
    rewrite Hlen. lia.
  - intros H0 H1.
    destruct (score_fraction_bounds score max_score width Hmax Hw H0 H1)
      as [Hlo Hhi].
    pose proof (py_round_bounds _ 0 width Hlo Hhi) as Hf. fold filled in Hf.
    split; [exact Hf|].
    intros bar Hb. rewrite Hbar in Hb. injection Hb as <-.
    rewrite Hlen. lia.
  - intros score' Hs. apply py_round_monotone.
    apply Qmult_le_compat_r;
      [|change 0%Q with (inject_Z 0); rewrite <- Zle_Qle; exact Hw].
    unfold Qdiv. apply Qmult_le_compat_r; [exact Hs|].
    apply Qlt_le_weak, Qinv_lt_0_compat, Hmax.
Qed.

Lemma score_bar_width_witness :
  _score_bar (85 # 10) 10 10
  = Some (str_mul "█" (py_round ((85 # 10) / 10 * inject_Z 10))
          ++ str_mul "░" (10 - py_round ((85 # 10) / 10 * inject_Z 10)))%string.
Proof.
  apply (score_bar_width (85 # 10) 10 10); [reflexivity | lia].
Defined.

Example score_bar_half_to_even :
  _score_bar (85 # 10) 10 10 = Some "████████░░" /\
  _score_bar (75 # 10) 10 10 = Some "████████░░".
Proof. split; reflexivity. Qed.

Example score_bar_out_of_range :
  _score_bar 12 10 10 = Some "████████████" /\
  _score_bar (-1) 10 10 = Some "░░░░░░░░░░░" /\
  _score_bar 5 0 10 = None.
Proof. repeat split; reflexivity. Qed.

(** ** The conversation steps *)

Lemma dict_getitem_In {V : Type} (d : list (string * V)) (k : string) :
  In k (dict_keys d) -> exists v, dict_getitem d k = inr v.
Proof.
  induction d as [|[k' v'] d IH]; cbn; [tauto|].
  intros [->|H].
  - rewrite String.eqb_refl. exists v'. reflexivity.
  - destruct (String.eqb k' k); [exists v'; reflexivity | apply IH, H].
Qed.


Lemma recommend_well_formed_inr (cats : list string) (b t : string)
    (top_n : Z) (self : Recommender) :
  well_formed (tools self) = true ->
  exists rs, fst (recommend cats b t top_n self) = inr rs.
Proof.
  intros Hwf. rewrite recommend_fst.
  rewrite (recommend_loop_well_formed cats b t (tools self) [] Hwf).
  cbn [bind ret]. eexists. reflexivity.
Qed.

Lemma recommend_length (cats : list string) (b t : string) (top_n : Z)
    (self : Recommender) (rs : list ToolResult) :
  fst (recommend cats b t top_n self) = inr rs ->
  0 <= top_n -> (length rs <= Z.to_nat top_n)%nat.
Proof.
  intros H Hn. apply recommend_inr in H. subst rs.
  rewrite slice_to_nonneg by exact Hn. apply firstn_le_length.
Qed.

(** X18: from any session state, the three steps of the conversation in
    the order the page offers them (task text, one of the four budgets,
    one of the three levels), on a catalog whose records have their
    scores, raise nothing and leave the session at step 4 with: the text,
    the categories [classify_scenario] gives for it (never an empty list),
    the budget and the level as chosen, and as results what [recommend]
    returns for these with [top_n = 3], so at most three candidates, each
    of a classified category; three messages have been added. *)
Theorem conversation_results (str_lower : string -> string)
    (recommender : Recommender) (s : SessionState) (text b t : string) :
  In b (dict_keys BUDGET_NAMES) ->
  In t (dict_keys TECH_NAMES) ->
  well_formed (tools recommender) = true ->
  let run :=
    and_then (handle_task_input str_lower recommender text)
      (and_then (handle_budget_input b)
                (handle_tech_input recommender t)) in
  exists cats rs,
    fst (classify_scenario str_lower text recommender) = inr cats /\
    cats <> [] /\
    fst (recommend cats b t 3 recommender) = inr rs /\
    run s
    = (inr tt,
       {| step := 4;
          messages := messages (snd (run s));
          user_task := text; categories := cats; budget := b;
          tech_level := t; results := rs |}) /\
    length (messages (snd (run s))) = (length (messages s) + 3)%nat /\
    (length rs <= 3)%nat /\
    (forall r, In r rs ->
               exists c, category (tool r) = Some c /\ In c cats).
Proof.
  intros Hb Ht Hwf run.
  destruct (classify_scenario_shape str_lower text recommender)
    as [cats [Hcl [Hne _]]].
  destruct (recommend_well_formed_inr cats b t 3 recommender Hwf)
    as [rs Hrs].
  destruct (dict_getitem_In BUDGET_NAMES b Hb) as [bn Hbn].
  destruct (dict_getitem_In TECH_NAMES t Ht) as [tn Htn].
  exists cats, rs.
  assert (Hrun : exists msgs,
             length msgs = (length (messages s) + 3)%nat /\
             run s
             = (inr tt,
                {| step := 4; messages := msgs; user_task := text;
                   categories := cats; budget := b; tech_level := t;
                   results := rs |})).
  { subst run. unfold and_then, handle_task_input.
    rewrite Hcl. cbn [fst ret].
    unfold handle_budget_input. rewrite Hbn.
    unfold handle_tech_input. rewrite Htn.
    cbn [categories budget tech_level set_step add_message set_tech_level
         set_budget set_categories set_user_task].
    rewrite Hrs.
    eexists. split; cycle 1; [reflexivity|].
    cbn [messages set_step add_message set_tech_level set_budget
         set_categories set_user_task].
    rewrite !length_app. cbn [length]. lia. }
  destruct Hrun as [msgs [Hlen Hrun]].
  split; [rewrite Hcl; reflexivity|]. split; [exact Hne|].
  split; [exact Hrs|].
  rewrite Hrun. cbn [snd messages].
  split; [reflexivity|]. split; [exact Hlen|].
  split; [apply (recommend_length _ _ _ _ _ _ Hrs); lia|].
  intros r Hr.
  destruct (recommend_In _ _ _ _ _ _ _ Hrs Hr) as [u [_ Hbody]].
  apply recommend_body_Some in Hbody as [<- [Hc _]].
  unfold category_in in Hc.
  destruct (category (tool r)) as [c|]; [|discriminate].
  exists c. split; [reflexivity | apply list_in_In, Hc].
Qed.

Lemma conversation_results_witness :
  exists cats rs,
    fst (classify_scenario lower_ascii "debug my API" sample_catalog)
    = inr cats /\
    fst (recommend cats "free" "beginner" 3 sample_catalog) = inr rs /\
    results
      (snd (and_then (handle_task_input lower_ascii sample_catalog
                        "debug my API")
              (and_then (handle_budget_input "free")
                        (handle_tech_input sample_catalog "beginner"))
              initial_state))
    = rs /\
    (length rs <= 3)%nat.
Proof.
  destruct (conversation_results lower_ascii sample_catalog initial_state
              "debug my API" "free" "beginner")
    as [cats [rs [Hc [_ [Hr [Hrun [_ [Hlen _]]]]]]]].
  - cbn. tauto.
  - cbn. tauto.
  - reflexivity.
  - exists cats, rs. rewrite Hrun. cbn [snd results]. tauto.
Defined.



(** ** The candidates left out *)

Lemma StronglySorted_app_dominates {A : Type} (R : A -> A -> Prop)
    (l1 l2 : list A) (x y : A) :
  StronglySorted R (l1 ++ l2) -> In x l1 -> In y l2 -> R x y.
Proof.
  induction l1 as [|a l1 IH]; intros Hs Hx Hy; [contradiction|].
  cbn [app] in Hs. inversion Hs as [|? ? Hs' Ha]; subst.
  destruct Hx as [->|Hx].
  - rewrite Forall_forall in Ha. apply Ha, in_or_app. right. exact Hy.
  - apply IH; assumption.
Qed.

(** X21: no candidate that [recommend] leaves out scores higher than one
    it returns: for [top_n >= 0], every returned candidate has a score at
    least that of every candidate of the whole ranking (what a [top_n] as
    large as the catalog gives) that is not returned. *)
Theorem top_n_are_the_best (cats : list string) (b t : string) (top_n : Z)
    (self : Recommender) (rs whole : list ToolResult) (r r' : ToolResult) :
  0 <= top_n ->
  fst (recommend cats b t top_n self) = inr rs ->
  fst (recommend cats b t (Z.of_nat (length (tools self))) self)
  = inr whole ->
  In r rs -> In r' whole -> ~ In r' rs ->
  (score r' <= score r)%Q.
Proof.
  intros Hn Hrs Hwhole Hr Hr' Hout.
  rewrite (recommend_any_top_n _ _ _ top_n _ _ _ Hrs) in Hwhole.
  apply recommend_inr in Hrs.
  set (ranked := sort_reverse score Qltb
                   (surviving cats b t (tools self))) in *.
  rewrite slice_to_nonneg in Hrs, Hwhole by lia.
  rewrite Nat2Z.id in Hwhole.
  rewrite firstn_all2 in Hwhole
    by (unfold ranked; rewrite sort_reverse_length; apply surviving_length).
  injection Hwhole as <-. subst rs.
  assert (Hs : StronglySorted (not_above score Qltb)
                 (firstn (Z.to_nat top_n) ranked
                  ++ skipn (Z.to_nat top_n) ranked)).
  { rewrite firstn_skipn.
    apply sort_reverse_sorted; [exact Qltb_asym | exact Qltb_cotrans]. }
  rewrite <- (firstn_skipn (Z.to_nat top_n) ranked) in Hr'.
  apply in_app_or in Hr' as [Hin|Hin]; [contradiction|].
  apply Qltb_ge.
  exact (StronglySorted_app_dominates _ _ _ _ _ Hs Hr Hin).
Qed.

Lemma top_n_are_the_best_witness :
  (8 + (2 # 10) + 9 * (1 # 10)
   <= 8 + (3 # 10) + (2 # 10) + 7 * (1 # 10))%Q.
Proof.
  apply (top_n_are_the_best ["coding"] "medium" "beginner" 1 sample_catalog
           _ _
           {| tool := tool_A;
              score := (8 + (3 # 10) + (2 # 10) + 7 * (1 # 10))%Q;
              match_reasons := ["有免费版"; "适合你的技术水平"] |}
           {| tool := tool_B;
              score := (8 + (2 # 10) + 9 * (1 # 10))%Q;
              match_reasons := ["适合你的技术水平"] |}
           ltac:(lia) eq_refl eq_refl).
  - left. reflexivity.
  - right. left. reflexivity.
  - intros [H|[]]. discriminate.
Defined.

(** ** Examples for the other methods *)

Example get_tool_by_id_stops_at_missing_id :
  fst (get_tool_by_id "A" {| tools := [tool_no_id; tool_A] |})
  = inl (KeyError "id") /\
  fst (get_tool_by_id "A" {| tools := [tool_A; tool_no_id] |})
  = inr (Some tool_A) /\
  fst (get_tool_by_id "Z" sample_catalog) = inr None.
Proof. repeat split; reflexivity. Qed.

Example conversation_example :
  map (fun r => tool_id (tool r))
      (results
         (snd (and_then (handle_task_input lower_ascii sample_catalog
                           "帮我写代码")
                 (and_then (handle_budget_input "medium")
                           (handle_tech_input sample_catalog "beginner"))
                 initial_state)))
  = [Some "A"; Some "B"; Some "C"].
Proof. reflexivity. Qed.

(** * Ranking, whatever the rounding *)

Section RoundedFacts.
Variable ar : Arithmetic.

Lemma recommend_body_in_total (categories : list string) (budget : string)
    (budget_limit user_tech : Z) (t : Tool) :
  has_scores t = true ->
  exists o, recommend_body_in ar categories budget budget_limit user_tech t
            = inr o.
Proof.
  unfold has_scores, recommend_body_in. intros H.
  destruct (category_in t categories); cbn [negb]; [|eexists; reflexivity].
  destruct (scores t) as [s|]; [|discriminate].
  cbn [getitem bind ret raise].
  destruct (overall s) as [o|]; [|discriminate].
  destruct (value s) as [v|]; [|discriminate].
  cbn [getitem bind ret raise].
  destruct (String.eqb budget "free" && negb (free_tier_of t));
    [eexists; reflexivity|].
  destruct (budget_adjust_in _ _ _ _ _ _) as [s1 r1].
  destruct (tech_adjust_in _ _ _ _ _) as [s2 r2].
  cbn [getitem bind ret raise].
  eexists; reflexivity.
Qed.

Lemma recommend_loop_in_well_formed (categories : list string)
    (budget tech_level : string) (ts : list Tool) (acc : list ToolResult) :
  well_formed ts = true ->
  recommend_loop_in ar categories budget (dict_get BUDGET_LEVELS budget 50)
    (dict_get TECH_LEVELS tech_level 1) ts acc
  = inr (acc ++ surviving_in ar categories budget tech_level ts).
Proof.
  revert acc. induction ts as [|t ts IH]; intros acc Hwf;
    cbn [recommend_loop_in surviving_in flat_map ret].
  - rewrite app_nil_r. reflexivity.
  - fold (surviving_in ar categories budget tech_level ts).
    cbn [well_formed forallb] in Hwf. fold (well_formed ts) in Hwf.
    apply andb_true_iff in Hwf as [Ht Hts].
    destruct (recommend_body_in_total categories budget
                (dict_get BUDGET_LEVELS budget 50)
                (dict_get TECH_LEVELS tech_level 1) t Ht) as [o Ho].
    rewrite Ho. destruct o as [r|]; cbn [bind app].
    + rewrite IH by exact Hts. rewrite <- app_assoc. reflexivity.
    + apply IH. exact Hts.
Qed.
End RoundedFacts.

(** Without rounding, the method is [recommend]. *)
Lemma recommend_body_in_exact (categories : list string) (budget : string)
    (budget_limit user_tech : Z) (t : Tool) :
  recommend_body_in exact_arithmetic categories budget budget_limit
    user_tech t
  = recommend_body categories budget budget_limit user_tech t.
Proof. reflexivity. Qed.

Lemma recommend_loop_in_exact (categories : list string) (budget : string)
    (budget_limit user_tech : Z) (ts : list Tool) (acc : list ToolResult) :
  recommend_loop_in exact_arithmetic categories budget budget_limit
    user_tech ts acc
  = recommend_loop categories budget budget_limit user_tech ts acc.
Proof.
  revert acc. induction ts as [|t ts IH]; intros acc;
    cbn [recommend_loop_in recommend_loop]; [reflexivity|].
  rewrite recommend_body_in_exact.
  destruct (recommend_body categories budget budget_limit user_tech t)
    as [e|[r|]]; cbn [bind]; auto.
Qed.

Lemma recommend_in_exact (categories : list string)
    (budget tech_level : string) (top_n : Z) (self : Recommender) :
  recommend_in exact_arithmetic categories budget tech_level top_n self
  = recommend categories budget tech_level top_n self.
Proof.
  unfold recommend_in, recommend. rewrite recommend_loop_in_exact.
  reflexivity.
Qed.

(** C2: on a catalog whose records have their scores, and for a positive
    [top_n], [recommend] returns, whatever the rounding of the score
    arithmetic is, the first [min top_n k] elements of the ranking of the
    [k] surviving candidates, where the ranking holds the survivors, each
    as often as it survived, in descending order of the scores they were
    given, the candidates of one score in their catalog order, and is the
    only list in that order.  With no survivor the result is the empty
    list, returned and not raised. *)
Theorem recommend_ranking (ar : Arithmetic) (categories : list string)
    (budget tech_level : string) (top_n : Z) (self : Recommender) :
  well_formed (tools self) = true ->
  0 < top_n ->
  let survivors :=
    surviving_in ar categories budget tech_level (tools self) in
  let k := Nat.min (Z.to_nat top_n) (length survivors) in
  exists ranked,
    Permutation ranked survivors /\
    StronglySorted (fun r1 r2 => (score r2 <= score r1)%Q) ranked /\
    (forall q,
        filter (fun r => Qeq_bool (score r) q) ranked
        = filter (fun r => Qeq_bool (score r) q) survivors) /\
    (forall l,
        StronglySorted (fun r1 r2 => (score r2 <= score r1)%Q) l ->
        (forall q,
            filter (fun r => Qeq_bool (score r) q) l
            = filter (fun r => Qeq_bool (score r) q) survivors) ->
        l = ranked) /\
    recommend_in ar categories budget tech_level top_n self
    = (inr (firstn k ranked), self) /\
    length (firstn k ranked) = k /\
    (survivors = [] ->
     recommend_in ar categories budget tech_level top_n self
     = (inr [], self)).
Proof.
  intros Hwf Hn survivors k.
  exists (sort_reverse score Qltb survivors).
  assert (Hrec : recommend_in ar categories budget tech_level top_n self
                 = (inr (firstn k (sort_reverse score Qltb survivors)), self)).
  { unfold recommend_in.
    rewrite (recommend_loop_in_well_formed ar categories budget tech_level
               (tools self) [] Hwf).
    cbn [bind ret app]. fold survivors.
    rewrite slice_to_nonneg by lia.
    subst k. rewrite <- (sort_reverse_length score Qltb survivors).
    rewrite firstn_min. reflexivity. }
  split; [apply sort_reverse_perm|].
  split.
  { eapply StronglySorted_impl;
      [|apply (sort_reverse_sorted score Qltb survivors
                 Qltb_asym Qltb_cotrans)].
    intros x y Hxy. apply Qltb_ge. exact Hxy. }
  assert (Hstable : forall q,
             filter (fun r => Qeq_bool (score r) q)
                    (sort_reverse score Qltb survivors)
             = filter (fun r => Qeq_bool (score r) q) survivors).
  { intros q.
    pose proof (sort_reverse_stable score Qltb q survivors
                  Qltb_asym Qltb_cotrans) as Hst.
    rewrite !(filter_ext _ _ (same_key_Qeq q)) in Hst. exact Hst. }
  split; [exact Hstable|].
  split.
  { intros l Hl Hfl.
    apply (stable_sorted_unique score Qltb l _ Qltb_asym).
    - eapply StronglySorted_impl; [|exact Hl].
      intros x y Hxy. apply Qltb_ge. exact Hxy.
    - apply sort_reverse_sorted; [exact Qltb_asym | exact Qltb_cotrans].
    - intros q. rewrite !(filter_ext _ _ (same_key_Qeq q)).
      rewrite Hfl, Hstable. reflexivity. }
  split; [exact Hrec|].
  split.
  { rewrite length_firstn, sort_reverse_length. subst k. lia. }
  intros He. rewrite Hrec. subst k. rewrite He. cbn [length].
  rewrite Nat.min_0_r. reflexivity.
Qed.

Lemma recommend_ranking_witness :
  well_formed (tools sample_catalog) = true /\
  exists ranked,
    Permutation ranked
      (surviving_in eighth_arithmetic ["coding"] "medium" "beginner"
         (tools sample_catalog)) /\
    recommend_in eighth_arithmetic ["coding"] "medium" "beginner" 2
      sample_catalog
    = (inr (firstn 2 ranked), sample_catalog).
Proof.
  split; [reflexivity|].
  destruct (recommend_ranking eighth_arithmetic ["coding"] "medium"
              "beginner" 2 sample_catalog)
    as [ranked [Hperm [_ [_ [_ [Hrec _]]]]]]; [reflexivity | lia |].
  exists ranked. split; [exact Hperm | exact Hrec].
Defined.

(** The order of two candidates can depend on the rounding: the ranking is
    by the scores as they were computed. *)
Example ranking_follows_the_rounding :
  map (fun r => tool_id (tool r))
      (match fst (recommend_in exact_arithmetic ["coding"] "medium"
                    "beginner" 2 {| tools := [tool_X; tool_Y] |}) with
       | inr rs => rs
       | inl _ => []
       end)
  = [Some "X"; Some "Y"] /\
  map (fun r => tool_id (tool r))
      (match fst (recommend_in eighth_arithmetic ["coding"] "medium"
                    "beginner" 2 {| tools := [tool_X; tool_Y] |}) with
       | inr rs => rs
       | inl _ => []
       end)
  = [Some "Y"; Some "X"].
Proof. split; vm_compute; reflexivity. Qed.

(** * The catalog in the store *)

Lemma nth_error_last {A : Type} (l : list A) (x : A) :
  nth_error (l ++ [x]) (length l) = Some x.
Proof.
  rewrite nth_error_app2 by lia. rewrite Nat.sub_diag. reflexivity.
Qed.

Lemma heap_set_last (h : Heap) (o o' : Obj) :
  heap_set (h ++ [o]) (length h) o' = h ++ [o'].
Proof.
  unfold heap_set.
  rewrite firstn_app, Nat.sub_diag, firstn_all, firstn_O, app_nil_r.
  rewrite skipn_app, Nat.sub_diag, skipn_all. reflexivity.
Qed.

Lemma list_append_last (h : Heap) (items : list string) (x : string) :
  list_append (length h) x (h ++ [OList items])
  = (inr tt, h ++ [OList (items ++ [x])]).
Proof.
  unfold list_append. rewrite nth_error_last, heap_set_last. reflexivity.
Qed.

Lemma counts_setitem_last (h : Heap) (entries : list (string * nat))
    (k : string) (v : nat) :
  counts_setitem (length h) k v (h ++ [OCounts entries])
  = (inr tt, h ++ [OCounts (dict_set entries k v)]).
Proof.
  unfold counts_setitem. rewrite nth_error_last, heap_set_last. reflexivity.
Qed.

Lemma pbind_run {A B : Type} (m : prog A) (f : A -> prog B) (h : Heap) :
  pbind m f h
  = match m h with
    | (inl e, h') => (inl e, h')
    | (inr a, h') => f a h'
    end.
Proof. reflexivity. Qed.

Section StoreFacts.
Variable ar : Arithmetic.

(** One pass of the loop body on the store does what the pass on the
    record does, and leaves the store as it was, with one object more when
    it got as far as [reasons = []]: the list of reasons. *)
Lemma recommend_body_h_spec (categories : list string) (budget : string)
    (budget_limit user_tech : Z) (a : nat) (t : Tool) (h : Heap) :
  nth_error h a = Some (ODict t) ->
  exists res ext,
    recommend_body_h ar categories budget budget_limit user_tech a h
    = (res, h ++ ext) /\
    match recommend_body_in ar categories budget budget_limit user_tech t,
          res with
    | inl e, inl e' => e' = e
    | inr None, inr None => True
    | inr (Some r), inr (Some c) =>
        tool r = t /\
        c = {| cand_tool := a; cand_score := score r;
               cand_reasons := length h |} /\
        ext = [OList (match_reasons r)]
    | _, _ => False
    end.
Proof.
  intros Ha. unfold recommend_body_in, recommend_body_h.
  rewrite pbind_run. unfold read_dict. rewrite Ha. cbv beta iota.
  destruct (category_in t categories); cbn [negb].
  2:{ exists (inr None), []. rewrite app_nil_r. split; reflexivity. }
  destruct (scores t) as [s|].
  2:{ exists (inl (KeyError "scores")), [OList []]. split; reflexivity. }
  destruct (overall s) as [o|] eqn:Ho.
  2:{ exists (inl (KeyError "overall")), [OList []].
      cbv beta iota delta [pbind pret plift ret raise getitem bind alloc].
      rewrite Ho. split; reflexivity. }
  cbv beta iota delta [pbind pret plift ret raise getitem bind alloc].
  rewrite Ho. cbv beta iota.
  destruct (String.eqb budget "free" && negb (free_tier_of t)).
  { exists (inr None), [OList []]. split; reflexivity. }
  unfold budget_adjust_in, tech_adjust_in.
  destruct (free_tier_of t); cbn [negb andb];
    [|destruct (Qltb (inject_Z budget_limit) (py_min (plan_prices t) 0))];
    destruct (tool_tech_of t <=? user_tech);
    try destruct (user_tech + 1 <? tool_tech_of t);
    repeat (rewrite list_append_last; cbv beta iota; cbn [app]);
    (destruct (value s) as [v|];
     eexists; eexists; (split; [reflexivity|]);
     first [reflexivity | repeat split]).
Qed.

Lemma recommend_body_h_frame (categories : list string) (budget : string)
    (budget_limit user_tech : Z) (a : nat) (h : Heap) :
  exists res ext,
    recommend_body_h ar categories budget budget_limit user_tech a h
    = (res, h ++ ext) /\
    forall c, res = inr (Some c) ->
              cand_tool c = a /\ cand_reasons c = length h.
Proof.
  destruct (nth_error h a) as [[t| | |]|] eqn:Ha.
  1:{ destruct (recommend_body_h_spec categories budget budget_limit
                  user_tech a t h Ha) as [res [ext [Hrun Hrel]]].
      exists res, ext. split; [exact Hrun|].
      intros c ->.
      destruct (recommend_body_in ar categories budget budget_limit
                  user_tech t) as [e|[r|]]; try contradiction.
      destruct Hrel as [_ [-> _]]. split; reflexivity. }
  all: exists (inl AttributeError), []; rewrite app_nil_r;
    (split; [|discriminate]);
    unfold recommend_body_h; rewrite pbind_run; unfold read_dict;
    rewrite Ha; reflexivity.
Qed.

Lemma recommend_loop_h_frame (categories : list string) (budget : string)
    (budget_limit user_tech : Z) (refs : list nat)
    (acc : list ToolResultObj) (h : Heap) :
  exists res ext,
    recommend_loop_h ar categories budget budget_limit user_tech refs acc h
    = (res, h ++ ext) /\
    forall cs, res = inr cs ->
      exists new,
        cs = acc ++ new /\
        forall c, In c new ->
                  In (cand_tool c) refs /\ (length h <= cand_reasons c)%nat.
Proof.
  revert acc h. induction refs as [|a refs IH]; intros acc h;
    cbn [recommend_loop_h].
  - exists (inr acc), []. rewrite app_nil_r. split; [reflexivity|].
    intros cs H. injection H as <-. exists []. rewrite app_nil_r.
    split; [reflexivity | intros c []].
  - rewrite pbind_run.
    destruct (recommend_body_h_frame categories budget budget_limit
                user_tech a h) as [res [ext [Hrun Hc]]].
    rewrite Hrun. destruct res as [e|[c|]].
    + exists (inl e), ext. split; [reflexivity | discriminate].
    + destruct (IH (acc ++ [c]) (h ++ ext)) as [res' [ext' [Hrun' Hnew]]].
      exists res', (ext ++ ext'). rewrite app_assoc.
      split; [exact Hrun'|].
      intros cs Hcs. destruct (Hnew cs Hcs) as [new [-> Hin]].
      exists (c :: new). rewrite <- app_assoc. split; [reflexivity|].
      intros c' [<-|Hc'].
      * destruct (Hc c eq_refl) as [-> ->]. split; [left; reflexivity|lia].
      * destruct (Hin c' Hc') as [H1 H2]. split; [right; exact H1|].
        rewrite length_app in H2. lia.
    + destruct (IH acc (h ++ ext)) as [res' [ext' [Hrun' Hnew]]].
      exists res', (ext ++ ext'). rewrite app_assoc.
      split; [exact Hrun'|].
      intros cs Hcs. destruct (Hnew cs Hcs) as [new [-> Hin]].
      exists new. split; [reflexivity|].
      intros c' Hc'. destruct (Hin c' Hc') as [H1 H2].
      split; [right; exact H1|]. rewrite length_app in H2. lia.
Qed.

Lemma recommend_h_frame (categories : list string)
    (budget tech_level : string) (top_n : Z) (self_tools : nat) (h : Heap) :
  exists res ext,
    recommend_h ar categories budget tech_level top_n self_tools h
    = (res, h ++ ext) /\
    forall cs refs c,
      res = inr cs -> nth_error h self_tools = Some (ORefs refs) ->
      In c cs ->
      In (cand_tool c) refs /\ (length h <= cand_reasons c)%nat.
Proof.
  unfold recommend_h. rewrite pbind_run. unfold read_refs.
  destruct (nth_error h self_tools) as [[t|refs| |]|] eqn:Hs;
    try (exists (inl AttributeError), []; rewrite app_nil_r;
         split; [reflexivity | discriminate]).
  rewrite pbind_run.
  destruct (recommend_loop_h_frame categories budget
              (dict_get BUDGET_LEVELS budget 50)
              (dict_get TECH_LEVELS tech_level 1) refs [] h)
    as [res [ext [Hrun Hnew]]].
  rewrite Hrun. destruct res as [e|cs].
  - exists (inl e), ext. split; [reflexivity | discriminate].
  - eexists. exists ext. split; [reflexivity|].
    intros cs' refs' c H Hrefs Hc. injection H as <-.
    injection Hrefs as <-.
    destruct (Hnew cs eq_refl) as [new [-> Hin]].
    apply Hin. apply In_slice_to, sort_reverse_In in Hc. exact Hc.
Qed.
End StoreFacts.

Lemma classify_loop_h_spec (str_lower : string -> string)
    (text_lower : string) (items : list (string * list string))
    (entries : list (string * nat)) (h : Heap) :
  classify_loop_h str_lower text_lower items (length h)
    (h ++ [OCounts entries])
  = (inr tt,
     h ++ [OCounts (classify_loop str_lower text_lower items entries)]).
Proof.
  revert entries. induction items as [|[c kws] items IH]; intros entries;
    cbn [classify_loop_h classify_loop]; [reflexivity|].
  destruct (0 <? keyword_count str_lower text_lower kws)%nat; [|apply IH].
  rewrite pbind_run, counts_setitem_last. apply IH.
Qed.

(** On the store [classify_scenario] returns what it returns without one,
    and leaves the store with one object more: its dict [scores]. *)
Lemma classify_scenario_h_spec (str_lower : string -> string)
    (text : string) (self : Recommender) (h : Heap) :
  classify_scenario_h str_lower text h
  = (fst (classify_scenario str_lower text self),
     h ++ [OCounts (classify_loop str_lower (str_lower text)
                      CATEGORY_KEYWORDS [])]).
Proof.
  unfold classify_scenario_h, classify_scenario.
  rewrite pbind_run. cbn [alloc]. rewrite pbind_run.
  rewrite classify_loop_h_spec. rewrite pbind_run.
  unfold read_counts. rewrite nth_error_last.
  destruct (classify_loop str_lower (str_lower text) CATEGORY_KEYWORDS []);
    reflexivity.
Qed.

(** What a candidate shows does not change when the store grows. *)
Lemma view_extend (h ext : Heap) (c : ToolResultObj) (r : ToolResult) :
  view h c = Some r -> view (h ++ ext) c = Some r.
Proof.
  unfold view.
  destruct (nth_error h (cand_tool c)) as [o1|] eqn:H1; [|discriminate].
  destruct (nth_error h (cand_reasons c)) as [o2|] eqn:H2;
    [|destruct o1; discriminate].
  assert (L1 : (cand_tool c < length h)%nat)
    by (apply nth_error_Some; congruence).
  assert (L2 : (cand_reasons c < length h)%nat)
    by (apply nth_error_Some; congruence).
  rewrite !nth_error_app1 by assumption.
  rewrite H1, H2. exact (fun H => H).
Qed.

Lemma Forall2_dict_extend (h ext : Heap) (refs : list nat) (ts : list Tool) :
  Forall2 (fun a t => nth_error h a = Some (ODict t)) refs ts ->
  Forall2 (fun a t => nth_error (h ++ ext) a = Some (ODict t)) refs ts.
Proof.
  intros H. eapply Forall2_impl; [|exact H].
  intros a t Ha. rewrite nth_error_app1; [exact Ha|].
  apply nth_error_Some. congruence.
Qed.

Lemma insert_reverse_Forall2 {A B K : Type} (R : A -> B -> Prop)
    (key1 : A -> K) (key2 : B -> K) (lt : K -> K -> bool)
    (x : A) (y : B) (l1 : list A) (l2 : list B) :
  (forall a b, R a b -> key1 a = key2 b) ->
  R x y -> Forall2 R l1 l2 ->
  Forall2 R (insert_reverse key1 lt x l1) (insert_reverse key2 lt y l2).
Proof.
  intros Hkey Hxy H. induction H as [|a b l1 l2 Hab H IH];
    cbn [insert_reverse].
  - repeat constructor. exact Hxy.
  - rewrite (Hkey x y Hxy), (Hkey a b Hab).
    destruct (lt (key2 y) (key2 b)); repeat constructor; assumption.
Qed.

Lemma sort_reverse_Forall2 {A B K : Type} (R : A -> B -> Prop)
    (key1 : A -> K) (key2 : B -> K) (lt : K -> K -> bool)
    (l1 : list A) (l2 : list B) :
  (forall a b, R a b -> key1 a = key2 b) ->
  Forall2 R l1 l2 ->
  Forall2 R (sort_reverse key1 lt l1) (sort_reverse key2 lt l2).
Proof.
  intros Hkey H. induction H as [|a b l1 l2 Hab H IH];
    cbn [sort_reverse fold_right]; [constructor|].
  apply insert_reverse_Forall2; assumption.
Qed.

Lemma firstn_Forall2 {A B : Type} (R : A -> B -> Prop) (n : nat)
    (l1 : list A) (l2 : list B) :
  Forall2 R l1 l2 -> Forall2 R (firstn n l1) (firstn n l2).
Proof.
  intros H. revert n. induction H as [|a b l1 l2 Hab H IH]; intros [|n];
    cbn [firstn]; constructor; auto.
Qed.

Lemma slice_to_Forall2 {A B : Type} (R : A -> B -> Prop) (n : Z)
    (l1 : list A) (l2 : list B) :
  Forall2 R l1 l2 -> Forall2 R (slice_to l1 n) (slice_to l2 n).
Proof.
  intros H. unfold slice_to. rewrite (Forall2_length H).
  destruct (n <? 0); apply firstn_Forall2, H.
Qed.

Lemma view_score (h : Heap) (c : ToolResultObj) (r : ToolResult) :
  view h c = Some r -> cand_score c = score r.
Proof.
  unfold view.
  destruct (nth_error h (cand_tool c)) as [[t| | |]|]; try discriminate.
  destruct (nth_error h (cand_reasons c)) as [[| |items|]|];
    try discriminate.
  intros H. injection H as <-. reflexivity.
Qed.

Section StoreRefinement.
Variable ar : Arithmetic.

Lemma recommend_loop_h_refines (categories : list string) (budget : string)
    (budget_limit user_tech : Z) (refs : list nat) (ts : list Tool)
    (acc : list ToolResultObj) (acc' : list ToolResult) (h : Heap) :
  Forall2 (fun a t => nth_error h a = Some (ODict t)) refs ts ->
  Forall2 (fun c r => view h c = Some r) acc acc' ->
  exists res ext,
    recommend_loop_h ar categories budget budget_limit user_tech refs acc h
    = (res, h ++ ext) /\
    match recommend_loop_in ar categories budget budget_limit user_tech
            ts acc', res with
    | inl e, inl e' => e' = e
    | inr rs, inr cs =>
        Forall2 (fun c r => view (h ++ ext) c = Some r) cs rs
    | _, _ => False
    end.
Proof.
  revert refs acc acc' h.
  induction ts as [|t ts IH]; intros refs acc acc' h Hrefs Hacc;
    inversion Hrefs as [|a t' refs' ts' Ha Hrest]; subst;
    cbn [recommend_loop_h recommend_loop_in ret].
  - exists (inr acc), []. rewrite app_nil_r. split; [reflexivity | exact Hacc].
  - rewrite pbind_run.
    destruct (recommend_body_h_spec ar categories budget budget_limit
                user_tech a t h Ha) as [res [ext [Hrun Hrel]]].
    rewrite Hrun.
    destruct (recommend_body_in ar categories budget budget_limit
                user_tech t) as [e|[r|]];
      destruct res as [e'|[c|]]; try contradiction; cbn [bind].
    + exists (inl e'), ext. split; [reflexivity | exact Hrel].
    + destruct Hrel as [Htool [-> ->]].
      assert (Hacc1 : Forall2
                        (fun c r0 => view (h ++ [OList (match_reasons r)]) c
                                     = Some r0)
                        (acc ++ [ {| cand_tool := a; cand_score := score r;
                                     cand_reasons := length h |} ])
                        (acc' ++ [r])).
      { apply Forall2_app.
        - eapply Forall2_impl; [|exact Hacc].
          intros c r' Hv. apply view_extend, Hv.
        - repeat constructor. unfold view. cbn [cand_tool cand_reasons].
          rewrite nth_error_app1
            by (apply nth_error_Some; congruence).
          rewrite Ha, nth_error_last. subst t. destruct r; reflexivity. }
      destruct (IH _ _ _ _ (Forall2_dict_extend h _ _ _ Hrest) Hacc1)
        as [res' [ext' [Hrun' Hrel']]].
      exists res', ([OList (match_reasons r)] ++ ext').
      rewrite app_assoc. split; [exact Hrun' | exact Hrel'].
    + assert (Hacc1 : Forall2 (fun c r => view (h ++ ext) c = Some r)
                        acc acc').
      { eapply Forall2_impl; [|exact Hacc].
        intros c r' Hv. apply view_extend, Hv. }
      destruct (IH _ _ _ _ (Forall2_dict_extend h ext _ _ Hrest) Hacc1)
        as [res' [ext' [Hrun' Hrel']]].
      exists res', (ext ++ ext'). rewrite app_assoc.
      split; [exact Hrun' | exact Hrel'].
Qed.

(** On a store that holds the catalog, [recommend] raises what it raises
    on the catalog, or returns candidates that show, in the store it
    leaves, the records and the scores and reasons it returns on the
    catalog. *)
Lemma recommend_h_refines (categories : list string)
    (budget tech_level : string) (top_n : Z) (self_tools : nat)
    (ts : list Tool) (h : Heap) :
  catalog_at h self_tools ts ->
  exists res ext,
    recommend_h ar categories budget tech_level top_n self_tools h
    = (res, h ++ ext) /\
    match fst (recommend_in ar categories budget tech_level top_n
                 {| tools := ts |}), res with
    | inl e, inl e' => e' = e
    | inr rs, inr cs =>
        Forall2 (fun c r => view (h ++ ext) c = Some r) cs rs
    | _, _ => False
    end.
Proof.
  intros [refs [Hs Hrefs]].
  unfold recommend_h, recommend_in. cbn [fst tools].
  rewrite pbind_run. unfold read_refs. rewrite Hs. rewrite pbind_run.
  destruct (recommend_loop_h_refines categories budget
              (dict_get BUDGET_LEVELS budget 50)
              (dict_get TECH_LEVELS tech_level 1) refs ts [] [] h
              Hrefs (Forall2_nil _)) as [res [ext [Hrun Hrel]]].
  rewrite Hrun.
  destruct (recommend_loop_in ar categories budget _ _ ts []) as [e|rs];
    destruct res as [e'|cs]; try contradiction; cbn [bind ret].
  - exists (inl e'), ext. split; [reflexivity | exact Hrel].
  - eexists. exists ext. split; [reflexivity|].
    apply slice_to_Forall2.
    apply sort_reverse_Forall2; [|exact Hrel].
    intros c r. apply view_score.
Qed.
End StoreRefinement.

(** C9: on a store of shared objects, [recommend] and [classify_scenario]
    leave every object that was there before the call as it was, whether
    they return or raise: the store after the call is the store before it
    followed by the objects the call created (its lists of reasons, its
    dict [scores]).  So the list [self.tools] and every record, with its
    scores, its pricing and its technical level, are after the call what
    they were before.  A candidate that [recommend] returns names a record
    of [self.tools], the object itself and no copy, and holds its own
    score and a list of reasons that the call created; and on a store that
    holds a catalog the candidates show, after the call, the records of
    the catalog with the scores and reasons [recommend] gives them. *)
Theorem catalog_unchanged (ar : Arithmetic) (str_lower : string -> string)
    (categories : list string) (budget tech_level text : string) (top_n : Z)
    (self_tools : nat) (h : Heap) :
  let after_recommend :=
    snd (recommend_h ar categories budget tech_level top_n self_tools h) in
  let after_classify := snd (classify_scenario_h str_lower text h) in
  (exists ext, after_recommend = h ++ ext) /\
  (exists ext, after_classify = h ++ ext) /\
  (forall a o,
      nth_error h a = Some o ->
      nth_error after_recommend a = Some o /\
      nth_error after_classify a = Some o) /\
  (forall cs refs c,
      fst (recommend_h ar categories budget tech_level top_n self_tools h)
      = inr cs ->
      nth_error h self_tools = Some (ORefs refs) ->
      In c cs ->
      In (cand_tool c) refs /\ (length h <= cand_reasons c)%nat) /\
  (forall ts,
      catalog_at h self_tools ts ->
      match fst (recommend_in ar categories budget tech_level top_n
                   {| tools := ts |}),
            fst (recommend_h ar categories budget tech_level top_n
                   self_tools h) with
      | inl e, inl e' => e' = e
      | inr rs, inr cs =>
          Forall2 (fun c r => view after_recommend c = Some r) cs rs
      | _, _ => False
      end).
Proof.
  intros after_recommend after_classify.
  destruct (recommend_h_frame ar categories budget tech_level top_n
              self_tools h) as [res [ext [Hrun Hcand]]].
  assert (Hr : after_recommend = h ++ ext)
    by (subst after_recommend; rewrite Hrun; reflexivity).
  assert (Hc : after_classify
               = h ++ [OCounts (classify_loop str_lower (str_lower text)
                                  CATEGORY_KEYWORDS [])]).
  { subst after_classify.
    rewrite (classify_scenario_h_spec str_lower text {| tools := [] |} h).
    reflexivity. }
  split; [exists ext; exact Hr|].
  split; [eexists; exact Hc|].
  split.
  { intros a o Ha.
    assert (La : (a < length h)%nat) by (apply nth_error_Some; congruence).
    rewrite Hr, Hc, !nth_error_app1 by exact La. split; exact Ha. }
  split.
  { intros cs refs c Hcs Hrefs Hin. rewrite Hrun in Hcs. cbn [fst] in Hcs.
    exact (Hcand cs refs c Hcs Hrefs Hin). }
  intros ts Hcat.
  destruct (recommend_h_refines ar categories budget tech_level top_n
              self_tools ts h Hcat) as [res' [ext' [Hrun' Hrel]]].
  subst after_recommend. rewrite Hrun'. cbn [fst snd]. exact Hrel.
Qed.

Lemma catalog_unchanged_witness :
  nth_error
    (snd (recommend_h exact_arithmetic ["coding"] "free" "beginner" 3 4%nat
            sample_store)) 0
  = Some (ODict tool_A) /\
  nth_error
    (snd (classify_scenario_h lower_ascii "debug" sample_store)) 0
  = Some (ODict tool_A).
Proof.
  apply (proj1 (proj2 (proj2 (catalog_unchanged exact_arithmetic lower_ascii
                                ["coding"] "free" "beginner" "debug" 3
                                4%nat sample_store)))).
  reflexivity.
Defined.

(** * The budget, as [recommend] reads it *)

(** X5: a record of a requested category without free tier is dropped
    under the budget [free]; under every other budget string the factor
    0.7 is applied exactly when the tool lists at least one paid plan and
    every listed plan (a plan without price counting as 0) costs more than
    the budget's ceiling; a tool that lists no plan is never penalised. *)
Theorem over_budget_iff_all_plans_above (categories : list string)
    (b tech_level : string) (t : Tool) (s : Scores) (o v : Q) :
  category_in t categories = true ->
  scores t = Some s -> overall s = Some o -> value s = Some v ->
  free_tier_of t = false ->
  let limit := dict_get BUDGET_LEVELS b 50 in
  let user_tech := dict_get TECH_LEVELS tech_level 1 in
  let body := recommend_body categories b limit user_tech t in
  let candidate (score1 : Q) :=
    let adjusted := tech_adjust (tool_tech_of t) user_tech score1 [] in
    {| tool := t;
       score := (fst adjusted + v * (1 # 10))%Q;
       match_reasons := snd adjusted |} in
  (b = "free" -> body = inr None) /\
  (b <> "free" ->
   plan_prices t <> [] /\
   (forall p, In p (plan_prices t) -> (inject_Z limit < p)%Q) ->
   body = inr (Some (candidate (o * (7 # 10))%Q))) /\
  (b <> "free" ->
   plan_prices t = [] \/
   (exists p, In p (plan_prices t) /\ (p <= inject_Z limit)%Q) ->
   body = inr (Some (candidate o))).
Proof.
  intros Hc Hs Ho Hv Hf limit user_tech body candidate.
  split; [|split].
  - intros ->. subst body. unfold recommend_body.
    rewrite Hc, Hs. cbn [negb getitem bind ret raise]. rewrite Ho.
    cbn [getitem bind ret raise]. rewrite Hf. reflexivity.
  - intros Hb [Hne Hall]. subst body candidate.
    rewrite (recommend_body_value _ _ _ _ _ s o v Hc Hs Ho Hv)
      by (intros E; contradiction).
    destruct (py_min_least (plan_prices t) 0 Hne) as [Hin _].
    unfold budget_adjust. rewrite Hf. cbn [negb andb].
    rewrite (proj2 (Qltb_lt _ _) (Hall _ Hin)). reflexivity.
  - intros Hb Hcase. subst body candidate.
    rewrite (recommend_body_value _ _ _ _ _ s o v Hc Hs Ho Hv)
      by (intros E; contradiction).
    unfold budget_adjust. rewrite Hf. cbn [negb andb].
    assert (Hge : Qltb (inject_Z limit) (py_min (plan_prices t) 0) = false).
    { apply Qltb_ge. destruct Hcase as [He|[p [Hp Hle]]].
      - rewrite He. cbn [py_min].
        change 0%Q with (inject_Z 0). rewrite <- Zle_Qle.
        apply budget_limit_nonneg.
      - assert (Hne : plan_prices t <> [])
          by (intros E; rewrite E in Hp; exact Hp).
        destruct (py_min_least (plan_prices t) 0 Hne) as [_ Hmin].
        eapply Qle_trans; [apply Hmin, Hp | exact Hle]. }
    rewrite Hge. reflexivity.
Qed.

Lemma over_budget_iff_all_plans_above_witness :
  recommend_body ["coding"] "medium" 50 1 tool_C
  = inr (Some {| tool := tool_C;
                 score := (9 * (7 # 10) + 5 * (1 # 10))%Q;
                 match_reasons := [] |}).
Proof.
  apply (over_budget_iff_all_plans_above ["coding"] "medium" "beginner"
           tool_C _ 9 5 eq_refl eq_refl eq_refl eq_refl eq_refl).
  - discriminate.
  - split; [discriminate|]. intros p [<-|[]]. reflexivity.
Defined.

(** X9: take a record that yields a candidate under the budget [b], for
    one technical level.  With a free tier it yields the same candidate,
    score and reasons, under every budget.  Without one it is dropped
    under [free] and yields a candidate under every other budget string;
    and when the overall score is not negative, a budget whose ceiling is
    at least that of [b] never gives it a lower score. *)
Theorem higher_ceiling_never_lower (categories : list string)
    (b b' : string) (ut : Z) (t : Tool) (r : ToolResult) :
  recommend_body categories b (dict_get BUDGET_LEVELS b 50) ut t
  = inr (Some r) ->
  let body' :=
    recommend_body categories b' (dict_get BUDGET_LEVELS b' 50) ut t in
  (free_tier_of t = true -> body' = inr (Some r)) /\
  (free_tier_of t = false -> b' = "free" -> body' = inr None) /\
  (b' <> "free" ->
   exists r',
     body' = inr (Some r') /\
     (dict_get BUDGET_LEVELS b 50 <= dict_get BUDGET_LEVELS b' 50 ->
      (forall s o, scores t = Some s -> overall s = Some o -> (0 <= o)%Q) ->
      (score r <= score r')%Q)).
Proof.
  intros Hb body'.
  destruct (recommend_body_Some _ _ _ _ _ _ Hb)
    as [Htool [Hc [Hfree [s [o [v [Hs [Ho [Hv Hscore]]]]]]]]].
  split; [|split].
  - intros Hf. subst body'.
    rewrite (recommend_body_value _ _ _ _ _ s o v Hc Hs Ho Hv)
      by (intros _; exact Hf).
    rewrite (recommend_body_value _ _ _ _ _ s o v Hc Hs Ho Hv Hfree) in Hb.
    injection Hb as <-. unfold budget_adjust. rewrite Hf. reflexivity.
  - intros Hf ->. subst body'. unfold recommend_body.
    rewrite Hc, Hs. cbn [negb getitem bind ret raise]. rewrite Ho.
    cbn [getitem bind ret raise]. rewrite Hf. reflexivity.
  - intros Hb'. subst body'. eexists. split.
    + apply (recommend_body_value _ _ _ _ _ s o v Hc Hs Ho Hv).
      intros E. contradiction.
    + intros Hle Hpos. cbn [score]. rewrite Hscore.
      apply Qplus_le_compat; [|apply Qle_refl].
      unfold tech_adjust.
      destruct (tool_tech_of t <=? ut);
        [|destruct (ut + 1 <? tool_tech_of t)];
        cbn [fst];
        pose proof (budget_adjust_ceiling (free_tier_of t)
                      (py_min (plan_prices t) 0) _ _ o [] Hle
                      (Hpos s o Hs Ho)) as H; lra.
Qed.

Lemma higher_ceiling_never_lower_witness :
  exists r',
    recommend_body ["coding"] "high" 999 1 tool_C = inr (Some r') /\
    (9 * (7 # 10) + 5 * (1 # 10) <= score r')%Q.
Proof.
  destruct (higher_ceiling_never_lower ["coding"] "low" "high" 1 tool_C
              {| tool := tool_C;
                 score := (9 * (7 # 10) + 5 * (1 # 10))%Q;
                 match_reasons := [] |} eq_refl)
    as [_ [_ H]].
  destruct (H ltac:(discriminate)) as [r' [Hb Hle]].
  exists r'. split; [exact Hb|].
  apply Hle; [cbn; lia|].
  intros s o Hs Ho. injection Hs as <-. injection Ho as <-. discriminate.
Defined.
